(** * ESP32 NTP Nixie clock: time source, display scheduler and digit codec

    A shallow embedding of [NixieTubeShield.h], [LEDControl.h], [NTP.h] and of
    [updateDisplay] from the main sketch.  Machine integers are [Z] with the
    wrap-around written out ([byte] is 8 bits, [uint16_t] 16 bits,
    [unsigned long] 32 bits on the ESP32); C arrays are lists read through
    [index], which has no value outside the array.  What the program does to
    its pins and buses is kept as a log of outputs; the [Serial] messages
    are left out of it. *)

From Stdlib Require Import ZArith List Bool Lia.
From stdpp Require Import base option list.
Import ListNotations.
Local Open Scope Z_scope.

(** ** Machine arithmetic *)

Module Machine.

Definition u8 (x : Z) : Z := x mod 256.
Definition u16 (x : Z) : Z := x mod 65536.
Definition u32 (x : Z) : Z := x mod 4294967296.

(** [a[i]] for a C array held as a list: defined inside the array only. *)
Definition index {A : Type} (a : list A) (i : Z) : option A :=
  if i <? 0 then None else a !! Z.to_nat i.

(** [a[i] = v]. *)
Definition store {A : Type} (a : list A) (i : Z) (v : A) : list A :=
  <[Z.to_nat i := v]> a.

(** What the program puts on its pins and buses, in order. *)
Inductive Pin := HV_ENABLE | LATCH_ENABLE | NEON_DOTS.

Inductive Out :=
| DigitalWrite (p : Pin) (high : bool)
| SpiTransfer (b : Z)
| LedColor (r g b : Z)
| WireWrite (bytes : list Z)
| UdpSend (packet : list Z)
| Delay (ms : Z).

End Machine.
Import Machine.

(** ** LEDControl.h *)

Module LEDControl.

(** The 24 bit color type; its fields live in a name space of their own
    because the sketch also has globals called [red], [green], [blue]. *)
Module Channel.
Record RGB24 := mkRGB { red : Z; green : Z; blue : Z }.
End Channel.
Export Channel (RGB24, mkRGB).

Definition black : RGB24 := mkRGB 0 0 0.
Definition blue : RGB24 := mkRGB 0 0 127.
Definition green : RGB24 := mkRGB 0 127 0.
Definition red : RGB24 := mkRGB 127 0 0.

(** [colorWheel]: [%=] is C's truncating remainder, the channels are bytes. *)
Definition colorWheel (wheelPos : Z) : RGB24 :=
  let wheelPos := Z.rem wheelPos 256 in
  if wheelPos <? 85 then
    mkRGB (u8 (255 - wheelPos * 3)) (u8 (wheelPos * 3)) 0
  else if wheelPos <? 170 then
    let wheelPos := wheelPos - 85 in
    mkRGB 0 (u8 (255 - wheelPos * 3)) (u8 (wheelPos * 3))
  else
    let wheelPos := wheelPos - 170 in
    mkRGB (u8 (wheelPos * 3)) 0 (u8 (255 - wheelPos * 3)).

(** The gamma correction table of [setLEDColor]. *)
Definition gammaArray : list Z :=
  [0; 0; 0; 0; 0; 0; 0; 0; 0; 0; 0; 0; 0; 0; 0; 0;
   0; 0; 0; 0; 0; 0; 0; 0; 0; 0; 0; 0; 1; 1; 1; 1;
   1; 1; 1; 1; 1; 1; 1; 1; 1; 2; 2; 2; 2; 2; 2; 2;
   2; 3; 3; 3; 3; 3; 3; 3; 4; 4; 4; 4; 4; 5; 5; 5;
   5; 6; 6; 6; 6; 7; 7; 7; 7; 8; 8; 8; 9; 9; 9; 10;
   10; 10; 11; 11; 11; 12; 12; 13; 13; 13; 14; 14; 15; 15; 16; 16;
   17; 17; 18; 18; 19; 19; 20; 20; 21; 21; 22; 22; 23; 24; 24; 25;
   25; 26; 27; 27; 28; 29; 29; 30; 31; 32; 32; 33; 34; 35; 35; 36;
   37; 38; 39; 39; 40; 41; 42; 43; 44; 45; 46; 47; 48; 49; 50; 50;
   51; 52; 54; 55; 56; 57; 58; 59; 60; 61; 62; 63; 64; 66; 67; 68;
   69; 70; 72; 73; 74; 75; 77; 78; 79; 81; 82; 83; 85; 86; 87; 89;
   90; 92; 93; 95; 96; 98; 99; 101; 102; 104; 105; 107; 109; 110; 112; 114;
   115; 117; 119; 120; 122; 124; 126; 127; 129; 131; 133; 135; 137; 138; 140; 142;
   144; 146; 148; 150; 152; 154; 156; 158; 160; 162; 164; 167; 169; 171; 173; 175;
   177; 180; 182; 184; 186; 189; 191; 193; 196; 198; 200; 203; 205; 208; 210; 213;
   215; 218; 220; 223; 225; 228; 231; 233; 236; 239; 241; 244; 247; 249; 252; 255].

(** [setLEDColor(byte, byte, byte)] first replaces each channel by its table
    entry; scaling the result to a PWM duty is the platform's [map] and
    [ledcWrite]. *)
Definition gammaCorrected (c : RGB24) : option RGB24 :=
  r ← index gammaArray (Channel.red c);
  g ← index gammaArray (Channel.green c);
  b ← index gammaArray (Channel.blue c);
  Some (mkRGB r g b).

End LEDControl.
Import LEDControl.

(** ** NixieTubeShield.h *)

Module NixieTubeShield.

Definition DIGIT_BLANK : Z := 255.
Definition BLANK_DIGIT : Z := 10.
Definition UpperDotsMask : Z := 2147483648.
Definition LowerDotsMask : Z := 1073741824.

Definition SymbolArray : list Z := [1; 2; 4; 8; 16; 32; 64; 128; 256; 512].

Definition NUMERIC_DIGITS : list Z :=
  [0; 1; 2; 3; 4; 5; 6; 7; 8; 9; DIGIT_BLANK].

(** The object's data members; [digits] is in the order
    NX6, NX5, NX4, NX3, NX2, NX1. *)
Record Shield := mkShield { digits : list Z; dotsEnabled : bool }.

(** The constructor's loop stores [DIGIT_BLANK] in all six entries. *)
Definition init : Shield :=
  mkShield (repeat DIGIT_BLANK 6) false.

(** The tube positions, most significant first. *)
Inductive Slot := NX1 | NX2 | NX3 | NX4 | NX5 | NX6.

Definition slotIndex (n : Slot) : Z :=
  match n with
  | NX1 => 5 | NX2 => 4 | NX3 => 3 | NX4 => 2 | NX5 => 1 | NX6 => 0
  end.

Definition hvEnable (state : bool) (s : Shield) : Shield * list Out :=
  (s, [DigitalWrite HV_ENABLE state]).

Definition dotsEnable (state : bool) (s : Shield) : Shield * list Out :=
  (mkShield (digits s) state, [DigitalWrite NEON_DOTS state]).

(** [setNX1Digit] .. [setNX6Digit]: [digits[k] = NUMERIC_DIGITS[d]]. *)
Definition setNXDigit (n : Slot) (d : Z) (s : Shield) : option Shield :=
  code ← index NUMERIC_DIGITS d;
  Some (mkShield (store (digits s) (slotIndex n) (u16 code)) (dotsEnabled s)).

(** One [Var32 |= (unsigned long)(SymbolArray[digits[k]]) << off]. *)
Definition symbolAt (s : Shield) (k : Z) : option Z :=
  d ← index (digits s) k; index SymbolArray d.

Definition dotBits (dots : bool) (Var32 : Z) : Z :=
  let Var32 :=
    if dots then Z.lor Var32 LowerDotsMask
    else Z.land Var32 (Z.lnot LowerDotsMask) in
  if dots then Z.lor Var32 UpperDotsMask
  else Z.land Var32 (Z.lnot UpperDotsMask).

Definition packWord (hi mid lo : Z) (dots : bool) : Z :=
  let Var32 := 0 in
  let Var32 := Z.lor Var32 (u32 (Z.shiftl hi 20)) in
  let Var32 := Z.lor Var32 (u32 (Z.shiftl mid 10)) in
  let Var32 := Z.lor Var32 lo in
  dotBits dots Var32.

(** The four [SPI.transfer] calls of one word. *)
Definition wordBytes (Var32 : Z) : list Z :=
  [u8 (Z.shiftr Var32 24); u8 (Z.shiftr Var32 16);
   u8 (Z.shiftr Var32 8); u8 Var32].

(** REG 1 holds [digits[0..2]], REG 0 holds [digits[3..5]]. *)
Definition showWords (s : Shield) : option (Z * Z) :=
  s2 ← symbolAt s 0; s1 ← symbolAt s 1; m2 ← symbolAt s 2;
  m1 ← symbolAt s 3; h2 ← symbolAt s 4; h1 ← symbolAt s 5;
  Some (packWord s2 s1 m2 (dotsEnabled s), packWord m1 h2 h1 (dotsEnabled s)).

Definition show (s : Shield) : option (list Out) :=
  '(reg1, reg0) ← showWords s;
  Some ([DigitalWrite LATCH_ENABLE false]
          ++ map SpiTransfer (wordBytes reg1)
          ++ map SpiTransfer (wordBytes reg0)
          ++ [DigitalWrite LATCH_ENABLE true]).

(** [setLEDColor]: the gamma table and the PWM duty are output plumbing;
    the log keeps the three bytes the method receives. *)
Definition setLEDColor (c : RGB24) : list Out :=
  [LedColor (Channel.red c) (Channel.green c) (Channel.blue c)].

(** [doAntiPoisoning]: one pass of the inner loop body for glyph [i]. *)
Definition antiPoisonStep (i : Z) (st : Shield * bool * list Out)
  : option (Shield * bool * list Out) :=
  let '(s, dots, out) := st in
  s ← setNXDigit NX1 i s; s ← setNXDigit NX2 i s; s ← setNXDigit NX3 i s;
  s ← setNXDigit NX4 i s; s ← setNXDigit NX5 i s; s ← setNXDigit NX6 i s;
  frame ← show s;
  let color :=
    mkRGB (if Z.rem i 3 =? 0 then 255 else 0)
          (if Z.rem i 3 =? 1 then 255 else 0)
          (if Z.rem i 3 =? 2 then 255 else 0) in
  let dots := negb dots in
  let '(s, pin) := dotsEnable dots s in
  Some (s, dots, out ++ frame ++ [Delay 500] ++ setLEDColor color ++ pin).

Fixpoint forEach {A S : Type} (body : A -> S -> option S) (xs : list A)
  (st : S) : option S :=
  match xs with
  | [] => Some st
  | x :: xs' => st' ← body x st; forEach body xs' st'
  end.

Definition doAntiPoisoning (s : Shield) : option (Shield * list Out) :=
  let '(s, pin) := dotsEnable false s in
  '(s, _, out) ←
    forEach (fun _ : Z => forEach antiPoisonStep (seqZ 0 11)) (seqZ 0 4)
            (s, false, pin);
  Some (s, out).

(** The methods the sketch calls on [SHIELD], as it calls them. *)
Inductive Call :=
| HvEnable (state : bool)
| DotsEnable (state : bool)
| SetNXDigit (n : Slot) (d : Z)
| Show
| SetLEDColor (c : RGB24)
| DoAntiPoisoning
| DelayMs (ms : Z).

Definition exec (c : Call) (s : Shield) : option (Shield * list Out) :=
  match c with
  | HvEnable b => Some (hvEnable b s)
  | DotsEnable b => Some (dotsEnable b s)
  | SetNXDigit n d => s' ← setNXDigit n d s; Some (s', [])
  | Show => out ← show s; Some (s, out)
  | SetLEDColor c => Some (s, setLEDColor c)
  | DoAntiPoisoning => doAntiPoisoning s
  | DelayMs ms => Some (s, [Delay ms])
  end.

Fixpoint run (cs : list Call) (s : Shield) : option (Shield * list Out) :=
  match cs with
  | [] => Some (s, [])
  | c :: cs' =>
      '(s1, o1) ← exec c s;
      '(s2, o2) ← run cs' s1;
      Some (s2, o1 ++ o2)
  end.

(** *** The real-time clock registers *)

Record tmElements := mkTm {
  Second : Z; Minute : Z; Hour : Z; Wday : Z; Day : Z; Month : Z; Year : Z
}.

Definition decToBcd (val : Z) : Z := u8 (val / 10 * 16 + val mod 10).

Definition bcdToDec (val : Z) : Z := u8 (val / 16 * 10 + val mod 16).

Definition zero : Z := 0.

(** The bytes [setRTCDateTime] puts on the I2C bus in one transmission. *)
Definition rtcFrame (m : tmElements) : list Z :=
  [zero;
   decToBcd (Second m); decToBcd (Minute m); decToBcd (Hour m);
   decToBcd (Wday m); decToBcd (Day m); decToBcd (Month m);
   decToBcd (Year m);
   zero].

Definition setRTCDateTime (m : tmElements) : list Out :=
  [WireWrite (rtcFrame m)].

(** [Wire.read()] on the requested bytes: [-1] once they run out; the
    argument of [bcdToDec] is a [byte]. *)
Definition wireRead (regs : list Z) (k : nat) : Z := nth k regs (-1).

Definition getRTCTime (regs : list Z) : tmElements :=
  mkTm (bcdToDec (u8 (wireRead regs 0)))
       (bcdToDec (u8 (wireRead regs 1)))
       (bcdToDec (u8 (Z.land (wireRead regs 2) 63)))
       (bcdToDec (u8 (wireRead regs 3)))
       (bcdToDec (u8 (wireRead regs 4)))
       (bcdToDec (u8 (wireRead regs 5)))
       (bcdToDec (u8 (wireRead regs 6))).

End NixieTubeShield.
Import NixieTubeShield.

(** ** NTP.h *)

Module NTP.

Definition NTP_PACKET_SIZE : Z := 48.
Definition RETRIES : nat := 20.

(** The request [_getTime] builds in [packetBuffer]. *)
Definition request : list Z :=
  [227; 0; 6; 236] ++ repeat 0 8 ++ [49; 78; 49; 52] ++ repeat 0 32.

(** The four bytes from location 40, as an [unsigned long]. *)
Definition secsSince1900 (packetBuffer : list Z) : Z :=
  let secs := u32 (Z.shiftl (nth 40 packetBuffer 0) 24) in
  let secs := Z.lor secs (u32 (Z.shiftl (nth 41 packetBuffer 0) 16)) in
  let secs := Z.lor secs (u32 (Z.shiftl (nth 42 packetBuffer 0) 8)) in
  Z.lor secs (nth 43 packetBuffer 0).

(** What [_getTime] returns once [udp.parsePacket()] has told the size of
    the waiting datagram ([0] when there is none) and [udp.read] has put
    it in the buffer: the [unsigned long] that [getTime] holds in [result]. *)
Definition decodeReply (reply : list Z) : Z :=
  if Z.of_nat (length reply) =? NTP_PACKET_SIZE then
    u32 (secsSince1900 reply - 2208988800)
  else 0.

(** The surroundings: the datagram found after the n-th request, the seven
    register bytes of the n-th clock read, the n-th reading of [millis()]. *)
Record Env := mkEnv {
  udpReply : nat -> list Z;
  rtcRegs : nat -> list Z;
  millisAt : nat -> Z
}.

(** How far the program has consumed them, and what it has emitted. *)
Record World := mkWorld {
  queries : nat;
  rtcReads : nat;
  clockReads : nat;
  log : list Out
}.

Definition start : World := mkWorld 0 0 0 [].

Definition emit (o : list Out) (w : World) : World :=
  mkWorld (queries w) (rtcReads w) (clockReads w) (log w ++ o).

Section TimeSource.

Variable env : Env.

(** TimeLib's conversions between a second count and its fields. *)
Variable breakTime : Z -> tmElements.
Variable makeTime : tmElements -> Z.

Definition _getTime (w : World) : Z * World :=
  let reply := udpReply env (queries w) in
  (decodeReply reply,
   mkWorld (S (queries w)) (rtcReads w) (clockReads w)
           (log w ++ [UdpSend request; Delay 1000])).

Definition shieldGetRTCTime (w : World) : tmElements * World :=
  (getRTCTime (rtcRegs env (rtcReads w)),
   mkWorld (queries w) (S (rtcReads w)) (clockReads w)
           (log w ++ [WireWrite [zero]])).

Definition millis (w : World) : Z * World :=
  (u32 (millisAt env (clockReads w)),
   mkWorld (queries w) (rtcReads w) (S (clockReads w)) (log w)).

(** The [for] loop of [getTime], [n] iterations left: [Some result] when
    it returns from inside, [None] when it runs out. *)
Fixpoint attempts (n : nat) (w : World) : option Z * World :=
  match n with
  | O => (None, w)
  | S n' =>
      let '(result, w) := _getTime w in
      if negb (result =? 0) then
        (Some result, emit (setRTCDateTime (breakTime result)) w)
      else attempts n' (emit [Delay 300] w)
  end.

(** The [while] loop of [_getRTCTime]; it yields [isRTCAvailable] and the
    last fields read.  [fuel] bounds the iterations. *)
Fixpoint waitForTick (fuel : nat) (prevSeconds start_ms : Z)
  (m : tmElements) (w : World) : option (bool * tmElements * World) :=
  if prevSeconds =? Second m then
    match fuel with
    | O => None
    | S fuel' =>
        let '(m, w) := shieldGetRTCTime w in
        let '(now_ms, w) := millis w in
        if u32 (now_ms - start_ms) >? 3000 then Some (false, m, w)
        else waitForTick fuel' prevSeconds start_ms m w
    end
  else Some (true, m, w).

Definition _getRTCTime (fuel : nat) (w : World) : option (Z * World) :=
  let '(m, w) := shieldGetRTCTime w in
  let prevSeconds := Second m in
  let '(RTC_ReadingStartTime, w) := millis w in
  '(isRTCAvailable, m, w) ←
    waitForTick fuel prevSeconds RTC_ReadingStartTime m w;
  if isRTCAvailable : bool then Some (makeTime m, w) else Some (0, w).

Definition getTime (fuel : nat) (w : World) : option (Z * World) :=
  match attempts RETRIES w with
  | (Some result, w) => Some (result, w)
  | (None, w) => _getRTCTime fuel w
  end.

End TimeSource.

(** Modelled from the spec: the caller of the time source is TimeLib's
    [now()], which is not under src/; on the zero sentinel it keeps the
    wall clock it has, otherwise it takes the new time. *)
Definition resync (wallClock t : Z) : Z :=
  if t =? 0 then wallClock else t.

End NTP.

(** ** The sketch: [updateDisplay] *)

Module Sketch.

(** The user configuration items, fixed by [#define] in the source. *)
Record Config := mkConfig {
  HOUR_FORMAT_12 : bool;
  CLOCK_OFF_HOUR : Z;
  CLOCK_ON_HOUR : Z;
  SUPPRESS_LEADING_ZEROS : bool
}.

Definition asBuilt : Config := mkConfig true 23 7 true.

(** What TimeLib's [hour], [hourFormat12], [minute], [second], [day],
    [month] and [year] return for [localTime]. *)
Record LocalTime := mkLocal {
  t_hour : Z; t_hourFormat12 : Z; t_minute : Z; t_second : Z;
  t_day : Z; t_month : Z; t_year : Z
}.

(** The sketch's global variables. *)
Record Globals := mkGlobals {
  previousMinute : Z;
  minutes : Z;
  dotToggle : bool;
  clockOn : bool
}.

Definition startup : Globals := mkGlobals 0 0 false true.

Inductive Program :=
| ShowTime | ShowDate | RainbowSweep | AntiPoisoningSweep | PoweredOff.

(** The guards of the [if] / [else if] chain, in its order. *)
Definition dispatch (minutes previousMinute : Z) : Program :=
  if negb (minutes =? previousMinute) && (minutes =? 0) then
    AntiPoisoningSweep
  else if negb (minutes =? previousMinute) && negb (minutes =? 0)
          && (Z.rem minutes 15 =? 0) then
    RainbowSweep
  else if negb (minutes =? previousMinute) && negb (minutes =? 0)
          && (Z.rem minutes 10 =? 0) then
    ShowDate
  else ShowTime.

Definition inWindow (cfg : Config) (hr : Z) : bool :=
  (hr >=? CLOCK_ON_HOUR cfg) && (hr <? CLOCK_OFF_HOUR cfg).

Definition blankAll : list Call :=
  [SetNXDigit NX1 BLANK_DIGIT; SetNXDigit NX2 BLANK_DIGIT;
   SetNXDigit NX3 BLANK_DIGIT; SetNXDigit NX4 BLANK_DIGIT;
   SetNXDigit NX5 BLANK_DIGIT; SetNXDigit NX6 BLANK_DIGIT].

(** The argument of [setNX1Digit], [setNX3Digit], [setNX5Digit] in the
    branches that test [>= 10]. *)
Definition leading (cfg : Config) (v : Z) : Z :=
  if v >=? 10 then Z.quot v 10
  else if SUPPRESS_LEADING_ZEROS cfg then BLANK_DIGIT else 0.

Definition shutdown : list Call :=
  [HvEnable false; DotsEnable false] ++ blankAll ++ [Show; SetLEDColor black].

Definition rainbow : list Call :=
  [DotsEnable false] ++ blankAll ++ [Show]
    ++ flat_map (fun _ : Z =>
         flat_map (fun k : Z =>
           [SetLEDColor (colorWheel (16 * k)); DelayMs 400]) (seqZ 0 16))
         (seqZ 0 4).

Definition showDate (cfg : Config) (t : LocalTime) : list Call :=
  let now_mon := t_month t in
  let now_day := t_day t in
  let now_year := t_year t - 2000 in
  [DotsEnable false; SetLEDColor blue; DotsEnable true;
   SetNXDigit NX1 (leading cfg now_mon); SetNXDigit NX2 (Z.rem now_mon 10);
   SetNXDigit NX3 (leading cfg now_day); SetNXDigit NX4 (Z.rem now_day 10);
   SetNXDigit NX5 (leading cfg now_year); SetNXDigit NX6 (Z.rem now_year 10);
   Show; DelayMs 10000].

Section Display.

(** [colorInc * now_hour] is a [float] product converted to [int]; the
    wheel position it gives for a mode and an hour is left open. *)
Variable wheelPosOfHour : bool -> Z -> Z.

Definition showTime (cfg : Config) (t : LocalTime) (dots : bool)
  : list Call :=
  let now_hour :=
    if HOUR_FORMAT_12 cfg then t_hourFormat12 t else t_hour t in
  let now_min := t_minute t in
  let now_sec := t_second t in
  [DotsEnable dots;
   SetLEDColor (colorWheel (wheelPosOfHour (HOUR_FORMAT_12 cfg) now_hour));
   SetNXDigit NX1 (leading cfg now_hour); SetNXDigit NX2 (Z.rem now_hour 10);
   SetNXDigit NX3 (Z.quot now_min 10); SetNXDigit NX4 (Z.rem now_min 10);
   SetNXDigit NX5 (Z.quot now_sec 10); SetNXDigit NX6 (Z.rem now_sec 10);
   Show].

(** One call of [updateDisplay]: the new globals and the calls made on
    [SHIELD], in order. *)
Definition updateDisplay (cfg : Config) (t : LocalTime) (g : Globals)
  : Globals * list Call :=
  let hr := t_hour t in
  if inWindow cfg hr then
    let '(g, on) :=
      if negb (clockOn g) then
        (mkGlobals (previousMinute g) (minutes g) (dotToggle g) true,
         [HvEnable true])
      else (g, []) in
    let minutes := t_minute t in
    match dispatch minutes (previousMinute g) with
    | AntiPoisoningSweep =>
        (mkGlobals minutes minutes (dotToggle g) (clockOn g),
         on ++ [SetLEDColor red; DoAntiPoisoning])
    | RainbowSweep =>
        (mkGlobals minutes minutes (dotToggle g) (clockOn g),
         on ++ rainbow)
    | ShowDate =>
        (mkGlobals minutes minutes (dotToggle g) (clockOn g),
         on ++ showDate cfg t)
    | _ =>
        let '(toggle, dots) :=
          if dotToggle g then (false, true) else (true, false) in
        (mkGlobals (previousMinute g) minutes toggle (clockOn g),
         on ++ showTime cfg t dots)
    end
  else if clockOn g then
    (mkGlobals (previousMinute g) (minutes g) (dotToggle g) false,
     shutdown)
  else (g, []).

End Display.

(** *** [WIFI_Connect] and [loop] *)

Definition WIFI_CHK_TIME_MS : Z := 3600 * 1000.

(** [WIFI_Connect]: how many times [WiFi.status()] has been asked, and the
    delays and LED colors put out; [WiFi.disconnect] and [WiFi.begin] are
    left out of the log. *)
Record WifiWorld := mkWifi { polls : nat; wlog : list Out }.

(** One round of waiting: LEDs off, then green. *)
Definition waitRound : list Out :=
  [Delay 250] ++ setLEDColor black ++ [Delay 250] ++ setLEDColor green.

Section Wifi.

(** Whether the n-th [WiFi.status()] is [WL_CONNECTED]. *)
Variable connectedAt : nat -> bool.

(** The [for] loop of [WIFI_Connect], [n] iterations left. *)
Fixpoint connectLoop (n : nat) (w : WifiWorld) : WifiWorld :=
  match n with
  | O => w
  | S n' =>
      if negb (connectedAt (polls w)) then
        connectLoop n' (mkWifi (S (polls w)) (wlog w ++ waitRound))
      else mkWifi (S (polls w)) (wlog w)
  end.

(** [WIFI_Connect]: the loop, then the status asked once more for the
    message; the answer is what the message says. *)
Definition WIFI_Connect (w : WifiWorld) : bool * WifiWorld :=
  let w := connectLoop 40 w in
  (connectedAt (polls w), mkWifi (S (polls w)) (wlog w)).

End Wifi.

(** What one pass of [loop] reads from its surroundings, in the order it
    reads them: [millis()] in the test, whether [WiFi.status()] is
    [WL_CONNECTED], [millis()] when the next check is set,
    [setButton.clicks] after [processButtons], whether [timeStatus()]
    differs from [timeNotSet], and the two calls of [second()]. *)
Record LoopIn := mkLoopIn {
  in_millisTest : Z;
  in_connected : bool;
  in_millisSet : Z;
  in_clicks : Z;
  in_timeSet : bool;
  in_secondTest : Z;
  in_secondStore : Z
}.

(** The two globals of [loop]. *)
Record LoopVars := mkLoopVars {
  nextConnectionCheckTime : Z;
  previousSecond : Z
}.

Definition loopStart : LoopVars := mkLoopVars 0 0.

(** The functions a pass calls. *)
Inductive Action :=
| CallWIFI_Connect
| CallWIFI_StartAccessPoint
| CallEspRestart
| CallUpdateDisplay
| CallDelay (ms : Z).

(** One pass of [loop]: the globals it leaves ([None] once [esp_restart]
    has been called, which does not return) and the calls it makes. *)
Definition loopPass (i : LoopIn) (v : LoopVars)
  : option LoopVars * list Action :=
  let '(next, wifi) :=
    if u32 (in_millisTest i) >? nextConnectionCheckTime v then
      (u32 (u32 (in_millisSet i) + WIFI_CHK_TIME_MS),
       if negb (in_connected i) then [CallWIFI_Connect] else [])
    else (nextConnectionCheckTime v, []) in
  let portal :=
    if in_clicks i >? 0 then [CallWIFI_StartAccessPoint] else [] in
  if in_clicks i <? 0 then (None, wifi ++ portal ++ [CallEspRestart])
  else
    let '(prev, display) :=
      if in_timeSet i then
        if negb (in_secondTest i =? previousSecond v) then
          (in_secondStore i, [CallUpdateDisplay])
        else (previousSecond v, [])
      else (previousSecond v, []) in
    (Some (mkLoopVars next prev),
     wifi ++ portal ++ display ++ [CallDelay 10]).

(** Passes one after the other, until one restarts the chip. *)
Fixpoint loopRun (ins : list LoopIn) (v : LoopVars)
  : option LoopVars * list Action :=
  match ins with
  | [] => (Some v, [])
  | i :: ins' =>
      match loopPass i v with
      | (Some v', acts) =>
          let '(r, acts') := loopRun ins' v' in (r, acts ++ acts')
      | (None, acts) => (None, acts)
      end
  end.

End Sketch.
Import NTP Sketch.

(** ** Definitions used to state the properties *)

(** The 10-bit field [show] shifts into a word for the tube a slot value [v]
    was stored in by [setNX_Digit]: [SymbolArray[NUMERIC_DIGITS[v]]]. *)
Definition digitField (v : Z) : option Z :=
  code ← index NUMERIC_DIGITS v; index SymbolArray (u16 code).

(** Reading a frame back: the 10-bit field at an offset, the position of
    its asserted bit, and the two indicator bits. *)
Definition field (w off : Z) : Z := Z.land (Z.shiftr w off) 1023.

Definition decodeWord (w : Z) : Z * Z * Z * bool * bool :=
  (Z.log2 (field w 20), Z.log2 (field w 10), Z.log2 (field w 0),
   Z.testbit w 31, Z.testbit w 30).

(** Four bytes, most significant first, as one number. *)
Definition be32 (b0 b1 b2 b3 : Z) : Z :=
  b0 * 16777216 + b1 * 65536 + b2 * 256 + b3.

Definition wordOfBytes (bs : list Z) : Z :=
  fold_left (fun acc b => acc * 256 + b) bs 0.

(** The calls that put six slot values and the indicator flag on the tubes. *)
Definition frameCalls (n1 n2 n3 n4 n5 n6 : Z) (dots : bool) : list Call :=
  [DotsEnable dots;
   SetNXDigit NX1 n1; SetNXDigit NX2 n2; SetNXDigit NX3 n3;
   SetNXDigit NX4 n4; SetNXDigit NX5 n5; SetNXDigit NX6 n6; Show].

(** The slot value a call list leaves in a tube: the argument of its last
    [setNX_Digit] for that tube. *)
Definition slotEqb (a b : Slot) : bool := slotIndex a =? slotIndex b.

Fixpoint rendered (n : Slot) (cs : list Call) : option Z :=
  match cs with
  | [] => None
  | c :: cs' =>
      match rendered n cs' with
      | Some d => Some d
      | None =>
          match c with
          | SetNXDigit n' d => if slotEqb n n' then Some d else None
          | _ => None
          end
      end
  end.

(** The seven fields of a date and time, in register order. *)
Definition tmFields (m : tmElements) : list Z :=
  [Second m; Minute m; Hour m; Wday m; Day m; Month m; Year m].

(** The seven data bytes of a clock write: the frame without the register
    address in front and the control byte behind. *)
Definition rtcData (m : tmElements) : list Z := take 7 (drop 1 (rtcFrame m)).

(** The program a call of [updateDisplay] runs: none of the four outside
    the on-window, else the one its guard chain picks. *)
Definition selected (cfg : Config) (t : LocalTime) (g : Globals) : Program :=
  if inWindow cfg (t_hour t) then dispatch (t_minute t) (previousMinute g)
  else PoweredOff.

(** One call of [updateDisplay] per element of [ts], oldest first: the
    programs run, the calls made, the globals left. *)
Fixpoint ticks (wheelPosOfHour : bool -> Z -> Z) (cfg : Config)
  (ts : list LocalTime) (g : Globals) : list Program * list Call * Globals :=
  match ts with
  | [] => ([], [], g)
  | t :: ts' =>
      let '(g1, c1) := updateDisplay wheelPosOfHour cfg t g in
      let '(ps, cs, g2) := ticks wheelPosOfHour cfg ts' g1 in
      (selected cfg t g :: ps, c1 ++ cs, g2)
  end.

(** The calls each program makes. *)
Definition programCalls (wheelPosOfHour : bool -> Z -> Z) (cfg : Config)
  (t : LocalTime) (g : Globals) (p : Program) : list Call :=
  match p with
  | AntiPoisoningSweep => [SetLEDColor red; DoAntiPoisoning]
  | RainbowSweep => rainbow
  | ShowDate => showDate cfg t
  | ShowTime => showTime wheelPosOfHour cfg t (dotToggle g)
  | PoweredOff => if clockOn g then shutdown else []
  end.



(** The properties of one transfer word, as a check that runs. *)
Definition wordChecked (a b c : Z) (dots : bool) : bool :=
  let w := packWord (Z.shiftl 1 a) (Z.shiftl 1 b) (Z.shiftl 1 c) dots in
  (w =? 2 ^ a * 2 ^ 20 + 2 ^ b * 2 ^ 10 + 2 ^ c
        + (if dots then 2 ^ 31 + 2 ^ 30 else 0))
  && (0 <=? w) && (w <? 2 ^ 32)
  && (field w 20 =? Z.shiftl 1 a) && (field w 10 =? Z.shiftl 1 b)
  && (field w 0 =? Z.shiftl 1 c)
  && (Z.log2 (field w 20) =? a) && (Z.log2 (field w 10) =? b)
  && (Z.log2 (field w 0) =? c)
  && Bool.eqb (Z.testbit w 31) dots && Bool.eqb (Z.testbit w 30) dots
  && (wordOfBytes (wordBytes w) =? w)
  && forallb (fun x => (0 <=? x) && (x <? 256)) (wordBytes w).

(** The tens digit as a suppressible field shows it. *)
Definition tensShown (cfg : Config) (v : Z) : Z :=
  if v <? 10 then (if SUPPRESS_LEADING_ZEROS cfg then BLANK_DIGIT else 0)
  else v / 10.

(** What one failed attempt leaves in the log. *)
Definition failedAttempt : list Out :=
  [UdpSend request; Delay 1000; Delay 300].

(** What the shield's storage always looks like: six codes, each a digit
    code or the blank code. *)
Definition wellFormed (s : Shield) : Prop :=
  length (digits s) = 6%nat
  /\ Forall (fun d => 0 <= d <= 9 \/ d = DIGIT_BLANK) (digits s).

(** The code [NUMERIC_DIGITS] holds for a slot value 0..10. *)
Definition codeOf (v : Z) : Z := if v =? BLANK_DIGIT then DIGIT_BLANK else v.

(** Six slot values stored, then the frame sent. *)
Definition sixDigits (n1 n2 n3 n4 n5 n6 : Z) : list Call :=
  [SetNXDigit NX1 n1; SetNXDigit NX2 n2; SetNXDigit NX3 n3;
   SetNXDigit NX4 n4; SetNXDigit NX5 n5; SetNXDigit NX6 n6; Show].

(** The bytes of one [show] between the two latch edges. *)
Definition frameOut (reg1 reg0 : Z) : list Out :=
  [DigitalWrite LATCH_ENABLE false]
    ++ map SpiTransfer (wordBytes reg1 ++ wordBytes reg0)
    ++ [DigitalWrite LATCH_ENABLE true].

(** The slot values of the calls in a list. *)
Definition slotArgs (cs : list Call) : list Z :=
  flat_map (fun c => match c with SetNXDigit _ d => [d] | _ => [] end) cs.

(** The local times [updateDisplay] meets while the year has at most a
    blank tens digit: TimeLib's ranges, years 2000 to 2109. *)
Definition validTime (t : LocalTime) : Prop :=
  0 <= t_hour t <= 23 /\ 1 <= t_hourFormat12 t <= 12
  /\ 0 <= t_minute t <= 59 /\ 0 <= t_second t <= 59
  /\ 1 <= t_day t <= 31 /\ 1 <= t_month t <= 12
  /\ 2000 <= t_year t <= 2109.

(** The high-voltage commands and the indicator commands of a call list. *)
Definition hvCalls (cs : list Call) : list bool :=
  flat_map (fun c => match c with HvEnable b => [b] | _ => [] end) cs.

Definition dotCalls (cs : list Call) : list bool :=
  flat_map (fun c => match c with DotsEnable b => [b] | _ => [] end) cs.

(** A list of switch positions each opposite to the one before, [last]
    being the position before the first. *)
Fixpoint alternating (last : bool) (l : list bool) : Prop :=
  match l with
  | [] => True
  | b :: l' => b = negb last /\ alternating b l'
  end.

(** [n] switch positions starting with [b], each opposite to the one
    before. *)
Fixpoint blink (b : bool) (n : nat) : list bool :=
  match n with
  | O => []
  | S n' => b :: blink (negb b) n'
  end.

(** The guard chain without its memory cell: what a minute selects when it
    differs from the cell. *)
Definition rule (m : Z) : Program :=
  if m =? 0 then AntiPoisoningSweep
  else if Z.rem m 15 =? 0 then RainbowSweep
  else if Z.rem m 10 =? 0 then ShowDate
  else ShowTime.

(** The rule applied at each change of minute along a list of minutes,
    [last] being the minute before the first. *)
Fixpoint ruleAtChanges (last : Z) (ms : list Z) : list Program :=
  match ms with
  | [] => []
  | m :: ms' => (if m =? last then ShowTime else rule m) :: ruleAtChanges m ms'
  end.

(** Minutes in time order within one hour. *)
Fixpoint nondecreasing (last : Z) (ms : list Z) : Prop :=
  match ms with
  | [] => True
  | m :: ms' => last <= m /\ nondecreasing m ms'
  end.

(** The milliseconds a call list spends in [delay]. *)
Definition delayOf (cs : list Call) : Z :=
  fold_right (fun c acc => match c with DelayMs ms => ms + acc | _ => acc end)
             0 cs.

(** The milliseconds of [delay] recorded in a log of outputs. *)
Definition logDelay (l : list Out) : Z :=
  fold_right (fun o acc => match o with Delay ms => ms + acc | _ => acc end)
             0 l.

(** How often a run of passes calls [updateDisplay] and [WIFI_Connect]. *)
Definition updates (acts : list Action) : nat :=
  length (List.filter (fun a => match a with CallUpdateDisplay => true | _ => false end)
                 acts).

Definition reconnects (acts : list Action) : nat :=
  length (List.filter (fun a => match a with CallWIFI_Connect => true | _ => false end)
                 acts).

(** ** Machine arithmetic facts *)

Lemma u8_small x : 0 <= x < 256 -> u8 x = x.
Proof. intros H. unfold u8. apply Z.mod_small. exact H. Qed.

Lemma u32_small x : 0 <= x < 4294967296 -> u32 x = x.
Proof. intros H. unfold u32. apply Z.mod_small. exact H. Qed.

Lemma u32_range x : 0 <= u32 x < 4294967296.
Proof. unfold u32. apply Z.mod_pos_bound. lia. Qed.

(** A property of the ten digits checked by running it on each. *)
Lemma digits_checked (P : Z -> bool) :
  forallb P (seqZ 0 10) = true -> forall v, 0 <= v <= 9 -> P v = true.
Proof.
  intros Hall v Hv. rewrite forallb_forall in Hall. apply Hall.
  apply list_elem_of_In, elem_of_seqZ. lia.
Qed.

Lemma digitField_digit v : 0 <= v <= 9 -> digitField v = Some (Z.shiftl 1 v).
Proof.
  intros Hv.
  pose proof (digits_checked
    (fun v => match digitField v with
              | Some f => f =? Z.shiftl 1 v
              | None => false
              end)) as H.
  specialize (H ltac:(vm_compute; reflexivity) v Hv). cbv beta in H.
  destruct (digitField v) as [f|]; [ | discriminate ].
  apply Z.eqb_eq in H. now subst f.
Qed.

(** ** The digit codec *)

Lemma slotIndex_range n : 0 <= slotIndex n < 6.
Proof. destruct n; simpl; lia. Qed.

Lemma index_store_same {A} (a : list A) i v :
  0 <= i < Z.of_nat (length a) -> index (store a i v) i = Some v.
Proof.
  intros Hi. unfold index, store.
  destruct (Z.ltb_spec i 0); [ lia | ].
  apply list_lookup_insert_eq. lia.
Qed.

Lemma index_store_other {A} (a : list A) i j v :
  0 <= i -> 0 <= j -> i <> j -> index (store a i v) j = index a j.
Proof.
  intros Hi Hj Hne. unfold index, store.
  destruct (Z.ltb_spec j 0); [ lia | ].
  apply list_lookup_insert_ne. lia.
Qed.

(** What [show] reads for a tube is the codec's field of the value stored
    in it last. *)
Lemma symbolAt_setNXDigit s n v :
  length (digits s) = 6%nat ->
  (s' ← setNXDigit n v s; symbolAt s' (slotIndex n)) = digitField v.
Proof.
  intros Hlen. unfold setNXDigit, digitField.
  destruct (index NUMERIC_DIGITS v) as [code|]; simpl; [ | reflexivity ].
  unfold symbolAt; simpl. rewrite index_store_same; [ reflexivity | ].
  pose proof (slotIndex_range n). lia.
Qed.

Lemma setNXDigit_length s n v s' :
  setNXDigit n v s = Some s' -> length (digits s') = length (digits s).
Proof.
  unfold setNXDigit. destruct (index NUMERIC_DIGITS v); simpl; [ | discriminate ].
  intros [= <-]. simpl. unfold store. apply length_insert.
Qed.

(** C1, as the code has it: each slot value 0..9 gives the field [1 << v],
    whose only asserted bit is bit [v]; the BLANK slot value is stored as
    [DIGIT_BLANK] = 255, and [show] then reads [SymbolArray[255]], outside
    the ten-entry table, so no field (in particular not the field 0) is
    produced for it, in whichever tube of a frame of zeros it is stored. *)
Theorem digit_codec_blank_reads_outside_table :
  Forall (fun v =>
            digitField v = Some (Z.shiftl 1 v)
            /\ Z.shiftl 1 v < 1024
            /\ Forall (fun i => Z.testbit (Z.shiftl 1 v) i = (i =? v))
                      (seqZ 0 32))
         (seqZ 0 10)
  /\ index NUMERIC_DIGITS BLANK_DIGIT = Some DIGIT_BLANK
  /\ Z.of_nat (length SymbolArray) = 10
  /\ index SymbolArray (u16 DIGIT_BLANK) = None
  /\ digitField BLANK_DIGIT = None
  /\ Forall (fun n =>
               (s' ← setNXDigit n BLANK_DIGIT (mkShield (repeat 0 6) false);
                symbolAt s' (slotIndex n)) = None
               /\ (s' ← setNXDigit n BLANK_DIGIT (mkShield (repeat 0 6) false);
                   show s') = None)
            [NX1; NX2; NX3; NX4; NX5; NX6].
Proof.
  split.
  { apply Forall_forall. intros v Hv. apply elem_of_seqZ in Hv.
    split; [ apply digitField_digit; lia | ].
    rewrite Z.shiftl_1_l. split.
    - change 1024 with (2 ^ 10). apply Z.pow_lt_mono_r; lia.
    - apply Forall_forall. intros i Hi. apply elem_of_seqZ in Hi.
      rewrite Z.pow2_bits_eqb by lia. apply Z.eqb_sym. }
  split; [ reflexivity | ]. split; [ reflexivity | ].
  split; [ vm_compute; reflexivity | ]. split; [ vm_compute; reflexivity | ].
  repeat (constructor; [ split; vm_compute; reflexivity | ]). constructor.
Qed.

(** The sweep stores the slot value 10 in its eleventh step, so it reaches
    the same read outside the table. *)
Lemma doAntiPoisoning_reads_outside_table :
  doAntiPoisoning (mkShield (repeat 0 6) false) = None.
Proof. vm_compute. reflexivity. Qed.

(** ** Binary-coded decimal *)

Lemma decToBcd_value d : 0 <= d <= 99 -> decToBcd d = d / 10 * 16 + d mod 10.
Proof.
  intros Hd. unfold decToBcd. apply u8_small.
  Z.div_mod_to_equations. lia.
Qed.

Lemma bcdToDec_decToBcd d : 0 <= d <= 99 -> bcdToDec (decToBcd d) = d.
Proof.
  intros Hd. rewrite decToBcd_value by exact Hd.
  unfold bcdToDec. rewrite u8_small; Z.div_mod_to_equations; lia.
Qed.

(** C9: on 0..99 [decToBcd] is [(d/10)*16 + d%10] and [bcdToDec] undoes it,
    for each of the seven fields of a clock write: the byte written for
    field [k] is the BCD of that field and converts back to it. *)
Theorem bcd_roundtrip (m : tmElements) (k : nat) (d : Z) :
  tmFields m !! k = Some d -> 0 <= d <= 99 ->
  decToBcd d = d / 10 * 16 + d mod 10
  /\ bcdToDec (decToBcd d) = d
  /\ rtcData m !! k = Some (decToBcd d)
  /\ (k < 7)%nat.
Proof.
  intros Hk Hd.
  split; [ apply decToBcd_value; exact Hd | ].
  split; [ apply bcdToDec_decToBcd; exact Hd | ].
  destruct m as [s mi h w dy mo y]. unfold tmFields in Hk. simpl in Hk.
  unfold rtcData, rtcFrame. simpl.
  do 7 (destruct k as [|k]; [ injection Hk as <-; split; [ reflexivity | lia ] | ]).
  discriminate.
Qed.

Lemma bcd_roundtrip_witness :
  decToBcd 51 = 51 / 10 * 16 + 51 mod 10
  /\ bcdToDec (decToBcd 51) = 51
  /\ rtcData (mkTm 59 30 22 4 21 3 51) !! 6%nat = Some (decToBcd 51)
  /\ (6 < 7)%nat.
Proof.
  apply (bcd_roundtrip (mkTm 59 30 22 4 21 3 51) 6 51); [ reflexivity | lia ].
Defined.

(** Reading back what was written also goes through the hour mask
    [& 0b111111], which leaves the BCD of an hour of the day alone. *)
Lemma getRTCTime_after_set m :
  Forall (fun d => 0 <= d <= 99) (tmFields m) -> Hour m <= 23 ->
  getRTCTime (rtcData m) = m.
Proof.
  destruct m as [s mi h w d mo y]. unfold tmFields.
  cbn [Second Minute Hour Wday Day Month Year]. intros H Hh.
  repeat match goal with
         | H : Forall _ (_ :: _) |- _ => apply Forall_cons_1 in H; destruct H
         end.
  assert (Hb : forall x, 0 <= x <= 99 -> u8 (decToBcd x) = decToBcd x).
  { intros x Hx. rewrite decToBcd_value by exact Hx. apply u8_small.
    Z.div_mod_to_equations. lia. }
  assert (Hm : Z.land (decToBcd h) 63 = decToBcd h).
  { rewrite decToBcd_value by assumption.
    change 63 with (Z.ones 6). rewrite Z.land_ones by lia.
    apply Z.mod_small. change (2 ^ 6) with 64.
    Z.div_mod_to_equations. lia. }
  unfold getRTCTime, rtcData, rtcFrame, wireRead.
  cbn [drop take nth Second Minute Hour Wday Day Month Year].
  rewrite Hm, !Hb, !bcdToDec_decToBcd by assumption. reflexivity.
Qed.

(** ** Decoding the network reply *)

(** Or-ing a value below [2^n] into a multiple of [2^n] adds it. *)
Lemma lor_low_bits hi lo n :
  0 <= n -> 0 <= lo < 2 ^ n -> Z.lor (hi * 2 ^ n) lo = hi * 2 ^ n + lo.
Proof.
  intros Hn Hlo.
  assert (Hdisj : Z.land (hi * 2 ^ n) lo = 0).
  { apply Z.bits_inj'. intros k Hk.
    rewrite Z.land_spec, Z.bits_0.
    destruct (Z.lt_ge_cases k n) as [Hlt | Hge].
    - rewrite Z.mul_pow2_bits_low by exact Hlt. reflexivity.
    - assert (Hz : Z.testbit lo k = false).
      { destruct (Z.eq_dec lo 0) as [-> | Hne]; [ apply Z.bits_0 | ].
        apply Z.bits_above_log2; [ lia | ].
        apply Z.lt_le_trans with n; [ | exact Hge ].
        apply Z.log2_lt_pow2; lia. }
      rewrite Hz. apply andb_false_r. }
  rewrite <- Z.lxor_lor by exact Hdisj.
  symmetry. apply Z.add_nocarry_lxor. exact Hdisj.
Qed.

Lemma be32_of_bytes b0 b1 b2 b3 :
  0 <= b0 < 256 -> 0 <= b1 < 256 -> 0 <= b2 < 256 -> 0 <= b3 < 256 ->
  Z.lor (Z.lor (Z.lor (u32 (Z.shiftl b0 24)) (u32 (Z.shiftl b1 16)))
               (u32 (Z.shiftl b2 8))) b3
  = be32 b0 b1 b2 b3
  /\ 0 <= be32 b0 b1 b2 b3 < 4294967296.
Proof.
  intros H0 H1 H2 H3. unfold be32.
  assert (P24 : 2 ^ 24 = 16777216) by reflexivity.
  assert (P16 : 2 ^ 16 = 65536) by reflexivity.
  assert (P8 : 2 ^ 8 = 256) by reflexivity.
  assert (E0 : u32 (Z.shiftl b0 24) = b0 * 2 ^ 24).
  { rewrite Z.shiftl_mul_pow2 by lia. apply u32_small. lia. }
  assert (E1 : u32 (Z.shiftl b1 16) = b1 * 2 ^ 16).
  { rewrite Z.shiftl_mul_pow2 by lia. apply u32_small. lia. }
  assert (E2 : u32 (Z.shiftl b2 8) = b2 * 2 ^ 8).
  { rewrite Z.shiftl_mul_pow2 by lia. apply u32_small. lia. }
  rewrite E0, E1, E2.
  rewrite (lor_low_bits b0 (b1 * 2 ^ 16) 24) by lia.
  replace (b0 * 2 ^ 24 + b1 * 2 ^ 16) with ((b0 * 256 + b1) * 2 ^ 16) by lia.
  rewrite (lor_low_bits (b0 * 256 + b1) (b2 * 2 ^ 8) 16) by lia.
  replace ((b0 * 256 + b1) * 2 ^ 16 + b2 * 2 ^ 8)
    with (((b0 * 256 + b1) * 256 + b2) * 2 ^ 8) by lia.
  rewrite (lor_low_bits _ b3 8) by lia.
  lia.
Qed.

Lemma nth_byte (reply : list Z) k :
  Forall (fun b => 0 <= b < 256) reply -> 0 <= nth k reply 0 < 256.
Proof.
  intros Hall. revert k.
  induction Hall as [| b bs Hb _ IH]; intros [| k]; simpl; try lia. apply IH.
Qed.

Lemma decodeReply_wrong_size reply :
  Z.of_nat (length reply) <> NTP_PACKET_SIZE -> decodeReply reply = 0.
Proof.
  intros Hne. unfold decodeReply.
  destruct (Z.eqb_spec (Z.of_nat (length reply)) NTP_PACKET_SIZE); [ contradiction | reflexivity ].
Qed.

(** C5, amended: the subtraction of 2,208,988,800 is an [unsigned long]
    one.  For a 48-byte reply the result is the big-endian value of bytes
    40..43 minus the constant, modulo 2^32: the plain difference from the
    constant upwards and the difference plus 2^32 below it.  Bytes
    E4 00 00 00 give 3,825,205,248 and 1,616,216,448. *)
Theorem ntp_decode_wraps (reply : list Z) :
  Z.of_nat (length reply) = 48 ->
  Forall (fun b => 0 <= b < 256) reply ->
  let secs :=
    be32 (nth 40 reply 0) (nth 41 reply 0) (nth 42 reply 0) (nth 43 reply 0) in
  secsSince1900 reply = secs
  /\ decodeReply reply = (secs - 2208988800) mod 4294967296
  /\ (2208988800 <= secs -> decodeReply reply = secs - 2208988800)
  /\ (secs < 2208988800 -> decodeReply reply = secs - 2208988800 + 4294967296)
  /\ (secs = 3825205248 -> decodeReply reply = 1616216448)
  /\ be32 228 0 0 0 = 3825205248.
Proof.
  intros Hlen Hbytes secs.
  destruct (be32_of_bytes _ _ _ _ (nth_byte reply 40 Hbytes)
              (nth_byte reply 41 Hbytes) (nth_byte reply 42 Hbytes)
              (nth_byte reply 43 Hbytes)) as [Hsecs Hrange].
  fold secs in Hsecs, Hrange.
  assert (Hs : secsSince1900 reply = secs) by exact Hsecs.
  assert (Hd : decodeReply reply = (secs - 2208988800) mod 4294967296).
  { unfold decodeReply. rewrite Hlen. simpl. rewrite Hs. reflexivity. }
  split; [ exact Hs | ]. split; [ exact Hd | ].
  split; [ | split; [ | split ] ].
  - intros Hge. rewrite Hd. apply Z.mod_small. lia.
  - intros Hlt. rewrite Hd.
    rewrite <- (Z.mod_add (secs - 2208988800) 1 4294967296) by lia.
    apply Z.mod_small. lia.
  - intros Heq. rewrite Hd, Heq. reflexivity.
  - reflexivity.
Qed.

Lemma ntp_decode_wraps_witness :
  let reply := repeat 0 40 ++ [228; 0; 0; 0; 0; 0; 0; 0] in
  secsSince1900 reply = 3825205248 /\ decodeReply reply = 1616216448.
Proof.
  intros reply.
  assert (Hlen : Z.of_nat (length reply) = 48) by reflexivity.
  assert (Hbytes : Forall (fun b => 0 <= b < 256) reply).
  { unfold reply. simpl. repeat constructor; lia. }
  pose proof (ntp_decode_wraps reply Hlen Hbytes) as H. simpl in H.
  destruct H as (Hs & _ & _ & _ & He & _).
  split; [ exact Hs | apply He; reflexivity ].
Defined.

(** C5 as stated fails: a reply whose bytes 40..43 are zero decodes to
    2,085,978,496, not to 0 - 2,208,988,800. *)
Lemma ntp_decode_plain_difference_fails :
  ~ (forall reply : list Z,
       Z.of_nat (length reply) = 48 ->
       Forall (fun b => 0 <= b < 256) reply ->
       decodeReply reply
       = be32 (nth 40 reply 0) (nth 41 reply 0) (nth 42 reply 0)
              (nth 43 reply 0) - 2208988800).
Proof.
  intros H. specialize (H (repeat 0 48) eq_refl).
  assert (Hbytes : Forall (fun b => 0 <= b < 256) (repeat 0 48)).
  { simpl. repeat constructor; lia. }
  specialize (H Hbytes). vm_compute in H. discriminate H.
Qed.

(** ** The display transfer *)

Lemma word_checked a b c dots :
  0 <= a <= 9 -> 0 <= b <= 9 -> 0 <= c <= 9 -> wordChecked a b c dots = true.
Proof.
  intros Ha Hb Hc.
  pose proof (digits_checked (fun a =>
    forallb (fun b => forallb (fun c =>
      wordChecked a b c true && wordChecked a b c false)
      (seqZ 0 10)) (seqZ 0 10))) as H.
  specialize (H ltac:(vm_compute; reflexivity) a Ha). cbv beta in H.
  pose proof (digits_checked _ H b Hb) as H1. cbv beta in H1.
  pose proof (digits_checked _ H1 c Hc) as H2. cbv beta in H2.
  apply andb_prop in H2. destruct H2 as [Ht Hf].
  destruct dots; assumption.
Qed.

Lemma index_NUMERIC_DIGITS_digit v :
  0 <= v <= 9 -> index NUMERIC_DIGITS v = Some v.
Proof.
  intros Hv.
  pose proof (digits_checked
    (fun v => match index NUMERIC_DIGITS v with
              | Some c => c =? v
              | None => false
              end)) as H.
  specialize (H ltac:(vm_compute; reflexivity) v Hv). cbv beta in H.
  destruct (index NUMERIC_DIGITS v) as [c|]; [ | discriminate ].
  apply Z.eqb_eq in H. now subst c.
Qed.

Lemma index_SymbolArray_digit v :
  0 <= v <= 9 -> index SymbolArray v = Some (Z.shiftl 1 v).
Proof.
  intros Hv. pose proof (digitField_digit v Hv) as H.
  unfold digitField in H. rewrite index_NUMERIC_DIGITS_digit in H by exact Hv.
  simpl in H. unfold u16 in H. rewrite Z.mod_small in H by lia. exact H.
Qed.

Lemma setNXDigit_digit n v s :
  0 <= v <= 9 ->
  setNXDigit n v s
  = Some (mkShield (store (digits s) (slotIndex n) v) (dotsEnabled s)).
Proof.
  intros Hv. unfold setNXDigit.
  rewrite index_NUMERIC_DIGITS_digit by exact Hv. simpl.
  unfold u16. rewrite Z.mod_small by lia. reflexivity.
Qed.

(** The frame [show] sends for six digits and a flag already stored. *)
Lemma show_digits n1 n2 n3 n4 n5 n6 dots :
  0 <= n1 <= 9 -> 0 <= n2 <= 9 -> 0 <= n3 <= 9 ->
  0 <= n4 <= 9 -> 0 <= n5 <= 9 -> 0 <= n6 <= 9 ->
  showWords (mkShield [n6; n5; n4; n3; n2; n1] dots)
  = Some (packWord (Z.shiftl 1 n6) (Z.shiftl 1 n5) (Z.shiftl 1 n4) dots,
          packWord (Z.shiftl 1 n3) (Z.shiftl 1 n2) (Z.shiftl 1 n1) dots).
Proof.
  intros H1 H2 H3 H4 H5 H6. unfold showWords, symbolAt.
  cbn [digits dotsEnabled].
  change (index [n6; n5; n4; n3; n2; n1] 0) with (Some n6).
  change (index [n6; n5; n4; n3; n2; n1] 1) with (Some n5).
  change (index [n6; n5; n4; n3; n2; n1] 2) with (Some n4).
  change (index [n6; n5; n4; n3; n2; n1] 3) with (Some n3).
  change (index [n6; n5; n4; n3; n2; n1] 4) with (Some n2).
  change (index [n6; n5; n4; n3; n2; n1] 5) with (Some n1).
  cbn [mbind option_bind].
  rewrite !index_SymbolArray_digit by assumption. reflexivity.
Qed.

Lemma run_SetNXDigit n v cs s :
  0 <= v <= 9 ->
  run (SetNXDigit n v :: cs) s
  = run cs (mkShield (store (digits s) (slotIndex n) v) (dotsEnabled s)).
Proof.
  intros Hv. cbn [run exec]. rewrite setNXDigit_digit by exact Hv.
  cbn [mbind option_bind].
  destruct (run cs _) as [[s2 o2]|]; reflexivity.
Qed.

Lemma run_Show s reg1 reg0 :
  showWords s = Some (reg1, reg0) ->
  run [Show] s
  = Some (s, [DigitalWrite LATCH_ENABLE false]
               ++ map SpiTransfer (wordBytes reg1 ++ wordBytes reg0)
               ++ [DigitalWrite LATCH_ENABLE true]).
Proof.
  intros Hw. cbn [run exec]. unfold show. rewrite Hw.
  cbn [mbind option_bind]. rewrite map_app, app_nil_r, <- !app_assoc.
  reflexivity.
Qed.

(** C4: for six slot values 0..9 and the indicator flag, the calls that
    store them and then [show] send two words, most significant byte first
    between the latch going low and high.  REG 1 packs the codes of NX6, NX5,
    NX4 and REG 0 those of NX3, NX2, NX1 at bit offsets 20, 10, 0; bits 31
    and 30 of both equal the flag; each word fits 32 bits and is the value
    of its four bytes; and reading the fields back gives the six slot values
    and the flag. *)
Theorem frame_encoding_roundtrip (s : Shield) (n1 n2 n3 n4 n5 n6 : Z)
  (dots : bool) :
  length (digits s) = 6%nat ->
  0 <= n1 <= 9 -> 0 <= n2 <= 9 -> 0 <= n3 <= 9 ->
  0 <= n4 <= 9 -> 0 <= n5 <= 9 -> 0 <= n6 <= 9 ->
  let reg1 := packWord (Z.shiftl 1 n6) (Z.shiftl 1 n5) (Z.shiftl 1 n4) dots in
  let reg0 := packWord (Z.shiftl 1 n3) (Z.shiftl 1 n2) (Z.shiftl 1 n1) dots in
  let flag := if dots then 2 ^ 31 + 2 ^ 30 else 0 in
  run (frameCalls n1 n2 n3 n4 n5 n6 dots) s
  = Some (mkShield [n6; n5; n4; n3; n2; n1] dots,
          [DigitalWrite NEON_DOTS dots; DigitalWrite LATCH_ENABLE false]
            ++ map SpiTransfer (wordBytes reg1 ++ wordBytes reg0)
            ++ [DigitalWrite LATCH_ENABLE true])
  /\ reg1 = 2 ^ n6 * 2 ^ 20 + 2 ^ n5 * 2 ^ 10 + 2 ^ n4 + flag
  /\ reg0 = 2 ^ n3 * 2 ^ 20 + 2 ^ n2 * 2 ^ 10 + 2 ^ n1 + flag
  /\ 0 <= reg1 < 2 ^ 32 /\ 0 <= reg0 < 2 ^ 32
  /\ wordOfBytes (wordBytes reg1) = reg1
  /\ wordOfBytes (wordBytes reg0) = reg0
  /\ Forall (fun b => 0 <= b < 256) (wordBytes reg1 ++ wordBytes reg0)
  /\ decodeWord reg1 = (n6, n5, n4, dots, dots)
  /\ decodeWord reg0 = (n3, n2, n1, dots, dots).
Proof.
  intros Hlen H1 H2 H3 H4 H5 H6 reg1 reg0 flag.
  pose proof (word_checked n6 n5 n4 dots H6 H5 H4) as C1.
  pose proof (word_checked n3 n2 n1 dots H3 H2 H1) as C0.
  unfold wordChecked in C1, C0. fold reg1 in C1. fold reg0 in C0.
  cbv zeta in C1, C0. fold reg1 in C1. fold reg0 in C0.
  apply andb_prop in C1; destruct C1 as [C1 B1].
  apply andb_prop in C0; destruct C0 as [C0 B0].
  repeat (apply andb_prop in C1; destruct C1 as [C1 ?]).
  repeat (apply andb_prop in C0; destruct C0 as [C0 ?]).
  repeat match goal with
         | H : (_ =? _) = true |- _ => apply Z.eqb_eq in H
         | H : (_ <=? _) = true |- _ => apply Z.leb_le in H
         | H : (_ <? _) = true |- _ => apply Z.ltb_lt in H
         | H : Bool.eqb _ _ = true |- _ => apply Bool.eqb_prop in H
         end.
  split.
  { destruct s as [ds d0]. simpl in Hlen.
    destruct ds as [|x0 [|x1 [|x2 [|x3 [|x4 [|x5 [|x6 ds]]]]]]]; try discriminate.
    unfold frameCalls.
    change (run (DotsEnable dots :: ?cs) ?s)
      with ('(s2, o2) ← run cs (mkShield (digits s) dots);
            Some (s2, [DigitalWrite NEON_DOTS dots] ++ o2)).
    rewrite !run_SetNXDigit by assumption.
    cbn [digits dotsEnabled store slotIndex Z.to_nat Pos.to_nat Pos.iter_op
         Nat.add insert list_insert].
    rewrite (run_Show _ reg1 reg0) by (apply show_digits; assumption).
    reflexivity. }
  assert (Hbytes : forall w,
            forallb (fun x => (0 <=? x) && (x <? 256)) (wordBytes w) = true ->
            Forall (fun b => 0 <= b < 256) (wordBytes w)).
  { intros w Hw. apply Forall_forall. intros x Hx.
    apply list_elem_of_In in Hx. rewrite forallb_forall in Hw.
    specialize (Hw x Hx). apply andb_prop in Hw. lia. }
  unfold decodeWord, flag.
  split; [ exact C1 | ]. split; [ exact C0 | ].
  split; [ lia | ]. split; [ lia | ].
  split; [ assumption | ]. split; [ assumption | ].
  split; [ apply Forall_app; split; apply Hbytes; assumption | ].
  split; congruence.
Qed.

Lemma frame_encoding_roundtrip_witness :
  run (frameCalls 1 2 3 4 5 9 true) NixieTubeShield.init
  = Some (mkShield [9; 5; 4; 3; 2; 1] true,
          [DigitalWrite NEON_DOTS true; DigitalWrite LATCH_ENABLE false]
            ++ map SpiTransfer [224; 0; 128; 16; 192; 128; 16; 2]
            ++ [DigitalWrite LATCH_ENABLE true])
  /\ decodeWord (wordOfBytes [224; 0; 128; 16]) = (9, 5, 4, true, true)
  /\ decodeWord (wordOfBytes [192; 128; 16; 2]) = (3, 2, 1, true, true).
Proof.
  pose proof (frame_encoding_roundtrip NixieTubeShield.init 1 2 3 4 5 9 true
                eq_refl ltac:(lia) ltac:(lia) ltac:(lia) ltac:(lia)
                ltac:(lia) ltac:(lia)) as H.
  cbv zeta in H.
  destruct H as (Hrun & _ & _ & _ & _ & _ & _ & _ & Hd1 & Hd0).
  split; [ exact Hrun | split; [ exact Hd1 | exact Hd0 ] ].
Defined.

(** ** The dispatch of display programs *)

Lemma dispatch_same m : dispatch m m = ShowTime.
Proof. unfold dispatch. rewrite Z.eqb_refl. reflexivity. Qed.

Lemma dispatch_cases m prev :
  (dispatch m prev = AntiPoisoningSweep <-> m <> prev /\ m = 0)
  /\ (dispatch m prev = RainbowSweep
      <-> m <> prev /\ m <> 0 /\ Z.rem m 15 = 0)
  /\ (dispatch m prev = ShowDate
      <-> m <> prev /\ m <> 0 /\ Z.rem m 15 <> 0 /\ Z.rem m 10 = 0)
  /\ (dispatch m prev = ShowTime
      <-> m = prev \/ (m <> 0 /\ Z.rem m 15 <> 0 /\ Z.rem m 10 <> 0))
  /\ dispatch m prev <> PoweredOff.
Proof.
  unfold dispatch.
  destruct (Z.eqb_spec m prev) as [E | E];
    destruct (Z.eqb_spec m 0) as [E0 | E0];
    destruct (Z.eqb_spec (Z.rem m 15) 0) as [E15 | E15];
    destruct (Z.eqb_spec (Z.rem m 10) 0) as [E10 | E10];
    cbn [negb andb];
    repeat split; intros; try discriminate; try tauto;
    try (subst m; cbn in *; congruence).
Qed.

Section DisplayFacts.

Variable wheelPosOfHour : bool -> Z -> Z.
Variable cfg : Config.

Lemma updateDisplay_on t g :
  inWindow cfg (t_hour t) = true ->
  let p := dispatch (t_minute t) (previousMinute g) in
  updateDisplay wheelPosOfHour cfg t g
  = (mkGlobals
       (match p with ShowTime => previousMinute g | _ => t_minute t end)
       (t_minute t)
       (match p with ShowTime => negb (dotToggle g) | _ => dotToggle g end)
       true,
     (if clockOn g then [] else [HvEnable true])
       ++ programCalls wheelPosOfHour cfg t g p).
Proof.
  destruct g as [prev mins tog on].
  cbn [previousMinute minutes dotToggle clockOn].
  cbv zeta. intros Hwin. unfold updateDisplay. rewrite Hwin.
  pose proof (dispatch_cases (t_minute t) prev) as (_ & _ & _ & _ & Hoff).
  destruct on, tog;
    cbn [negb clockOn previousMinute minutes dotToggle];
    destruct (dispatch (t_minute t) prev);
    try contradiction; reflexivity.
Qed.

Lemma updateDisplay_off t g :
  inWindow cfg (t_hour t) = false ->
  updateDisplay wheelPosOfHour cfg t g
  = if clockOn g then
      (mkGlobals (previousMinute g) (minutes g) (dotToggle g) false, shutdown)
    else (g, []).
Proof. intros Hwin. unfold updateDisplay. rewrite Hwin. reflexivity. Qed.


End DisplayFacts.






(** C10: [previousMinute] starts as 0, so a first call of [updateDisplay]
    at minute 0 (inside the on-window) finds the minute equal to the cell,
    shows the time and makes no anti-poisoning call; the cell stays 0. *)
Theorem first_minute_zero_shows_time (wheelPosOfHour : bool -> Z -> Z)
  (cfg : Config) (t : LocalTime) :
  inWindow cfg (t_hour t) = true ->
  t_minute t = 0 ->
  previousMinute startup = 0
  /\ dispatch (t_minute t) (previousMinute startup) = ShowTime
  /\ selected cfg t startup = ShowTime
  /\ selected cfg t startup <> AntiPoisoningSweep
  /\ updateDisplay wheelPosOfHour cfg t startup
     = (mkGlobals 0 0 true true, showTime wheelPosOfHour cfg t false)
  /\ ~ In DoAntiPoisoning (snd (updateDisplay wheelPosOfHour cfg t startup)).
Proof.
  intros Hwin Hm.
  assert (Hd : dispatch (t_minute t) (previousMinute startup) = ShowTime).
  { rewrite Hm. reflexivity. }
  assert (Hs : selected cfg t startup = ShowTime).
  { unfold selected. rewrite Hwin. exact Hd. }
  assert (Hu : updateDisplay wheelPosOfHour cfg t startup
               = (mkGlobals 0 0 true true, showTime wheelPosOfHour cfg t false)).
  { rewrite (updateDisplay_on wheelPosOfHour cfg t startup Hwin).
    cbv zeta. rewrite Hd, Hm. reflexivity. }
  split; [ reflexivity | ]. split; [ exact Hd | ]. split; [ exact Hs | ].
  split; [ rewrite Hs; discriminate | ]. split; [ exact Hu | ].
  rewrite Hu. cbn [snd showTime In].
  intros H. repeat (destruct H as [H | H]; [ discriminate H | ]). exact H.
Qed.

Lemma first_minute_zero_shows_time_witness :
  let wheel := fun (_ : bool) (h : Z) => 21 * h in
  let t := mkLocal 8 8 0 0 21 3 2021 in
  selected asBuilt t startup = ShowTime
  /\ updateDisplay wheel asBuilt t startup
     = (mkGlobals 0 0 true true, showTime wheel asBuilt t false).
Proof.
  intros wheel t.
  pose proof (first_minute_zero_shows_time wheel asBuilt t eq_refl eq_refl) as H.
  destruct H as (_ & _ & Hs & _ & Hu & _).
  split; [ exact Hs | exact Hu ].
Defined.

(** With any other value in the cell the same minute 0 runs the sweep. *)
Lemma minute_zero_after_other_minute cfg t g :
  inWindow cfg (t_hour t) = true -> t_minute t = 0 -> previousMinute g <> 0 ->
  selected cfg t g = AntiPoisoningSweep.
Proof.
  intros Hwin Hm Hp. unfold selected. rewrite Hwin.
  apply dispatch_cases. split; [ congruence | exact Hm ].
Qed.

(** ** The power window *)

Lemma inWindow_spec cfg hr :
  inWindow cfg hr = true <-> CLOCK_ON_HOUR cfg <= hr < CLOCK_OFF_HOUR cfg.
Proof.
  unfold inWindow. rewrite andb_true_iff, Z.geb_le, Z.ltb_lt. reflexivity.
Qed.

Lemma clockOn_after wheelPosOfHour cfg t g :
  clockOn (fst (updateDisplay wheelPosOfHour cfg t g)) = inWindow cfg (t_hour t).
Proof.
  destruct (inWindow cfg (t_hour t)) eqn:Hwin.
  - rewrite (updateDisplay_on wheelPosOfHour cfg t g Hwin). reflexivity.
  - rewrite (updateDisplay_off wheelPosOfHour cfg t g Hwin).
    destruct (clockOn g) eqn:Hon; [ reflexivity | exact Hon ].
Qed.

Lemma ticks_off wheelPosOfHour cfg ts : forall g,
  Forall (fun t' => inWindow cfg (t_hour t') = false) ts ->
  clockOn g = false ->
  ticks wheelPosOfHour cfg ts g = (repeat PoweredOff (length ts), [], g).
Proof.
  induction ts as [| t' ts IH]; intros g Hall Hoff; [ reflexivity | ].
  apply Forall_cons_1 in Hall. destruct Hall as [Hwin Hall].
  cbn [ticks]. rewrite (updateDisplay_off wheelPosOfHour cfg t' g Hwin), Hoff.
  rewrite (IH g Hall Hoff). unfold selected. rewrite Hwin. reflexivity.
Qed.

Lemma run_blank_slots s :
  length (digits s) = 6%nat ->
  run ([HvEnable false; DotsEnable false] ++ blankAll) s
  = Some (mkShield (repeat DIGIT_BLANK 6) false,
          [DigitalWrite HV_ENABLE false; DigitalWrite NEON_DOTS false]).
Proof.
  destruct s as [ds d0]. cbn [digits]. intros Hlen.
  destruct ds as [|x0 [|x1 [|x2 [|x3 [|x4 [|x5 [|x6 ds]]]]]]]; try discriminate.
  reflexivity.
Qed.

(** The shutdown calls stop at [show]: the six table reads are at index
    255. *)
Lemma run_shutdown_undefined s :
  length (digits s) = 6%nat -> run shutdown s = None.
Proof.
  destruct s as [ds d0]. cbn [digits]. intros Hlen.
  destruct ds as [|x0 [|x1 [|x2 [|x3 [|x4 [|x5 [|x6 ds]]]]]]]; try discriminate.
  reflexivity.
Qed.

(** C6: after any call the power state is On exactly when the hour is in
    [on-hour, off-hour).  A call outside the window with the clock On turns
    it Off and makes, in this order, the calls: high voltage off, indicators
    off, the six slots set to BLANK, [show], LED color black; further calls
    outside the window make no call at all, so over a run of such ticks the
    shutdown happens once.  Up to [show] the calls drive the two pins low and
    leave six blank codes in the storage with the indicators off.  The frame
    [show] is to push is not the blanked one: each of its six reads of
    [SymbolArray] is at index 255, outside the ten-entry table, so the frame
    has no defined value and the run of the shutdown calls has no result
    (the defect of C1).  On its own the last call sets the three color
    bytes to 0. *)
Theorem power_off_once (wheelPosOfHour : bool -> Z -> Z) (cfg : Config)
  (t : LocalTime) (ts : list LocalTime) (g : Globals) :
  inWindow cfg (t_hour t) = false ->
  Forall (fun t' => inWindow cfg (t_hour t') = false) ts ->
  clockOn g = true ->
  let off := mkGlobals (previousMinute g) (minutes g) (dotToggle g) false in
  let blanked :=
    mkShield [DIGIT_BLANK; DIGIT_BLANK; DIGIT_BLANK; DIGIT_BLANK; DIGIT_BLANK;
              DIGIT_BLANK] false in
  (forall t0 g0,
     clockOn (fst (updateDisplay wheelPosOfHour cfg t0 g0)) = true
     <-> CLOCK_ON_HOUR cfg <= t_hour t0 < CLOCK_OFF_HOUR cfg)
  /\ updateDisplay wheelPosOfHour cfg t g
     = (off,
        [HvEnable false; DotsEnable false;
         SetNXDigit NX1 BLANK_DIGIT; SetNXDigit NX2 BLANK_DIGIT;
         SetNXDigit NX3 BLANK_DIGIT; SetNXDigit NX4 BLANK_DIGIT;
         SetNXDigit NX5 BLANK_DIGIT; SetNXDigit NX6 BLANK_DIGIT;
         Show; SetLEDColor black])
  /\ updateDisplay wheelPosOfHour cfg t off = (off, [])
  /\ ticks wheelPosOfHour cfg (t :: ts) g
     = (repeat PoweredOff (S (length ts)), shutdown, off)
  /\ (forall s, length (digits s) = 6%nat ->
        run ([HvEnable false; DotsEnable false] ++ blankAll) s
        = Some (blanked,
                [DigitalWrite HV_ENABLE false; DigitalWrite NEON_DOTS false]))
  /\ shutdown = ([HvEnable false; DotsEnable false] ++ blankAll)
                  ++ [Show; SetLEDColor black]
  /\ Forall (fun k => index (digits blanked) k = Some 255
                      /\ index SymbolArray 255 = None
                      /\ symbolAt blanked k = None) [0; 1; 2; 3; 4; 5]
  /\ show blanked = None
  /\ exec Show blanked = None
  /\ (forall s, length (digits s) = 6%nat ->
        run (snd (updateDisplay wheelPosOfHour cfg t g)) s = None)
  /\ (forall s, exec (SetLEDColor black) s = Some (s, [LedColor 0 0 0])).
Proof.
  intros Hwin Hall Hon off blanked.
  assert (Hu : updateDisplay wheelPosOfHour cfg t g = (off, shutdown)).
  { rewrite (updateDisplay_off wheelPosOfHour cfg t g Hwin), Hon. reflexivity. }
  split.
  { intros t0 g0. rewrite clockOn_after. apply inWindow_spec. }
  split; [ exact Hu | ].
  split.
  { rewrite (updateDisplay_off wheelPosOfHour cfg t off Hwin). reflexivity. }
  split.
  { cbn [ticks]. rewrite Hu.
    rewrite (ticks_off wheelPosOfHour cfg ts off Hall eq_refl).
    unfold selected. rewrite Hwin. rewrite app_nil_r. reflexivity. }
  split; [ exact run_blank_slots | ].
  split; [ reflexivity | ].
  split; [ repeat constructor | ].
  split; [ reflexivity | ].
  split; [ reflexivity | ].
  split; [ | intros s; reflexivity ].
  intros s Hlen. rewrite Hu. cbn [snd]. apply run_shutdown_undefined.
  exact Hlen.
Qed.

Lemma power_off_once_witness :
  let wheel := fun (_ : bool) (h : Z) => 21 * h in
  let t22 := mkLocal 22 10 59 59 21 3 2021 in
  let g22 := fst (updateDisplay wheel asBuilt t22 startup) in
  let t23 := mkLocal 23 11 0 0 21 3 2021 in
  let t23' := mkLocal 23 11 0 1 21 3 2021 in
  clockOn g22 = true
  /\ ticks wheel asBuilt [t23; t23'] g22
     = ([PoweredOff; PoweredOff],
        [HvEnable false; DotsEnable false;
         SetNXDigit NX1 BLANK_DIGIT; SetNXDigit NX2 BLANK_DIGIT;
         SetNXDigit NX3 BLANK_DIGIT; SetNXDigit NX4 BLANK_DIGIT;
         SetNXDigit NX5 BLANK_DIGIT; SetNXDigit NX6 BLANK_DIGIT;
         Show; SetLEDColor black],
        mkGlobals 0 59 true false)
  /\ run (snd (updateDisplay wheel asBuilt t23 g22))
         (mkShield [9; 5; 9; 5; 0; 1] true) = None.
Proof.
  intros wheel t22 g22 t23 t23'.
  assert (Hall : Forall (fun t' => inWindow asBuilt (t_hour t') = false) [t23']).
  { constructor; [ reflexivity | constructor ]. }
  pose proof (power_off_once wheel asBuilt t23 [t23'] g22 eq_refl Hall eq_refl)
    as H.
  cbv zeta in H. destruct H as (_ & _ & _ & Ht & _ & _ & _ & _ & _ & Hrun & _).
  split; [ reflexivity | ]. split; [ exact Ht | ].
  apply Hrun. reflexivity.
Defined.

(** ** Leading-zero suppression *)

Lemma leading_tensShown cfg v : 0 <= v -> leading cfg v = tensShown cfg v.
Proof.
  intros Hv. unfold leading, tensShown.
  rewrite Z.geb_leb, Z.leb_antisym.
  destruct (v <? 10); cbn [negb]; [ reflexivity | ].
  apply Z.quot_div_nonneg; lia.
Qed.

Lemma units_digit v : 0 <= v -> Z.rem v 10 = v mod 10 /\ 0 <= v mod 10 <= 9.
Proof.
  intros Hv. rewrite Z.rem_mod_nonneg by lia.
  split; [ reflexivity | ]. pose proof (Z.mod_pos_bound v 10). lia.
Qed.

Lemma tens_digit v : 0 <= v <= 59 -> Z.quot v 10 = v / 10 /\ 0 <= v / 10 <= 9.
Proof.
  intros Hv. rewrite Z.quot_div_nonneg by lia.
  split; [ reflexivity | ]. Z.div_mod_to_equations. lia.
Qed.

(** C7, amended: with suppression enabled a tens digit of 0 is shown as
    BLANK in four fields, the hour, the month, the day and the year; the
    tens digits of minutes and seconds and every units digit are the plain
    digits 0..9 whatever the setting. *)
Theorem leading_zero_suppression (wheelPosOfHour : bool -> Z -> Z)
  (cfg : Config) (t : LocalTime) (dots : bool) :
  0 <= t_hour t <= 23 -> 1 <= t_hourFormat12 t <= 12 ->
  0 <= t_minute t <= 59 -> 0 <= t_second t <= 59 ->
  1 <= t_day t <= 31 -> 1 <= t_month t <= 12 -> 2000 <= t_year t <= 2099 ->
  let hour := if HOUR_FORMAT_12 cfg then t_hourFormat12 t else t_hour t in
  let year := t_year t - 2000 in
  let time := showTime wheelPosOfHour cfg t dots in
  let date := showDate cfg t in
  rendered NX1 time = Some (tensShown cfg hour)
  /\ rendered NX2 time = Some (hour mod 10)
  /\ rendered NX3 time = Some (t_minute t / 10)
  /\ rendered NX4 time = Some (t_minute t mod 10)
  /\ rendered NX5 time = Some (t_second t / 10)
  /\ rendered NX6 time = Some (t_second t mod 10)
  /\ rendered NX1 date = Some (tensShown cfg (t_month t))
  /\ rendered NX2 date = Some (t_month t mod 10)
  /\ rendered NX3 date = Some (tensShown cfg (t_day t))
  /\ rendered NX4 date = Some (t_day t mod 10)
  /\ rendered NX5 date = Some (tensShown cfg year)
  /\ rendered NX6 date = Some (year mod 10)
  /\ Forall (fun d => 0 <= d <= 9)
       [hour mod 10; t_minute t / 10; t_minute t mod 10;
        t_second t / 10; t_second t mod 10;
        t_month t mod 10; t_day t mod 10; year mod 10]
  /\ Forall (fun v => tensShown cfg v
                      = if SUPPRESS_LEADING_ZEROS cfg && (v / 10 =? 0)
                        then BLANK_DIGIT else v / 10)
       [hour; t_month t; t_day t; year].
Proof.
  intros Hh Hh12 Hmi Hs Hd Hmo Hy hour year time date.
  assert (Hhour : 0 <= hour <= 23) by (unfold hour; destruct (HOUR_FORMAT_12 cfg); lia).
  assert (Hyear : 0 <= year <= 99) by (unfold year; lia).
  assert (Htens : forall v, 0 <= v ->
            tensShown cfg v
            = if SUPPRESS_LEADING_ZEROS cfg && (v / 10 =? 0)
              then BLANK_DIGIT else v / 10).
  { intros v Hv. unfold tensShown.
    destruct (Z.ltb_spec v 10) as [Hlt | Hge].
    - assert (E : v / 10 = 0) by (Z.div_mod_to_equations; lia).
      rewrite E. cbn [Z.eqb]. rewrite andb_true_r.
      destruct (SUPPRESS_LEADING_ZEROS cfg); reflexivity.
    - assert (E : v / 10 <> 0) by (Z.div_mod_to_equations; lia).
      apply Z.eqb_neq in E. rewrite E, andb_false_r. reflexivity. }
  repeat match goal with |- _ /\ _ => split end.
  - change (rendered NX1 time) with (Some (leading cfg hour)).
    rewrite leading_tensShown by lia. reflexivity.
  - change (rendered NX2 time) with (Some (Z.rem hour 10)).
    rewrite (proj1 (units_digit hour ltac:(lia))). reflexivity.
  - change (rendered NX3 time) with (Some (Z.quot (t_minute t) 10)).
    rewrite (proj1 (tens_digit _ Hmi)). reflexivity.
  - change (rendered NX4 time) with (Some (Z.rem (t_minute t) 10)).
    rewrite (proj1 (units_digit (t_minute t) ltac:(lia))). reflexivity.
  - change (rendered NX5 time) with (Some (Z.quot (t_second t) 10)).
    rewrite (proj1 (tens_digit _ Hs)). reflexivity.
  - change (rendered NX6 time) with (Some (Z.rem (t_second t) 10)).
    rewrite (proj1 (units_digit (t_second t) ltac:(lia))). reflexivity.
  - change (rendered NX1 date) with (Some (leading cfg (t_month t))).
    rewrite leading_tensShown by lia. reflexivity.
  - change (rendered NX2 date) with (Some (Z.rem (t_month t) 10)).
    rewrite (proj1 (units_digit (t_month t) ltac:(lia))). reflexivity.
  - change (rendered NX3 date) with (Some (leading cfg (t_day t))).
    rewrite leading_tensShown by lia. reflexivity.
  - change (rendered NX4 date) with (Some (Z.rem (t_day t) 10)).
    rewrite (proj1 (units_digit (t_day t) ltac:(lia))). reflexivity.
  - change (rendered NX5 date) with (Some (leading cfg year)).
    rewrite leading_tensShown by lia. reflexivity.
  - change (rendered NX6 date) with (Some (Z.rem year 10)).
    rewrite (proj1 (units_digit year ltac:(lia))). reflexivity.
  - repeat constructor;
      try (apply units_digit; lia); try (apply tens_digit; lia).
  - repeat constructor; apply Htens; lia.
Qed.

Lemma leading_zero_suppression_witness :
  let wheel := fun (_ : bool) (h : Z) => 21 * h in
  let t := mkLocal 7 7 5 9 4 3 2021 in
  let on := mkConfig true 23 7 true in
  let off := mkConfig true 23 7 false in
  (rendered NX1 (showTime wheel on t false) = Some BLANK_DIGIT
   /\ rendered NX2 (showTime wheel on t false) = Some 7)
  /\ (rendered NX1 (showTime wheel off t false) = Some 0
      /\ rendered NX2 (showTime wheel off t false) = Some 7)
  /\ rendered NX1 (showDate on t) = Some BLANK_DIGIT.
Proof.
  intros wheel t on off.
  pose proof (leading_zero_suppression wheel on t false
                ltac:(cbn; lia) ltac:(cbn; lia) ltac:(cbn; lia) ltac:(cbn; lia)
                ltac:(cbn; lia) ltac:(cbn; lia) ltac:(cbn; lia)) as Hon.
  pose proof (leading_zero_suppression wheel off t false
                ltac:(cbn; lia) ltac:(cbn; lia) ltac:(cbn; lia) ltac:(cbn; lia)
                ltac:(cbn; lia) ltac:(cbn; lia) ltac:(cbn; lia)) as Hoff.
  cbv zeta in Hon, Hoff.
  destruct Hon as (H1 & H2 & _ & _ & _ & _ & H7 & _).
  destruct Hoff as (G1 & G2 & _).
  repeat split; assumption.
Defined.

(** C7 as stated fails: the month is not in its list of suppressed fields,
    yet with suppression enabled March shows BLANK, not 0, in NX1. *)
Lemma month_tens_is_suppressed_too :
  ~ (forall (cfg : Config) (t : LocalTime),
       1 <= t_month t <= 12 ->
       rendered NX1 (showDate cfg t) = Some (t_month t / 10)).
Proof.
  intros H.
  specialize (H asBuilt (mkLocal 10 10 20 0 4 3 2021) ltac:(cbn; lia)).
  vm_compute in H. discriminate H.
Qed.

(** ** The time source *)

Section TimeSourceFacts.

Variable env : Env.
Variable breakTime : Z -> tmElements.
Variable makeTime : tmElements -> Z.

Lemma attempts_all_fail n : forall w,
  (forall i, (i < n)%nat ->
     decodeReply (udpReply env (queries w + i)%nat) = 0) ->
  attempts env breakTime n w
  = (None,
     mkWorld (queries w + n)%nat (rtcReads w) (clockReads w)
             (log w ++ concat (repeat failedAttempt n))).
Proof.
  induction n as [| n IH]; intros w Hfail.
  - cbn [attempts repeat concat]. rewrite Nat.add_0_r, app_nil_r.
    destruct w; reflexivity.
  - cbn [attempts _getTime].
    pose proof (Hfail 0%nat ltac:(lia)) as H0. rewrite Nat.add_0_r in H0.
    rewrite H0. cbn [Z.eqb negb].
    rewrite IH.
    + unfold emit. cbn [queries rtcReads clockReads log repeat concat].
      rewrite <- !app_assoc. f_equal. f_equal. lia.
    + intros i Hi. unfold emit. cbn [queries].
      replace (S (queries w) + i)%nat with (queries w + S i)%nat by lia.
      apply Hfail. lia.
Qed.

Lemma attempts_first_success k : forall n w r,
  (k < n)%nat ->
  (forall i, (i < k)%nat ->
     decodeReply (udpReply env (queries w + i)%nat) = 0) ->
  decodeReply (udpReply env (queries w + k)%nat) = r -> r <> 0 ->
  attempts env breakTime n w
  = (Some r,
     mkWorld (queries w + S k)%nat (rtcReads w) (clockReads w)
             (log w ++ concat (repeat failedAttempt k)
                    ++ [UdpSend request; Delay 1000]
                    ++ setRTCDateTime (breakTime r))).
Proof.
  induction k as [| k IH]; intros n w r Hk Hfail Hr Hnz.
  - destruct n as [| n]; [ lia | ]. cbn [attempts _getTime].
    rewrite Nat.add_0_r in Hr. rewrite Hr.
    apply Z.eqb_neq in Hnz. rewrite Hnz. cbn [negb].
    unfold emit. cbn [queries rtcReads clockReads log repeat concat app].
    rewrite <- !app_assoc. f_equal. f_equal. lia.
  - destruct n as [| n]; [ lia | ]. cbn [attempts _getTime].
    pose proof (Hfail 0%nat ltac:(lia)) as H0. rewrite Nat.add_0_r in H0.
    rewrite H0. cbn [Z.eqb negb].
    rewrite (IH n _ r).
    + unfold emit. cbn [queries rtcReads clockReads log repeat concat].
      rewrite <- !app_assoc. f_equal. f_equal. lia.
    + lia.
    + intros i Hi. unfold emit. cbn [queries].
      replace (S (queries w) + i)%nat with (queries w + S i)%nat by lia.
      apply Hfail. lia.
    + unfold emit. cbn [queries].
      replace (S (queries w) + k)%nat with (queries w + S k)%nat by lia.
      exact Hr.
    + exact Hnz.
Qed.

(** The loop never sends more requests than it has iterations, and does
    not touch the clock chip's read side. *)
Lemma attempts_bound n : forall w,
  (queries (snd (attempts env breakTime n w)) <= queries w + n)%nat
  /\ rtcReads (snd (attempts env breakTime n w)) = rtcReads w.
Proof.
  induction n as [| n IH]; intros w; [ cbn; lia | ].
  cbn [attempts _getTime].
  destruct (negb (decodeReply (udpReply env (queries w)) =? 0)).
  - cbn. lia.
  - match goal with |- context [attempts _ _ n ?w1] => set (w' := w1) end.
    destruct (IH w') as [Hq Hr].
    assert (Eq : queries w' = S (queries w)) by reflexivity.
    assert (Er : rtcReads w' = rtcReads w) by reflexivity.
    split; [ lia | congruence ].
Qed.

(** The [while] loop when the seconds stay put for [n] reads and the
    read after them comes later than 3000 ms. *)
Lemma waitForTick_times_out n : forall fuel w m prevSeconds start_ms,
  (n < fuel)%nat ->
  Second m = prevSeconds ->
  (forall j, (j < n)%nat ->
     Second (getRTCTime (rtcRegs env (rtcReads w + j)%nat)) = prevSeconds
     /\ u32 (u32 (millisAt env (clockReads w + j)%nat) - start_ms) <= 3000) ->
  3000 < u32 (u32 (millisAt env (clockReads w + n)%nat) - start_ms) ->
  waitForTick env fuel prevSeconds start_ms m w
  = Some (false, getRTCTime (rtcRegs env (rtcReads w + n)%nat),
          mkWorld (queries w) (rtcReads w + S n)%nat
                  (clockReads w + S n)%nat
                  (log w ++ repeat (WireWrite [zero]) (S n))).
Proof.
  induction n as [| n IH]; intros fuel w m prev start Hfuel Hm Hsame Hlate.
  - destruct fuel as [| fuel]; [ lia | ]. cbn [waitForTick].
    rewrite Hm, Z.eqb_refl. cbn [shieldGetRTCTime millis queries rtcReads clockReads log].
    rewrite Nat.add_0_r in Hlate.
    apply Z.gtb_lt in Hlate. rewrite Hlate.
    rewrite !Nat.add_0_r, !Nat.add_1_r. reflexivity.
  - destruct fuel as [| fuel]; [ lia | ]. cbn [waitForTick].
    rewrite Hm, Z.eqb_refl. cbn [shieldGetRTCTime millis queries rtcReads clockReads log].
    destruct (Hsame 0%nat ltac:(lia)) as [Hs0 Ht0].
    rewrite Nat.add_0_r in Hs0, Ht0.
    assert (Hnot : (u32 (u32 (millisAt env (clockReads w)) - start) >? 3000) = false).
    { rewrite Z.gtb_ltb. apply Z.ltb_ge. exact Ht0. }
    rewrite Hnot.
    rewrite (IH fuel _ _ prev start).
    + cbn [queries rtcReads clockReads log repeat].
      f_equal. f_equal; [ f_equal; f_equal; f_equal; lia | ].
      rewrite <- app_assoc. cbn [app].
      f_equal; lia.
    + lia.
    + exact Hs0.
    + intros j Hj. cbn [rtcReads clockReads].
      replace (S (rtcReads w) + j)%nat with (rtcReads w + S j)%nat by lia.
      replace (S (clockReads w) + j)%nat with (clockReads w + S j)%nat by lia.
      apply Hsame. lia.
    + cbn [clockReads].
      replace (S (clockReads w) + n)%nat with (clockReads w + S n)%nat by lia.
      exact Hlate.
Qed.

End TimeSourceFacts.

(** C3: [getTime] sends at most 20 requests.  When each of the 20 replies
    is absent or not 48 bytes long, every attempt yields 0, nothing is
    written to the clock chip, and the chip is read instead; when its seconds
    field stays the same until a read comes back more than 3000 ms after the
    first, [getTime] returns 0, on which the caller keeps the wall clock it
    has. *)
Theorem time_source_falls_back (env : Env) (breakTime : Z -> tmElements)
  (makeTime : tmElements -> Z) (w : World) (n fuel : nat) (wallClock : Z) :
  (forall i, (i < 20)%nat ->
     Z.of_nat (length (udpReply env (queries w + i)%nat)) <> 48) ->
  let second j := Second (getRTCTime (rtcRegs env (rtcReads w + j)%nat)) in
  let elapsed j :=
    u32 (u32 (millisAt env (clockReads w + j)%nat)
         - u32 (millisAt env (clockReads w))) in
  (forall j, (1 <= j <= n)%nat -> second j = second 0%nat /\ elapsed j <= 3000) ->
  3000 < elapsed (S n) ->
  (n < fuel)%nat ->
  (forall w', (queries (snd (attempts env breakTime RETRIES w'))
               <= queries w' + 20)%nat)
  /\ (forall i, (i < 20)%nat ->
        decodeReply (udpReply env (queries w + i)%nat) = 0)
  /\ attempts env breakTime RETRIES w
     = (None,
        mkWorld (queries w + 20)%nat (rtcReads w) (clockReads w)
                (log w ++ concat (repeat failedAttempt 20)))
  /\ getTime env breakTime makeTime fuel w
     = Some (0,
             mkWorld (queries w + 20)%nat (rtcReads w + S (S n))%nat
                     (clockReads w + S (S n))%nat
                     (log w ++ concat (repeat failedAttempt 20)
                            ++ repeat (WireWrite [zero]) (S (S n))))
  /\ resync wallClock 0 = wallClock.
Proof.
  intros Hsize second elapsed Hsame Hlate Hfuel.
  assert (Hfail : forall i, (i < 20)%nat ->
            decodeReply (udpReply env (queries w + i)%nat) = 0).
  { intros i Hi. apply decodeReply_wrong_size. exact (Hsize i Hi). }
  pose proof (attempts_all_fail env breakTime 20 w Hfail) as Hatt.
  split; [ intros w'; apply attempts_bound | ].
  split; [ exact Hfail | ]. split; [ exact Hatt | ].
  split; [ | reflexivity ].
  unfold getTime. change RETRIES with 20%nat. rewrite Hatt.
  unfold _getRTCTime.
  cbn [shieldGetRTCTime millis queries rtcReads clockReads log].
  rewrite (waitForTick_times_out env n fuel _ _ _ _ Hfuel eq_refl).
  - cbn [mbind option_bind queries rtcReads clockReads log].
    f_equal. f_equal. f_equal; try lia.
    rewrite <- !app_assoc. reflexivity.
  - intros j Hj. cbn [rtcReads clockReads].
    replace (S (rtcReads w) + j)%nat with (rtcReads w + S j)%nat by lia.
    replace (S (clockReads w) + j)%nat with (clockReads w + S j)%nat by lia.
    destruct (Hsame (S j) ltac:(lia)) as [Hs Ht].
    unfold second in Hs. rewrite Nat.add_0_r in Hs.
    split; [ exact Hs | exact Ht ].
  - cbn [clockReads].
    replace (S (clockReads w) + n)%nat with (clockReads w + S n)%nat by lia.
    exact Hlate.
Qed.

Lemma time_source_falls_back_witness :
  let env := mkEnv (fun _ => []) (fun _ => [48; 89; 34; 4; 33; 3; 81])
                   (fun k => 1000 + 1600 * Z.of_nat k) in
  let breakTime := fun _ : Z => mkTm 0 0 0 0 1 1 0 in
  let makeTime := fun m : tmElements => Second m in
  getTime env breakTime makeTime 5 NTP.start
  = Some (0, mkWorld 20 3 3
               (concat (repeat failedAttempt 20)
                  ++ repeat (WireWrite [zero]) 3))
  /\ resync 1616216448 0 = 1616216448.
Proof.
  intros env breakTime makeTime.
  assert (Hsize : forall i, (i < 20)%nat ->
            Z.of_nat (length (udpReply env (queries NTP.start + i)%nat)) <> 48).
  { intros i _. cbn. discriminate. }
  pose proof (time_source_falls_back env breakTime makeTime NTP.start 1 5
                1616216448 Hsize) as H.
  cbv zeta in H.
  assert (Hsame : forall j, (1 <= j <= 1)%nat ->
            Second (getRTCTime (rtcRegs env (rtcReads NTP.start + j)%nat))
            = Second (getRTCTime (rtcRegs env (rtcReads NTP.start + 0)%nat))
            /\ u32 (u32 (millisAt env (clockReads NTP.start + j)%nat)
                    - u32 (millisAt env (clockReads NTP.start))) <= 3000).
  { intros j Hj. assert (j = 1%nat) as -> by lia.
    split; [ reflexivity | vm_compute; discriminate ]. }
  specialize (H Hsame ltac:(vm_compute; reflexivity) ltac:(lia)).
  destruct H as (_ & _ & _ & Hget & Hkeep).
  split; [ exact Hget | exact Hkeep ].
Defined.

(** C8: when attempt [k] (of the 20) is the first whose result [r] is not
    0, [getTime] returns [r] at once: it has sent [k + 1] requests, each
    failed attempt left only its request and its two delays in the log, and
    after the successful one comes the single write of the fields of [r]
    to the clock chip, which is not read. *)
Theorem network_success_writes_rtc (env : Env) (breakTime : Z -> tmElements)
  (makeTime : tmElements -> Z) (w : World) (k fuel : nat) (r : Z) :
  (k < 20)%nat ->
  (forall i, (i < k)%nat ->
     decodeReply (udpReply env (queries w + i)%nat) = 0) ->
  decodeReply (udpReply env (queries w + k)%nat) = r ->
  r <> 0 ->
  getTime env breakTime makeTime fuel w
  = Some (r,
          mkWorld (queries w + S k)%nat (rtcReads w) (clockReads w)
                  (log w ++ concat (repeat failedAttempt k)
                         ++ [UdpSend request; Delay 1000]
                         ++ [WireWrite (rtcFrame (breakTime r))]))
  /\ rtcFrame (breakTime r)
     = [0; decToBcd (Second (breakTime r)); decToBcd (Minute (breakTime r));
        decToBcd (Hour (breakTime r)); decToBcd (Wday (breakTime r));
        decToBcd (Day (breakTime r)); decToBcd (Month (breakTime r));
        decToBcd (Year (breakTime r)); 0]
  /\ ~ In (WireWrite (rtcFrame (breakTime r)))
          (concat (repeat failedAttempt k)).
Proof.
  intros Hk Hfail Hr Hnz.
  split; [ | split ].
  - unfold getTime. change RETRIES with 20%nat.
    rewrite (attempts_first_success env breakTime k 20 w r Hk Hfail Hr Hnz).
    reflexivity.
  - reflexivity.
  - intros Hin. apply in_concat in Hin. destruct Hin as (l & Hl & Hin).
    apply repeat_spec in Hl. subst l.
    cbn [failedAttempt In] in Hin.
    repeat (destruct Hin as [Hin | Hin]; [ discriminate Hin | ]). exact Hin.
Qed.

Lemma network_success_writes_rtc_witness :
  let reply := repeat 0 40 ++ [228; 0; 0; 0; 0; 0; 0; 0] in
  let env := mkEnv (fun k => if (k <? 2)%nat then [] else reply)
                   (fun _ => []) (fun _ => 0) in
  let breakTime := fun _ : Z => mkTm 48 0 5 6 20 3 51 in
  let makeTime := fun _ : tmElements => 0 in
  getTime env breakTime makeTime 0 NTP.start
  = Some (1616216448,
          mkWorld 3 0 0
            (failedAttempt ++ failedAttempt
               ++ [UdpSend request; Delay 1000]
               ++ [WireWrite [0; 72; 0; 5; 6; 32; 3; 81; 0]])).
Proof.
  intros reply env breakTime makeTime.
  pose proof (network_success_writes_rtc env breakTime makeTime NTP.start 2 0
                1616216448 ltac:(lia)) as H.
  assert (Hfail : forall i, (i < 2)%nat ->
            decodeReply (udpReply env (queries NTP.start + i)%nat) = 0).
  { intros i Hi. destruct i as [| [| i]]; [ reflexivity | reflexivity | lia ]. }
  specialize (H Hfail ltac:(vm_compute; reflexivity) ltac:(lia)).
  destruct H as (Hget & _). exact Hget.
Defined.

(** * Further properties of the code *)

(** ** The LED colors *)

(** A property of the numbers below [n] checked by running it on each. *)
Lemma range_checked (n : Z) (P : Z -> bool) :
  forallb P (seqZ 0 n) = true -> forall v, 0 <= v < n -> P v = true.
Proof.
  intros Hall v Hv. rewrite forallb_forall in Hall. apply Hall.
  apply list_elem_of_In, elem_of_seqZ. lia.
Qed.

Lemma colorWheel_mod w : 0 <= w -> colorWheel w = colorWheel (w mod 256).
Proof.
  intros Hw. unfold colorWheel.
  pose proof (Z.mod_pos_bound w 256 ltac:(lia)) as Hr.
  rewrite (Z.rem_mod_nonneg w 256) by lia.
  rewrite (Z.rem_small (w mod 256) 256) by lia. reflexivity.
Qed.

(** X1: for every wheel position from 0 upwards [colorWheel] gives three
    byte channels that add up to 255 with at least one of them off, and it
    repeats with period 256. *)
Theorem colorWheel_channels (w : Z) :
  0 <= w ->
  let c := colorWheel w in
  0 <= Channel.red c <= 255
  /\ 0 <= Channel.green c <= 255
  /\ 0 <= Channel.blue c <= 255
  /\ Channel.red c + Channel.green c + Channel.blue c = 255
  /\ (Channel.red c = 0 \/ Channel.green c = 0 \/ Channel.blue c = 0)
  /\ colorWheel (w + 256) = c.
Proof.
  intros Hw c.
  assert (Hper : colorWheel (w + 256) = c).
  { unfold c. rewrite (colorWheel_mod (w + 256)) by lia.
    rewrite (colorWheel_mod w) by lia.
    replace (w + 256) with (w + 1 * 256) by lia.
    rewrite Z.mod_add by lia. reflexivity. }
  pose proof (range_checked 256
    (fun r => let c := colorWheel r in
       (0 <=? Channel.red c) && (Channel.red c <=? 255)
       && (0 <=? Channel.green c) && (Channel.green c <=? 255)
       && (0 <=? Channel.blue c) && (Channel.blue c <=? 255)
       && (Channel.red c + Channel.green c + Channel.blue c =? 255)
       && ((Channel.red c =? 0) || (Channel.green c =? 0)
           || (Channel.blue c =? 0)))
    ltac:(vm_compute; reflexivity) (w mod 256)
    (Z.mod_pos_bound w 256 ltac:(lia))) as H.
  cbv beta zeta in H. rewrite <- (colorWheel_mod w Hw) in H. fold c in H.
  repeat (apply andb_prop in H; destruct H as [H ?]).
  repeat match goal with
         | H : (_ <=? _) = true |- _ => apply Z.leb_le in H
         | H : (_ =? _) = true |- _ => apply Z.eqb_eq in H
         end.
  repeat split; try lia; exact Hper.
Qed.

Lemma colorWheel_channels_witness :
  colorWheel 300 = mkRGB 123 132 0 /\ colorWheel (300 + 256) = colorWheel 300.
Proof.
  pose proof (colorWheel_channels 300 ltac:(lia)) as H. cbv zeta in H.
  destruct H as (_ & _ & _ & _ & _ & Hper).
  split; [ reflexivity | exact Hper ].
Defined.

(** X2: the gamma table of [setLEDColor] has an entry for every byte, keeps
    the order of brightness, never brightens a channel, and maps 0 to 0 and
    255 to 255. *)
Theorem gamma_monotone (i j : Z) :
  0 <= i -> i <= j -> j <= 255 ->
  exists a b,
    index gammaArray i = Some a /\ index gammaArray j = Some b
    /\ a <= b /\ 0 <= a <= i /\ b <= j
    /\ index gammaArray 0 = Some 0 /\ index gammaArray 255 = Some 255.
Proof.
  intros Hi Hij Hj.
  pose proof (range_checked 256
    (fun i => forallb (fun j =>
       match index gammaArray i, index gammaArray j with
       | Some a, Some b =>
           (negb (i <=? j) || (a <=? b)) && (0 <=? a) && (a <=? i)
       | _, _ => false
       end) (seqZ 0 256))
    ltac:(vm_compute; reflexivity)) as H.
  pose proof (range_checked 256 _ (H i ltac:(lia)) j ltac:(lia)) as Hij'.
  pose proof (range_checked 256 _ (H j ltac:(lia)) j ltac:(lia)) as Hjj.
  cbv beta in Hij', Hjj.
  destruct (index gammaArray i) as [a|]; [ | discriminate ].
  destruct (index gammaArray j) as [b|]; [ | discriminate ].
  exists a, b.
  apply andb_prop in Hij'. destruct Hij' as [Hij' Hai].
  apply andb_prop in Hij'. destruct Hij' as [Hab Ha0].
  apply andb_prop in Hjj. destruct Hjj as [_ Hbj].
  assert (Hle : (i <=? j) = true) by (apply Z.leb_le; exact Hij).
  rewrite Hle in Hab. cbn [negb orb] in Hab.
  apply Z.leb_le in Hab, Ha0, Hai, Hbj.
  repeat split; try lia; reflexivity.
Qed.

Lemma gamma_monotone_witness :
  exists a b,
    index gammaArray 100 = Some a /\ index gammaArray 200 = Some b /\ a <= b.
Proof.
  destruct (gamma_monotone 100 200 ltac:(lia) ltac:(lia) ltac:(lia))
    as (a & b & Ha & Hb & Hab & _).
  exists a, b. repeat split; assumption.
Defined.

(** ** The shield's storage *)

Lemma NUMERIC_DIGITS_codes d code :
  index NUMERIC_DIGITS d = Some code -> 0 <= code <= 9 \/ code = DIGIT_BLANK.
Proof.
  unfold index. destruct (d <? 0); [ discriminate | ].
  intros H. apply list_elem_of_lookup_2 in H.
  unfold NUMERIC_DIGITS in H.
  repeat (apply elem_of_cons in H; destruct H as [-> | H]; [ lia || (right; reflexivity) | ]).
  apply elem_of_nil in H. contradiction.
Qed.

Lemma setNXDigit_wellFormed n d s s' :
  setNXDigit n d s = Some s' -> wellFormed s -> wellFormed s'.
Proof.
  unfold setNXDigit. destruct (index NUMERIC_DIGITS d) as [code|] eqn:Hc;
    cbn [mbind option_bind]; [ | discriminate ].
  intros [= <-] [Hlen Hall]. apply NUMERIC_DIGITS_codes in Hc.
  split; cbn [digits]; unfold store.
  - rewrite length_insert. exact Hlen.
  - apply Forall_insert; [ exact Hall | ].
    unfold u16. rewrite Z.mod_small; [ exact Hc | ].
    unfold DIGIT_BLANK in Hc. lia.
Qed.

Lemma symbol_defined d :
  0 <= d <= 9 \/ d = DIGIT_BLANK ->
  (is_Some (index SymbolArray d) <-> 0 <= d <= 9).
Proof.
  intros [Hd | ->].
  - rewrite index_SymbolArray_digit by exact Hd. split; [ intros _; exact Hd | eauto ].
  - change (index SymbolArray DIGIT_BLANK) with (@None Z).
    split; [ intros [x Hx]; discriminate | unfold DIGIT_BLANK; lia ].
Qed.

Lemma showWords_defined s :
  is_Some (showWords s)
  <-> Forall (fun k => is_Some (symbolAt s k)) [0; 1; 2; 3; 4; 5].
Proof.
  unfold showWords.
  destruct (symbolAt s 0) as [a0|] eqn:E0; cbn [mbind option_bind];
    [ | split; [ intros [x Hx]; discriminate
               | intros H; apply Forall_cons_1 in H; destruct H as [[x Hx] _];
                 congruence ] ].
  destruct (symbolAt s 1) as [a1|] eqn:E1; cbn [mbind option_bind];
    [ | split; [ intros [x Hx]; discriminate
               | intros H; do 1 (apply Forall_cons_1 in H; destruct H as [_ H]);
                 apply Forall_cons_1 in H; destruct H as [[x Hx] _];
                 congruence ] ].
  destruct (symbolAt s 2) as [a2|] eqn:E2; cbn [mbind option_bind];
    [ | split; [ intros [x Hx]; discriminate
               | intros H; do 2 (apply Forall_cons_1 in H; destruct H as [_ H]);
                 apply Forall_cons_1 in H; destruct H as [[x Hx] _];
                 congruence ] ].
  destruct (symbolAt s 3) as [a3|] eqn:E3; cbn [mbind option_bind];
    [ | split; [ intros [x Hx]; discriminate
               | intros H; do 3 (apply Forall_cons_1 in H; destruct H as [_ H]);
                 apply Forall_cons_1 in H; destruct H as [[x Hx] _];
                 congruence ] ].
  destruct (symbolAt s 4) as [a4|] eqn:E4; cbn [mbind option_bind];
    [ | split; [ intros [x Hx]; discriminate
               | intros H; do 4 (apply Forall_cons_1 in H; destruct H as [_ H]);
                 apply Forall_cons_1 in H; destruct H as [[x Hx] _];
                 congruence ] ].
  destruct (symbolAt s 5) as [a5|] eqn:E5; cbn [mbind option_bind];
    [ | split; [ intros [x Hx]; discriminate
               | intros H; do 5 (apply Forall_cons_1 in H; destruct H as [_ H]);
                 apply Forall_cons_1 in H; destruct H as [[x Hx] _];
                 congruence ] ].
  split; [ intros _ | eauto ].
  repeat constructor; eauto.
Qed.

Lemma show_defined_showWords s : is_Some (show s) <-> is_Some (showWords s).
Proof.
  unfold show. destruct (showWords s) as [[r1 r0]|]; cbn [mbind option_bind].
  - split; eauto.
  - split; intros [x Hx]; discriminate.
Qed.

(** ** The anti-poisoning sweep *)

Lemma store_all_six (x0 x1 x2 x3 x4 x5 a b c d e f : Z) :
  store (store (store (store (store (store [x0; x1; x2; x3; x4; x5]
    5 a) 4 b) 3 c) 2 d) 1 e) 0 f
  = [f; e; d; c; b; a].
Proof. reflexivity. Qed.

Lemma antiPoisonStep_digit i s dots out :
  0 <= i <= 9 -> length (digits s) = 6%nat ->
  antiPoisonStep i (s, dots, out)
  = Some (mkShield (repeat i 6) (negb dots), negb dots,
          out ++ ([DigitalWrite LATCH_ENABLE false]
                    ++ map SpiTransfer
                         (wordBytes (packWord (Z.shiftl 1 i) (Z.shiftl 1 i)
                                              (Z.shiftl 1 i) (dotsEnabled s))
                          ++ wordBytes (packWord (Z.shiftl 1 i) (Z.shiftl 1 i)
                                                 (Z.shiftl 1 i) (dotsEnabled s)))
                    ++ [DigitalWrite LATCH_ENABLE true])
              ++ [Delay 500]
              ++ [LedColor (if i mod 3 =? 0 then 255 else 0)
                           (if i mod 3 =? 1 then 255 else 0)
                           (if i mod 3 =? 2 then 255 else 0)]
              ++ [DigitalWrite NEON_DOTS (negb dots)]).
Proof.
  intros Hi Hlen. destruct s as [ds d0]. cbn [digits dotsEnabled] in *.
  destruct ds as [|x0 [|x1 [|x2 [|x3 [|x4 [|x5 [|x6 ds]]]]]]]; try discriminate.
  unfold antiPoisonStep.
  rewrite setNXDigit_digit by exact Hi. cbn [mbind option_bind].
  rewrite setNXDigit_digit by exact Hi. cbn [mbind option_bind].
  rewrite setNXDigit_digit by exact Hi. cbn [mbind option_bind].
  rewrite setNXDigit_digit by exact Hi. cbn [mbind option_bind].
  rewrite setNXDigit_digit by exact Hi. cbn [mbind option_bind].
  rewrite setNXDigit_digit by exact Hi. cbn [mbind option_bind].
  cbn [digits dotsEnabled slotIndex]. rewrite store_all_six.
  unfold show. rewrite show_digits by exact Hi. cbn [mbind option_bind].
  rewrite (Z.rem_mod_nonneg i 3) by lia.
  unfold dotsEnable, setLEDColor.
  cbn [digits dotsEnabled Channel.red Channel.green Channel.blue repeat].
  rewrite map_app. reflexivity.
Qed.

Lemma antiPoisonStep_blank s dots out :
  length (digits s) = 6%nat ->
  antiPoisonStep BLANK_DIGIT (s, dots, out) = None.
Proof.
  intros Hlen. destruct s as [ds d0]. cbn [digits] in Hlen.
  destruct ds as [|x0 [|x1 [|x2 [|x3 [|x4 [|x5 [|x6 ds]]]]]]]; try discriminate.
  reflexivity.
Qed.

Lemma antiPoison_pass s dots out :
  length (digits s) = 6%nat ->
  forEach antiPoisonStep (seqZ 0 11) (s, dots, out) = None
  /\ exists out',
       forEach antiPoisonStep (seqZ 0 10) (s, dots, out)
       = Some (mkShield (repeat 9 6) dots, dots, out').
Proof.
  intros Hlen.
  change (seqZ 0 11) with ([0; 1; 2; 3; 4; 5; 6; 7; 8; 9] ++ [BLANK_DIGIT]).
  change (seqZ 0 10) with [0; 1; 2; 3; 4; 5; 6; 7; 8; 9].
  cbn [forEach app].
  rewrite antiPoisonStep_digit by (lia || exact Hlen). cbn [mbind option_bind].
  do 9 (rewrite antiPoisonStep_digit by (lia || reflexivity);
        cbn [mbind option_bind]).
  rewrite !negb_involutive.
  split; [ | eexists; reflexivity ].
  rewrite antiPoisonStep_blank by reflexivity. reflexivity.
Qed.

Lemma doAntiPoisoning_undefined s :
  length (digits s) = 6%nat -> doAntiPoisoning s = None.
Proof.
  intros Hlen. unfold doAntiPoisoning, dotsEnable.
  change (seqZ 0 4) with [0; 1; 2; 3]. cbn [forEach].
  rewrite (proj1 (antiPoison_pass (mkShield (digits s) false) false
                    [DigitalWrite NEON_DOTS false] Hlen)).
  reflexivity.
Qed.

(** X3: each of the first ten steps of an anti-poisoning pass puts the same
    digit [i] on all six tubes, sends the frame with both words equal,
    waits 500 ms, sets the one LED channel [i mod 3] to 255 and toggles the
    indicators; the eleventh step stores the blank code and reads outside
    the symbol table, so [doAntiPoisoning] as a whole has no defined
    result. *)
Theorem antiPoisoning_steps (i : Z) (s : Shield) (dots : bool)
  (out : list Out) :
  0 <= i <= 9 -> length (digits s) = 6%nat ->
  let w := packWord (Z.shiftl 1 i) (Z.shiftl 1 i) (Z.shiftl 1 i)
                    (dotsEnabled s) in
  antiPoisonStep i (s, dots, out)
  = Some (mkShield (repeat i 6) (negb dots), negb dots,
          out ++ ([DigitalWrite LATCH_ENABLE false]
                    ++ map SpiTransfer (wordBytes w ++ wordBytes w)
                    ++ [DigitalWrite LATCH_ENABLE true])
              ++ [Delay 500]
              ++ [LedColor (if i mod 3 =? 0 then 255 else 0)
                           (if i mod 3 =? 1 then 255 else 0)
                           (if i mod 3 =? 2 then 255 else 0)]
              ++ [DigitalWrite NEON_DOTS (negb dots)])
  /\ decodeWord w = (i, i, i, dotsEnabled s, dotsEnabled s)
  /\ antiPoisonStep BLANK_DIGIT (s, dots, out) = None
  /\ doAntiPoisoning s = None.
Proof.
  intros Hi Hlen w.
  split; [ apply antiPoisonStep_digit; assumption | ].
  split.
  { pose proof (word_checked i i i (dotsEnabled s) Hi Hi Hi) as C.
    unfold wordChecked in C. cbv zeta in C. fold w in C.
    apply andb_prop in C; destruct C as [C _].
    apply andb_prop in C; destruct C as [C _].
    repeat (apply andb_prop in C; destruct C as [C ?]).
    repeat match goal with
           | H : (_ =? _) = true |- _ => apply Z.eqb_eq in H
           | H : Bool.eqb _ _ = true |- _ => apply Bool.eqb_prop in H
           end.
    unfold decodeWord. congruence. }
  split; [ apply antiPoisonStep_blank; exact Hlen | ].
  apply doAntiPoisoning_undefined. exact Hlen.
Qed.

Lemma antiPoisoning_steps_witness :
  exists out,
    antiPoisonStep 7 (NixieTubeShield.init, false, [])
    = Some (mkShield [7; 7; 7; 7; 7; 7] true, true, out)
    /\ doAntiPoisoning NixieTubeShield.init = None.
Proof.
  pose proof (antiPoisoning_steps 7 NixieTubeShield.init false []
                ltac:(lia) eq_refl) as H.
  cbv zeta in H. destruct H as (Hs & _ & _ & Hd).
  eexists. split; [ exact Hs | exact Hd ].
Defined.

(** ** What the storage holds and when a frame can be sent *)

Lemma exec_wellFormed c s s' o :
  exec c s = Some (s', o) -> wellFormed s -> wellFormed s'.
Proof.
  destruct c as [b | b | n d | | col | | ms]; cbn [exec].
  - intros [= <- _]. tauto.
  - intros [= <- _] [Hlen Hall]. split; assumption.
  - destruct (setNXDigit n d s) as [s1|] eqn:E; cbn [mbind option_bind];
      [ | discriminate ].
    intros [= <- _]. eapply setNXDigit_wellFormed. exact E.
  - destruct (show s) as [f|]; cbn [mbind option_bind]; [ | discriminate ].
    intros [= <- _]. tauto.
  - intros [= <- _]. tauto.
  - intros H [Hlen _]. rewrite doAntiPoisoning_undefined in H by exact Hlen.
    discriminate.
  - intros [= <- _]. tauto.
Qed.

Lemma run_wellFormed cs : forall s s' o,
  run cs s = Some (s', o) -> wellFormed s -> wellFormed s'.
Proof.
  induction cs as [| c cs IH]; intros s s' o; cbn [run].
  - intros [= <- _]. tauto.
  - destruct (exec c s) as [[s1 o1]|] eqn:E; cbn [mbind option_bind];
      [ | discriminate ].
    destruct (run cs s1) as [[s2 o2]|] eqn:R; cbn [mbind option_bind];
      [ | discriminate ].
    intros [= <- _] Hwf. eapply IH; [ exact R | ].
    eapply exec_wellFormed; [ exact E | exact Hwf ].
Qed.

Lemma show_defined_digits s :
  wellFormed s ->
  (is_Some (show s) <-> Forall (fun d => 0 <= d <= 9) (digits s)).
Proof.
  intros [Hlen Hall]. destruct s as [ds d0]. cbn [digits] in *.
  destruct ds as [|x0 [|x1 [|x2 [|x3 [|x4 [|x5 [|x6 ds]]]]]]]; try discriminate.
  rewrite show_defined_showWords, showWords_defined. unfold symbolAt.
  cbn [digits].
  change (index [x0; x1; x2; x3; x4; x5] 0) with (Some x0).
  change (index [x0; x1; x2; x3; x4; x5] 1) with (Some x1).
  change (index [x0; x1; x2; x3; x4; x5] 2) with (Some x2).
  change (index [x0; x1; x2; x3; x4; x5] 3) with (Some x3).
  change (index [x0; x1; x2; x3; x4; x5] 4) with (Some x4).
  change (index [x0; x1; x2; x3; x4; x5] 5) with (Some x5).
  cbn [mbind option_bind].
  repeat match goal with
         | H : Forall _ (_ :: _) |- _ =>
             apply Forall_cons_1 in H; destruct H as [? H]
         end.
  split; intros H';
    repeat match goal with
           | H : Forall _ (_ :: _) |- _ =>
               apply Forall_cons_1 in H; destruct H as [? H]
           end;
    repeat (constructor; [ apply symbol_defined; assumption | ]);
    constructor.
Qed.

(** X4: the constructor leaves six blank codes in the storage (and the
    indicators off), for which [show] has no frame; whatever list of calls
    runs from a storage of six digit-or-blank codes, it still holds six codes
    that are digit codes or the blank code, and [show] can then send a frame
    exactly when none of the six is blank. *)
Theorem shield_storage_invariant (cs : list Call) (s s' : Shield)
  (o : list Out) :
  wellFormed s ->
  run cs s = Some (s', o) ->
  digits NixieTubeShield.init
  = [DIGIT_BLANK; DIGIT_BLANK; DIGIT_BLANK; DIGIT_BLANK; DIGIT_BLANK;
     DIGIT_BLANK]
  /\ dotsEnabled NixieTubeShield.init = false
  /\ show NixieTubeShield.init = None
  /\ wellFormed NixieTubeShield.init
  /\ wellFormed s'
  /\ (is_Some (show s') <-> Forall (fun d => 0 <= d <= 9) (digits s')).
Proof.
  intros Hwf Hrun.
  assert (Hwf' : wellFormed s') by (eapply run_wellFormed; eassumption).
  split; [ reflexivity | ]. split; [ reflexivity | ].
  split; [ reflexivity | ].
  split; [ | split; [ exact Hwf' | apply show_defined_digits; exact Hwf' ] ].
  split; [ reflexivity | ].
  repeat constructor; right; reflexivity.
Qed.

Lemma shield_storage_invariant_witness :
  digits NixieTubeShield.init = [255; 255; 255; 255; 255; 255]
  /\ show NixieTubeShield.init = None
  /\ wellFormed (mkShield [9; 5; 4; 3; 2; 1] true)
  /\ is_Some (show (mkShield [9; 5; 4; 3; 2; 1] true)).
Proof.
  assert (Hinit : wellFormed NixieTubeShield.init).
  { split; [ reflexivity | repeat constructor; right; reflexivity ]. }
  pose proof (shield_storage_invariant (frameCalls 1 2 3 4 5 9 true)
                NixieTubeShield.init (mkShield [9; 5; 4; 3; 2; 1] true) _
                Hinit eq_refl) as H.
  destruct H as (Hd & _ & Hs & _ & Hwf & Hshow).
  split; [ exact Hd | ]. split; [ exact Hs | ].
  split; [ exact Hwf | ].
  apply Hshow. cbn [digits]. repeat constructor; lia.
Defined.

(** ** The clock chip's registers *)

(** X5: on bytes, converting to BCD and back returns the value exactly up
    to 159 (from 160 on the BCD no longer fits a byte), and converting from
    BCD and back returns the byte exactly when its low nibble is a decimal
    digit. *)
Theorem bcd_exact_domain (d : Z) :
  0 <= d <= 255 ->
  (bcdToDec (decToBcd d) = d <-> d <= 159)
  /\ (decToBcd (bcdToDec d) = d <-> d mod 16 <= 9).
Proof.
  intros Hd.
  pose proof (range_checked 256
    (fun d => Bool.eqb (bcdToDec (decToBcd d) =? d) (d <=? 159)
              && Bool.eqb (decToBcd (bcdToDec d) =? d) (d mod 16 <=? 9))
    ltac:(vm_compute; reflexivity) d ltac:(lia)) as H.
  cbv beta in H. apply andb_prop in H. destruct H as [H1 H2].
  apply Bool.eqb_prop in H1. apply Bool.eqb_prop in H2.
  split.
  - rewrite <- Z.eqb_eq, <- Z.leb_le, H1. reflexivity.
  - rewrite <- Z.eqb_eq, <- Z.leb_le, H2. reflexivity.
Qed.

Lemma bcd_exact_domain_witness :
  bcdToDec (decToBcd 159) = 159 /\ bcdToDec (decToBcd 160) <> 160
  /\ decToBcd (bcdToDec 10) <> 10.
Proof.
  pose proof (bcd_exact_domain 159 ltac:(lia)) as [H159 _].
  pose proof (bcd_exact_domain 160 ltac:(lia)) as [H160 _].
  pose proof (bcd_exact_domain 10 ltac:(lia)) as [_ H10].
  split; [ apply H159; lia | ].
  split; [ intros E; apply H160 in E; lia | ].
  intros E. apply H10 in E. vm_compute in E. apply E. reflexivity.
Defined.

Lemma land_low_bits (x : Z) (n : Z) : 0 <= n -> Z.land x (Z.ones n) = x mod 2 ^ n.
Proof. intros Hn. apply Z.land_ones. exact Hn. Qed.

(** X6: what [setRTCDateTime] writes, [getRTCTime] reads back unchanged
    when every field is at most 99 and the hour at most 39; the hour is
    read through the mask [0b111111], so the two top bits of the hour
    register (the chip's 12-hour flag among them) never reach it, and
    whatever the chip returns the hour read is at most 45. *)
Theorem rtc_write_read_roundtrip (m : tmElements) (regs : list Z) (flags : Z) :
  Forall (fun d => 0 <= d <= 99) (tmFields m) -> Hour m <= 39 ->
  0 <= flags <= 3 ->
  getRTCTime (rtcData m) = m
  /\ getRTCTime (<[2%nat := decToBcd (Hour m) + 64 * flags]> (rtcData m)) = m
  /\ 0 <= Hour (getRTCTime regs) <= 45.
Proof.
  destruct m as [s mi h w d mo y]. unfold tmFields.
  cbn [Second Minute Hour Wday Day Month Year]. intros H Hh Hf.
  repeat match goal with
         | H : Forall _ (_ :: _) |- _ => apply Forall_cons_1 in H; destruct H
         end.
  assert (Hb : forall x, 0 <= x <= 99 -> u8 (decToBcd x) = decToBcd x).
  { intros x Hx. rewrite decToBcd_value by exact Hx. apply u8_small.
    Z.div_mod_to_equations. lia. }
  assert (Hbcd : 0 <= decToBcd h < 64).
  { rewrite decToBcd_value by assumption. Z.div_mod_to_equations. lia. }
  assert (Hm : Z.land (decToBcd h) 63 = decToBcd h).
  { change 63 with (Z.ones 6). rewrite land_low_bits by lia.
    apply Z.mod_small. change (2 ^ 6) with 64. lia. }
  assert (Hm' : Z.land (decToBcd h + 64 * flags) 63 = decToBcd h).
  { change 63 with (Z.ones 6). rewrite land_low_bits by lia.
    change (2 ^ 6) with 64. rewrite Z.mul_comm, Z.mod_add by lia.
    apply Z.mod_small. lia. }
  split; [ | split ].
  - unfold getRTCTime, rtcData, rtcFrame, wireRead.
    cbn [drop take nth Second Minute Hour Wday Day Month Year].
    rewrite Hm, !Hb, !bcdToDec_decToBcd by assumption. reflexivity.
  - unfold getRTCTime, rtcData, rtcFrame, wireRead.
    cbn [drop take nth Second Minute Hour Wday Day Month Year insert
         list_insert].
    rewrite Hm', !Hb, !bcdToDec_decToBcd by assumption. reflexivity.
  - unfold getRTCTime. cbn [Hour].
    set (x := wireRead regs 2).
    assert (Hx : 0 <= Z.land x 63 < 64).
    { change 63 with (Z.ones 6). rewrite land_low_bits by lia.
      change (2 ^ 6) with 64. apply Z.mod_pos_bound. lia. }
    rewrite (u8_small (Z.land x 63)) by lia.
    unfold bcdToDec. rewrite u8_small; Z.div_mod_to_equations; lia.
Qed.

Lemma rtc_write_read_roundtrip_witness :
  let m := mkTm 59 30 22 4 21 3 51 in
  getRTCTime (rtcData m) = m
  /\ getRTCTime [89; 48; 34 + 64; 4; 33; 3; 81] = m.
Proof.
  intros m.
  assert (Hf : Forall (fun d => 0 <= d <= 99) (tmFields m)).
  { unfold m, tmFields; simpl. repeat constructor; lia. }
  pose proof (rtc_write_read_roundtrip m (repeat 0 7) 1 Hf
                ltac:(cbn; lia) ltac:(lia)) as (H1 & H2 & _).
  split; [ exact H1 | exact H2 ].
Defined.

(** ** Frames of the time and date displays *)

Lemma setNXDigit_code n v s :
  0 <= v <= 10 ->
  setNXDigit n v s
  = Some (mkShield (store (digits s) (slotIndex n) (codeOf v)) (dotsEnabled s)).
Proof.
  intros Hv. destruct (Z.eq_dec v 10) as [-> | Hne].
  - reflexivity.
  - rewrite setNXDigit_digit by lia. unfold codeOf.
    destruct (Z.eqb_spec v BLANK_DIGIT) as [E | _]; [ | reflexivity ].
    unfold BLANK_DIGIT in E. lia.
Qed.

Lemma run_SetNXDigit_code n v cs s :
  0 <= v <= 10 ->
  run (SetNXDigit n v :: cs) s
  = run cs (mkShield (store (digits s) (slotIndex n) (codeOf v)) (dotsEnabled s)).
Proof.
  intros Hv. cbn [run exec]. rewrite setNXDigit_code by exact Hv.
  cbn [mbind option_bind].
  destruct (run cs _) as [[s2 o2]|]; reflexivity.
Qed.

Lemma codeOf_digit v : 0 <= v <= 9 -> codeOf v = v.
Proof.
  intros Hv. unfold codeOf.
  destruct (Z.eqb_spec v BLANK_DIGIT) as [E | _]; [ | reflexivity ].
  unfold BLANK_DIGIT in E. lia.
Qed.

Lemma codeOf_range v :
  0 <= v <= 10 ->
  (0 <= codeOf v <= 9 \/ codeOf v = DIGIT_BLANK)
  /\ (0 <= codeOf v <= 9 <-> v <= 9).
Proof.
  intros Hv. unfold codeOf, DIGIT_BLANK.
  destruct (Z.eqb_spec v BLANK_DIGIT) as [E | E]; unfold BLANK_DIGIT in E; lia.
Qed.

(** Storing six slot values and sending the frame. *)
Lemma run_sixDigits s n1 n2 n3 n4 n5 n6 :
  length (digits s) = 6%nat ->
  0 <= n1 <= 10 -> 0 <= n2 <= 10 -> 0 <= n3 <= 10 ->
  0 <= n4 <= 10 -> 0 <= n5 <= 10 -> 0 <= n6 <= 10 ->
  let s' := mkShield [codeOf n6; codeOf n5; codeOf n4;
                      codeOf n3; codeOf n2; codeOf n1] (dotsEnabled s) in
  run (sixDigits n1 n2 n3 n4 n5 n6) s
  = (out ← show s'; Some (s', out))
  /\ (is_Some (show s')
      <-> n1 <= 9 /\ n2 <= 9 /\ n3 <= 9 /\ n4 <= 9 /\ n5 <= 9 /\ n6 <= 9).
Proof.
  intros Hlen H1 H2 H3 H4 H5 H6 s'.
  split.
  - destruct s as [ds d0]. cbn [digits dotsEnabled] in *.
    destruct ds as [|x0 [|x1 [|x2 [|x3 [|x4 [|x5 [|x6 ds]]]]]]]; try discriminate.
    unfold sixDigits. rewrite !run_SetNXDigit_code by assumption.
    cbn [digits dotsEnabled slotIndex]. rewrite store_all_six.
    fold s'. cbn [run exec].
    destruct (show s') as [o|]; cbn [mbind option_bind];
      [ rewrite app_nil_r | ]; reflexivity.
  - pose proof (codeOf_range n1 H1) as [W1 K1].
    pose proof (codeOf_range n2 H2) as [W2 K2].
    pose proof (codeOf_range n3 H3) as [W3 K3].
    pose proof (codeOf_range n4 H4) as [W4 K4].
    pose proof (codeOf_range n5 H5) as [W5 K5].
    pose proof (codeOf_range n6 H6) as [W6 K6].
    assert (Hwf : wellFormed s').
    { split; [ reflexivity | ]. cbn [digits s'].
      repeat (constructor; [ assumption | ]). constructor. }
    rewrite (show_defined_digits s' Hwf). cbn [digits s'].
    split.
    + intros H.
      apply Forall_cons_1 in H; destruct H as [A6 H].
      apply Forall_cons_1 in H; destruct H as [A5 H].
      apply Forall_cons_1 in H; destruct H as [A4 H].
      apply Forall_cons_1 in H; destruct H as [A3 H].
      apply Forall_cons_1 in H; destruct H as [A2 H].
      apply Forall_cons_1 in H; destruct H as [A1 H].
      split; [ apply K1; exact A1 | ]. split; [ apply K2; exact A2 | ].
      split; [ apply K3; exact A3 | ]. split; [ apply K4; exact A4 | ].
      split; [ apply K5; exact A5 | apply K6; exact A6 ].
    + intros (G1 & G2 & G3 & G4 & G5 & G6).
      constructor; [ apply K6; exact G6 | ].
      constructor; [ apply K5; exact G5 | ].
      constructor; [ apply K4; exact G4 | ].
      constructor; [ apply K3; exact G3 | ].
      constructor; [ apply K2; exact G2 | ].
      constructor; [ apply K1; exact G1 | ].
      constructor.
Qed.

Lemma show_frame n1 n2 n3 n4 n5 n6 dots :
  0 <= n1 <= 9 -> 0 <= n2 <= 9 -> 0 <= n3 <= 9 ->
  0 <= n4 <= 9 -> 0 <= n5 <= 9 -> 0 <= n6 <= 9 ->
  show (mkShield [n6; n5; n4; n3; n2; n1] dots)
  = Some (frameOut
            (packWord (Z.shiftl 1 n6) (Z.shiftl 1 n5) (Z.shiftl 1 n4) dots)
            (packWord (Z.shiftl 1 n3) (Z.shiftl 1 n2) (Z.shiftl 1 n1) dots))
  /\ decodeWord (packWord (Z.shiftl 1 n6) (Z.shiftl 1 n5) (Z.shiftl 1 n4) dots)
     = (n6, n5, n4, dots, dots)
  /\ decodeWord (packWord (Z.shiftl 1 n3) (Z.shiftl 1 n2) (Z.shiftl 1 n1) dots)
     = (n3, n2, n1, dots, dots).
Proof.
  intros H1 H2 H3 H4 H5 H6.
  assert (Hdec : forall a b c, 0 <= a <= 9 -> 0 <= b <= 9 -> 0 <= c <= 9 ->
            decodeWord (packWord (Z.shiftl 1 a) (Z.shiftl 1 b) (Z.shiftl 1 c) dots)
            = (a, b, c, dots, dots)).
  { intros a b c Ha Hb Hc.
    pose proof (word_checked a b c dots Ha Hb Hc) as C.
    unfold wordChecked in C. cbv zeta in C.
    apply andb_prop in C; destruct C as [C _].
    apply andb_prop in C; destruct C as [C _].
    repeat (apply andb_prop in C; destruct C as [C ?]).
    repeat match goal with
           | H : (_ =? _) = true |- _ => apply Z.eqb_eq in H
           | H : Bool.eqb _ _ = true |- _ => apply Bool.eqb_prop in H
           end.
    unfold decodeWord. congruence. }
  split; [ | split; apply Hdec; assumption ].
  unfold show. rewrite show_digits by assumption. reflexivity.
Qed.

Lemma run_app cs1 : forall cs2 s,
  run (cs1 ++ cs2) s
  = ('(s1, o1) ← run cs1 s; '(s2, o2) ← run cs2 s1; Some (s2, o1 ++ o2)).
Proof.
  induction cs1 as [| c cs1 IH]; intros cs2 s.
  - cbn [app run mbind option_bind].
    destruct (run cs2 s) as [[s2 o2]|]; reflexivity.
  - cbn [app run]. destruct (exec c s) as [[s1 o1]|]; cbn [mbind option_bind];
      [ | reflexivity ].
    rewrite IH.
    destruct (run cs1 s1) as [[s2 o2]|]; cbn [mbind option_bind];
      [ | reflexivity ].
    destruct (run cs2 s2) as [[s3 o3]|]; cbn [mbind option_bind];
      [ rewrite app_assoc | ]; reflexivity.
Qed.

Lemma leading_code cfg v :
  0 <= v <= 109 ->
  0 <= leading cfg v <= 10
  /\ (leading cfg v <= 9
      <-> v <= 99 /\ (10 <= v \/ SUPPRESS_LEADING_ZEROS cfg = false))
  /\ (leading cfg v <= 9 -> codeOf (leading cfg v) = v / 10).
Proof.
  intros Hv. rewrite leading_tensShown by lia. unfold tensShown, BLANK_DIGIT.
  destruct (Z.ltb_spec v 10) as [Hlt | Hge].
  - assert (E : v / 10 = 0) by (Z.div_mod_to_equations; lia).
    destruct (SUPPRESS_LEADING_ZEROS cfg).
    + split; [ lia | ]. split; [ | lia ].
      split; [ lia | intros [_ [H | H]]; [ lia | discriminate ] ].
    + split; [ lia | ]. split; [ | intros _; rewrite E; reflexivity ].
      split; [ intros _; split; [ lia | right; reflexivity ] | lia ].
  - assert (E : 1 <= v / 10 <= 10) by (Z.div_mod_to_equations; lia).
    split; [ lia | ]. split.
    + split.
      * intros H. split; [ Z.div_mod_to_equations; lia | left; lia ].
      * intros [H _]. Z.div_mod_to_equations. lia.
    + intros H. apply codeOf_digit. lia.
Qed.

Lemma run_sixDigits_frame s n1 n2 n3 n4 n5 n6 :
  length (digits s) = 6%nat ->
  0 <= n1 <= 10 -> 0 <= n2 <= 10 -> 0 <= n3 <= 10 ->
  0 <= n4 <= 10 -> 0 <= n5 <= 10 -> 0 <= n6 <= 10 ->
  (is_Some (run (sixDigits n1 n2 n3 n4 n5 n6) s)
   <-> n1 <= 9 /\ n2 <= 9 /\ n3 <= 9 /\ n4 <= 9 /\ n5 <= 9 /\ n6 <= 9)
  /\ (n1 <= 9 /\ n2 <= 9 /\ n3 <= 9 /\ n4 <= 9 /\ n5 <= 9 /\ n6 <= 9 ->
      run (sixDigits n1 n2 n3 n4 n5 n6) s
      = Some (mkShield [n6; n5; n4; n3; n2; n1] (dotsEnabled s),
              frameOut
                (packWord (Z.shiftl 1 n6) (Z.shiftl 1 n5) (Z.shiftl 1 n4)
                          (dotsEnabled s))
                (packWord (Z.shiftl 1 n3) (Z.shiftl 1 n2) (Z.shiftl 1 n1)
                          (dotsEnabled s)))).
Proof.
  intros Hlen H1 H2 H3 H4 H5 H6.
  pose proof (run_sixDigits s n1 n2 n3 n4 n5 n6 Hlen H1 H2 H3 H4 H5 H6) as H.
  cbv zeta in H. destruct H as [Hrun Hdef].
  split.
  - rewrite Hrun, <- Hdef.
    destruct (show _) as [o|]; cbn [mbind option_bind].
    + split; eauto.
    + split; intros [x Hx]; discriminate.
  - intros (G1 & G2 & G3 & G4 & G5 & G6). rewrite Hrun.
    rewrite !codeOf_digit by lia.
    rewrite (proj1 (show_frame n1 n2 n3 n4 n5 n6 (dotsEnabled s)
                      ltac:(lia) ltac:(lia) ltac:(lia)
                      ltac:(lia) ltac:(lia) ltac:(lia))).
    reflexivity.
Qed.

Lemma is_Some_bind_pair {A B C : Type} (x : option (A * B))
  (f : A -> B -> C) :
  is_Some ('(a, b) ← x; Some (f a b)) <-> is_Some x.
Proof.
  destruct x as [[a b]|]; cbn [mbind option_bind].
  - split; eauto.
  - split; intros [y Hy]; discriminate.
Qed.

(** X7: for a valid local time the time display stores hour, minute and
    second and sends their frame, whose two words decode back to the six
    digits and the indicator state; this has a defined result exactly when
    the hour has two digits or leading-zero suppression is off, because a
    suppressed leading zero stores the blank code. *)
Theorem showTime_frame (wheelPosOfHour : bool -> Z -> Z) (cfg : Config)
  (t : LocalTime) (dots : bool) (s : Shield) :
  validTime t -> length (digits s) = 6%nat ->
  let hour := if HOUR_FORMAT_12 cfg then t_hourFormat12 t else t_hour t in
  let c := colorWheel (wheelPosOfHour (HOUR_FORMAT_12 cfg) hour) in
  let reg1 := packWord (Z.shiftl 1 (t_second t mod 10))
                       (Z.shiftl 1 (t_second t / 10))
                       (Z.shiftl 1 (t_minute t mod 10)) dots in
  let reg0 := packWord (Z.shiftl 1 (t_minute t / 10))
                       (Z.shiftl 1 (hour mod 10))
                       (Z.shiftl 1 (hour / 10)) dots in
  (is_Some (run (showTime wheelPosOfHour cfg t dots) s)
   <-> 10 <= hour \/ SUPPRESS_LEADING_ZEROS cfg = false)
  /\ (10 <= hour \/ SUPPRESS_LEADING_ZEROS cfg = false ->
      run (showTime wheelPosOfHour cfg t dots) s
      = Some (mkShield [t_second t mod 10; t_second t / 10;
                        t_minute t mod 10; t_minute t / 10;
                        hour mod 10; hour / 10] dots,
              [DigitalWrite NEON_DOTS dots;
               LedColor (Channel.red c) (Channel.green c) (Channel.blue c)]
                ++ frameOut reg1 reg0)
      /\ decodeWord reg1
         = (t_second t mod 10, t_second t / 10, t_minute t mod 10, dots, dots)
      /\ decodeWord reg0 = (t_minute t / 10, hour mod 10, hour / 10, dots, dots)).
Proof.
  intros (Hh & Hh12 & Hmi & Hs & Hd & Hmo & Hy) Hlen hour c reg1 reg0.
  assert (Hhour : 0 <= hour <= 23)
    by (unfold hour; destruct (HOUR_FORMAT_12 cfg); lia).
  destruct (leading_code cfg hour ltac:(lia)) as (L1 & L2 & L3).
  destruct (units_digit hour ltac:(lia)) as [U1 U2].
  destruct (units_digit (t_minute t) ltac:(lia)) as [U3 U4].
  destruct (units_digit (t_second t) ltac:(lia)) as [U5 U6].
  destruct (tens_digit (t_minute t) Hmi) as [T1 T2].
  destruct (tens_digit (t_second t) Hs) as [T3 T4].
  change (showTime wheelPosOfHour cfg t dots)
    with ([DotsEnable dots; SetLEDColor c]
            ++ sixDigits (leading cfg hour) (Z.rem hour 10)
                 (Z.quot (t_minute t) 10) (Z.rem (t_minute t) 10)
                 (Z.quot (t_second t) 10) (Z.rem (t_second t) 10)).
  rewrite run_app.
  change (run [DotsEnable dots; SetLEDColor c] s)
    with (Some (mkShield (digits s) dots,
                [DigitalWrite NEON_DOTS dots;
                 LedColor (Channel.red c) (Channel.green c) (Channel.blue c)])).
  cbn [mbind option_bind].
  rewrite U1, U3, U5, T1, T3.
  pose proof (run_sixDigits_frame (mkShield (digits s) dots)
                (leading cfg hour) (hour mod 10)
                (t_minute t / 10) (t_minute t mod 10)
                (t_second t / 10) (t_second t mod 10)
                Hlen ltac:(lia) ltac:(lia) ltac:(lia) ltac:(lia)
                ltac:(lia) ltac:(lia)) as [Hdef Hrun].
  assert (Hlead : leading cfg hour <= 9
                  <-> 10 <= hour \/ SUPPRESS_LEADING_ZEROS cfg = false).
  { rewrite L2. split; [ tauto | intros H; split; [ lia | exact H ] ]. }
  split.
  - rewrite is_Some_bind_pair, Hdef, <- Hlead.
    split; [ tauto | intros H; repeat split; lia ].
  - intros Hok. apply Hlead in Hok.
    rewrite Hrun by (repeat split; lia).
    cbn [mbind option_bind dotsEnabled].
    pose proof (show_frame (leading cfg hour) (hour mod 10)
                  (t_minute t / 10) (t_minute t mod 10)
                  (t_second t / 10) (t_second t mod 10) dots
                  ltac:(lia) ltac:(lia) ltac:(lia)
                  ltac:(lia) ltac:(lia) ltac:(lia)) as (_ & D1 & D0).
    assert (El : leading cfg hour = hour / 10).
    { rewrite <- (L3 Hok). symmetry. apply codeOf_digit. lia. }
    rewrite El in *. fold reg1 reg0 in D1, D0 |- *.
    split; [ reflexivity | split; assumption ].
Qed.

Lemma showTime_frame_witness :
  let wheel := fun (_ : bool) (h : Z) => 21 * h in
  let t := mkLocal 22 10 5 9 21 3 2021 in
  run (showTime wheel asBuilt t true) NixieTubeShield.init
  = Some (mkShield [9; 0; 5; 0; 0; 1] true,
          [DigitalWrite NEON_DOTS true; LedColor 120 0 135]
            ++ frameOut 3758097440 3222275074).
Proof.
  intros wheel t.
  assert (Hv : validTime t) by (unfold validTime, t; cbn; lia).
  pose proof (showTime_frame wheel asBuilt t true NixieTubeShield.init Hv
                eq_refl) as H.
  cbv zeta in H. destruct H as [_ H].
  destruct (H ltac:(left; cbn; lia)) as (Hrun & _). exact Hrun.
Defined.

(** X8: for a valid local time the date display turns the indicators off
    and on again, sets the LEDs blue, stores month, day and two-digit year,
    sends their frame with the indicator bits set and then waits 10 s.  It
    has a defined result exactly when the year is before 2100 and either
    suppression is off or month, day and two-digit year all have two
    digits. *)
Theorem showDate_frame (cfg : Config) (t : LocalTime) (s : Shield) :
  validTime t -> length (digits s) = 6%nat ->
  let year := t_year t - 2000 in
  let ok := t_year t <= 2099
            /\ (SUPPRESS_LEADING_ZEROS cfg = false
                \/ (10 <= t_month t /\ 10 <= t_day t /\ 2010 <= t_year t)) in
  let reg1 := packWord (Z.shiftl 1 (year mod 10)) (Z.shiftl 1 (year / 10))
                       (Z.shiftl 1 (t_day t mod 10)) true in
  let reg0 := packWord (Z.shiftl 1 (t_day t / 10))
                       (Z.shiftl 1 (t_month t mod 10))
                       (Z.shiftl 1 (t_month t / 10)) true in
  (is_Some (run (showDate cfg t) s) <-> ok)
  /\ (ok ->
      run (showDate cfg t) s
      = Some (mkShield [year mod 10; year / 10; t_day t mod 10; t_day t / 10;
                        t_month t mod 10; t_month t / 10] true,
              [DigitalWrite NEON_DOTS false; LedColor 0 0 127;
               DigitalWrite NEON_DOTS true]
                ++ frameOut reg1 reg0 ++ [Delay 10000])
      /\ decodeWord reg1 = (year mod 10, year / 10, t_day t mod 10, true, true)
      /\ decodeWord reg0
         = (t_day t / 10, t_month t mod 10, t_month t / 10, true, true)).
Proof.
  intros (Hh & Hh12 & Hmi & Hs & Hd & Hmo & Hy) Hlen year ok reg1 reg0.
  assert (Hyear : 0 <= year <= 109) by (unfold year; lia).
  destruct (leading_code cfg (t_month t) ltac:(lia)) as (M1 & M2 & M3).
  destruct (leading_code cfg (t_day t) ltac:(lia)) as (D1 & D2 & D3).
  destruct (leading_code cfg year ltac:(lia)) as (Y1 & Y2 & Y3).
  destruct (units_digit (t_month t) ltac:(lia)) as [U1 U2].
  destruct (units_digit (t_day t) ltac:(lia)) as [U3 U4].
  destruct (units_digit year ltac:(lia)) as [U5 U6].
  change (showDate cfg t)
    with ([DotsEnable false; SetLEDColor blue; DotsEnable true]
            ++ sixDigits (leading cfg (t_month t)) (Z.rem (t_month t) 10)
                 (leading cfg (t_day t)) (Z.rem (t_day t) 10)
                 (leading cfg year) (Z.rem year 10)
            ++ [DelayMs 10000]).
  rewrite run_app.
  change (run [DotsEnable false; SetLEDColor blue; DotsEnable true] s)
    with (Some (mkShield (digits s) true,
                [DigitalWrite NEON_DOTS false; LedColor 0 0 127;
                 DigitalWrite NEON_DOTS true])).
  cbn [mbind option_bind]. rewrite run_app.
  rewrite U1, U3, U5.
  pose proof (run_sixDigits_frame (mkShield (digits s) true)
                (leading cfg (t_month t)) (t_month t mod 10)
                (leading cfg (t_day t)) (t_day t mod 10)
                (leading cfg year) (year mod 10)
                Hlen ltac:(lia) ltac:(lia) ltac:(lia) ltac:(lia)
                ltac:(lia) ltac:(lia)) as [Hdef Hrun].
  assert (Hok : ok <-> leading cfg (t_month t) <= 9
                       /\ leading cfg (t_day t) <= 9
                       /\ leading cfg year <= 9).
  { unfold ok. rewrite M2, D2, Y2. unfold year.
    destruct (SUPPRESS_LEADING_ZEROS cfg).
    - split.
      + intros [Hy99 [Hf | (A & B & C)]]; [ discriminate | ].
        repeat split; try lia; left; lia.
      + intros ((_ & [A | A]) & (_ & [B | B]) & (Hy99 & [C | C]));
          try discriminate.
        split; [ lia | right; lia ].
    - split.
      + intros [Hy99 _]. repeat split; try lia; right; reflexivity.
      + intros (_ & _ & (Hy99 & _)). split; [ lia | left; reflexivity ]. }
  split.
  - rewrite is_Some_bind_pair.
    transitivity (is_Some (run (sixDigits (leading cfg (t_month t))
                    (t_month t mod 10) (leading cfg (t_day t))
                    (t_day t mod 10) (leading cfg year) (year mod 10))
                    (mkShield (digits s) true))).
    + destruct (run (sixDigits _ _ _ _ _ _) _) as [[s6 o6]|];
        cbn [mbind option_bind run exec]; split; eauto;
        intros [x Hx]; discriminate.
    + rewrite Hdef, Hok. split; [ tauto | intros H; repeat split; lia ].
  - intros H. apply Hok in H. destruct H as (A & B & C).
    rewrite Hrun by (repeat split; lia).
    cbn [mbind option_bind dotsEnabled run exec].
    pose proof (show_frame (leading cfg (t_month t)) (t_month t mod 10)
                  (leading cfg (t_day t)) (t_day t mod 10)
                  (leading cfg year) (year mod 10) true
                  ltac:(lia) ltac:(lia) ltac:(lia)
                  ltac:(lia) ltac:(lia) ltac:(lia)) as (_ & R1 & R0).
    assert (Em : leading cfg (t_month t) = t_month t / 10).
    { rewrite <- (M3 A). symmetry. apply codeOf_digit. lia. }
    assert (Ed : leading cfg (t_day t) = t_day t / 10).
    { rewrite <- (D3 B). symmetry. apply codeOf_digit. lia. }
    assert (Ey : leading cfg year = year / 10).
    { rewrite <- (Y3 C). symmetry. apply codeOf_digit. lia. }
    rewrite Em, Ed, Ey in *. fold reg1 reg0 in R1, R0 |- *.
    split; [ | split; assumption ].
    rewrite app_nil_r. reflexivity.
Qed.

Lemma showDate_frame_witness :
  let t := mkLocal 22 10 20 0 21 11 2021 in
  is_Some (run (showDate asBuilt t) NixieTubeShield.init)
  /\ ~ is_Some (run (showDate asBuilt (mkLocal 22 10 20 0 21 3 2021))
                    NixieTubeShield.init).
Proof.
  intros t.
  assert (Hv : validTime t) by (unfold validTime, t; cbn; lia).
  assert (Hv' : validTime (mkLocal 22 10 20 0 21 3 2021))
    by (unfold validTime; cbn; lia).
  pose proof (showDate_frame asBuilt t NixieTubeShield.init Hv eq_refl) as H.
  pose proof (showDate_frame asBuilt (mkLocal 22 10 20 0 21 3 2021)
                NixieTubeShield.init Hv' eq_refl) as H'.
  cbv zeta in H, H'. destruct H as [H _]. destruct H' as [H' _].
  split.
  - apply H. cbn. split; [ lia | right; lia ].
  - intros G. apply H' in G. cbn in G.
    destruct G as [_ [G | G]]; [ discriminate | lia ].
Defined.

(** ** What [updateDisplay] asks of the shield *)

Lemma NUMERIC_DIGITS_defined d :
  0 <= d <= 10 -> is_Some (index NUMERIC_DIGITS d).
Proof.
  intros Hd.
  pose proof (range_checked 11
    (fun d => match index NUMERIC_DIGITS d with Some _ => true | None => false end)
    ltac:(vm_compute; reflexivity) d ltac:(lia)) as H.
  cbv beta in H. destruct (index NUMERIC_DIGITS d); [ eauto | discriminate ].
Qed.

Lemma slotArgs_app cs1 cs2 : slotArgs (cs1 ++ cs2) = slotArgs cs1 ++ slotArgs cs2.
Proof. unfold slotArgs. apply flat_map_app. Qed.

Lemma slotArgs_programCalls wheelPosOfHour cfg t g p :
  validTime t ->
  Forall (fun d => 0 <= d <= 10)
         (slotArgs (programCalls wheelPosOfHour cfg t g p)).
Proof.
  intros (Hh & Hh12 & Hmi & Hs & Hd & Hmo & Hy).
  assert (Hblank : 0 <= BLANK_DIGIT <= 10) by (unfold BLANK_DIGIT; lia).
  destruct p; cbn [programCalls].
  - set (hour := if HOUR_FORMAT_12 cfg then t_hourFormat12 t else t_hour t).
    assert (Hhour : 0 <= hour <= 23)
      by (unfold hour; destruct (HOUR_FORMAT_12 cfg); lia).
    change (slotArgs (showTime wheelPosOfHour cfg t (dotToggle g)))
      with [leading cfg hour; Z.rem hour 10;
            Z.quot (t_minute t) 10; Z.rem (t_minute t) 10;
            Z.quot (t_second t) 10; Z.rem (t_second t) 10].
    destruct (leading_code cfg hour ltac:(lia)) as (L & _).
    destruct (units_digit hour ltac:(lia)) as [-> ?].
    destruct (units_digit (t_minute t) ltac:(lia)) as [-> ?].
    destruct (units_digit (t_second t) ltac:(lia)) as [-> ?].
    destruct (tens_digit (t_minute t) Hmi) as [-> ?].
    destruct (tens_digit (t_second t) Hs) as [-> ?].
    repeat (constructor; [ lia | ]). constructor.
  - set (year := t_year t - 2000).
    change (slotArgs (showDate cfg t))
      with [leading cfg (t_month t); Z.rem (t_month t) 10;
            leading cfg (t_day t); Z.rem (t_day t) 10;
            leading cfg year; Z.rem year 10].
    destruct (leading_code cfg (t_month t) ltac:(lia)) as (L1 & _).
    destruct (leading_code cfg (t_day t) ltac:(lia)) as (L2 & _).
    destruct (leading_code cfg year ltac:(unfold year; lia)) as (L3 & _).
    destruct (units_digit (t_month t) ltac:(lia)) as [-> ?].
    destruct (units_digit (t_day t) ltac:(lia)) as [-> ?].
    destruct (units_digit year ltac:(unfold year; lia)) as [-> ?].
    repeat (constructor; [ lia | ]). constructor.
  - assert (E : slotArgs rainbow = repeat BLANK_DIGIT 6)
      by (vm_compute; reflexivity).
    rewrite E. cbn [repeat]. repeat (constructor; [ exact Hblank | ]).
    constructor.
  - constructor.
  - destruct (clockOn g); [ | constructor ].
    change (slotArgs shutdown) with (repeat BLANK_DIGIT 6).
    cbn [repeat]. repeat (constructor; [ exact Hblank | ]). constructor.
Qed.

(** X9: for a valid local time every slot value [updateDisplay] hands to
    [setNX1Digit] .. [setNX6Digit] lies in 0..10, so the lookup in
    [NUMERIC_DIGITS] stays inside that table. *)
Theorem slot_arguments_in_range (wheelPosOfHour : bool -> Z -> Z)
  (cfg : Config) (t : LocalTime) (g : Globals) :
  validTime t ->
  Forall (fun d => 0 <= d <= 10 /\ is_Some (index NUMERIC_DIGITS d))
         (slotArgs (snd (updateDisplay wheelPosOfHour cfg t g))).
Proof.
  intros Hv.
  assert (H : Forall (fun d => 0 <= d <= 10)
                (slotArgs (snd (updateDisplay wheelPosOfHour cfg t g)))).
  { destruct (inWindow cfg (t_hour t)) eqn:Hwin.
    - rewrite (updateDisplay_on wheelPosOfHour cfg t g Hwin). cbv zeta.
      cbn [snd]. rewrite slotArgs_app. apply Forall_app. split.
      + destruct (clockOn g); constructor.
      + apply slotArgs_programCalls. exact Hv.
    - rewrite (updateDisplay_off wheelPosOfHour cfg t g Hwin).
      pose proof (slotArgs_programCalls wheelPosOfHour cfg t g PoweredOff Hv)
        as Hp.
      cbn [programCalls] in Hp. destruct (clockOn g); exact Hp. }
  eapply Forall_impl; [ exact H | ].
  intros d Hd. split; [ exact Hd | apply NUMERIC_DIGITS_defined; exact Hd ].
Qed.

Lemma slot_arguments_in_range_witness :
  let wheel := fun (_ : bool) (h : Z) => 21 * h in
  let t := mkLocal 7 7 5 9 4 3 2021 in
  slotArgs (snd (updateDisplay wheel asBuilt t startup)) = [10; 7; 0; 5; 0; 9]
  /\ Forall (fun d => 0 <= d <= 10 /\ is_Some (index NUMERIC_DIGITS d))
            (slotArgs (snd (updateDisplay wheel asBuilt t startup))).
Proof.
  intros wheel t. split; [ reflexivity | ].
  apply slot_arguments_in_range. unfold validTime, t. cbn. lia.
Defined.

(** ** The high voltage and the indicators over a run of ticks *)

Lemma hvCalls_app cs1 cs2 : hvCalls (cs1 ++ cs2) = hvCalls cs1 ++ hvCalls cs2.
Proof. unfold hvCalls. apply flat_map_app. Qed.

Lemma dotCalls_app cs1 cs2 : dotCalls (cs1 ++ cs2) = dotCalls cs1 ++ dotCalls cs2.
Proof. unfold dotCalls. apply flat_map_app. Qed.

Lemma hvCalls_program wheelPosOfHour cfg t g p :
  p <> PoweredOff -> hvCalls (programCalls wheelPosOfHour cfg t g p) = [].
Proof.
  intros Hp. destruct p; try contradiction; cbn [programCalls];
    reflexivity.
Qed.

(** The high-voltage commands of one call of [updateDisplay]: one when the
    power state changes, none otherwise. *)
Lemma hvCalls_updateDisplay wheelPosOfHour cfg t g :
  hvCalls (snd (updateDisplay wheelPosOfHour cfg t g))
  = if Bool.eqb (inWindow cfg (t_hour t)) (clockOn g) then []
    else [inWindow cfg (t_hour t)].
Proof.
  destruct (inWindow cfg (t_hour t)) eqn:Hwin.
  - rewrite (updateDisplay_on wheelPosOfHour cfg t g Hwin). cbv zeta.
    cbn [snd]. rewrite hvCalls_app, hvCalls_program.
    + destruct (clockOn g); reflexivity.
    + apply dispatch_cases.
  - rewrite (updateDisplay_off wheelPosOfHour cfg t g Hwin).
    destruct (clockOn g); reflexivity.
Qed.

(** X10: over any run of ticks the high voltage is commanded only when the
    power state changes: the commands alternate, the first being opposite
    to the state the run starts in, and a single call of [updateDisplay]
    issues one exactly when the window test differs from [clockOn]. *)
Theorem hv_commands_alternate (wheelPosOfHour : bool -> Z -> Z)
  (cfg : Config) (ts : list LocalTime) (g : Globals) :
  alternating (clockOn g)
              (hvCalls (snd (fst (ticks wheelPosOfHour cfg ts g))))
  /\ (forall t,
        hvCalls (snd (updateDisplay wheelPosOfHour cfg t g))
        = if Bool.eqb (inWindow cfg (t_hour t)) (clockOn g) then []
          else [inWindow cfg (t_hour t)]).
Proof.
  split; [ | intros t; apply hvCalls_updateDisplay ].
  revert g. induction ts as [| t ts IH]; intros g; [ exact I | ].
  cbn [ticks].
  pose proof (hvCalls_updateDisplay wheelPosOfHour cfg t g) as Hhv.
  pose proof (clockOn_after wheelPosOfHour cfg t g) as Hon.
  destruct (updateDisplay wheelPosOfHour cfg t g) as [g1 c1].
  cbn [fst snd] in Hhv, Hon.
  specialize (IH g1).
  destruct (ticks wheelPosOfHour cfg ts g1) as [[ps cs] g2].
  cbn [fst snd] in *. rewrite hvCalls_app, Hhv. rewrite Hon in IH.
  destruct (inWindow cfg (t_hour t)), (clockOn g); cbn [Bool.eqb app];
    try exact IH; split; try reflexivity; exact IH.
Qed.

Lemma dotCalls_showTime wheelPosOfHour cfg t dots :
  dotCalls (showTime wheelPosOfHour cfg t dots) = [dots].
Proof. reflexivity. Qed.

(** X11: over a run of ticks that all show the time, the indicators are
    commanded once per tick, starting with [dotToggle] and changing over at
    every tick, and [previousMinute] is left as it was. *)
Theorem indicators_blink (wheelPosOfHour : bool -> Z -> Z) (cfg : Config)
  (ts : list LocalTime) (g : Globals) :
  Forall (fun t => inWindow cfg (t_hour t) = true
                   /\ dispatch (t_minute t) (previousMinute g) = ShowTime) ts ->
  dotCalls (snd (fst (ticks wheelPosOfHour cfg ts g)))
  = blink (dotToggle g) (length ts)
  /\ previousMinute (snd (ticks wheelPosOfHour cfg ts g)) = previousMinute g
  /\ dotToggle (snd (ticks wheelPosOfHour cfg ts g))
     = if Nat.even (length ts) then dotToggle g else negb (dotToggle g).
Proof.
  revert g. induction ts as [| t ts IH]; intros g Hall.
  - cbn. repeat split; reflexivity.
  - apply Forall_cons_1 in Hall. destruct Hall as [[Hwin Hd] Hall].
    cbn [ticks]. rewrite (updateDisplay_on wheelPosOfHour cfg t g Hwin).
    cbv zeta. rewrite Hd. cbn [programCalls].
    specialize (IH (mkGlobals (previousMinute g) (t_minute t)
                              (negb (dotToggle g)) true) Hall).
    destruct (ticks wheelPosOfHour cfg ts _) as [[ps cs] g2].
    cbn [fst snd dotToggle previousMinute] in *.
    destruct IH as (I1 & I2 & I3).
    rewrite !dotCalls_app, dotCalls_showTime, I1, I2, I3.
    replace (dotCalls (if clockOn g then [] else [HvEnable true]))
      with (@nil bool) by (destruct (clockOn g); reflexivity).
    cbn [length blink app].
    split; [ reflexivity | ]. split; [ reflexivity | ].
    rewrite Nat.even_succ, <- Nat.negb_even.
    destruct (Nat.even (length ts)); cbn [negb];
      [ reflexivity | apply negb_involutive ].
Qed.

Lemma indicators_blink_witness :
  let wheel := fun (_ : bool) (h : Z) => 21 * h in
  let ts := [mkLocal 8 8 5 1 21 3 2021; mkLocal 8 8 5 2 21 3 2021;
             mkLocal 8 8 5 3 21 3 2021] in
  dotCalls (snd (fst (ticks wheel asBuilt ts startup))) = [false; true; false]
  /\ dotToggle (snd (ticks wheel asBuilt ts startup)) = true.
Proof.
  intros wheel ts.
  assert (Hall : Forall (fun t => inWindow asBuilt (t_hour t) = true
                   /\ dispatch (t_minute t) (previousMinute startup) = ShowTime)
                   ts).
  { repeat (constructor; [ split; reflexivity | ]). constructor. }
  destruct (indicators_blink wheel asBuilt ts startup Hall)
    as (H1 & _ & H3).
  split; [ exact H1 | exact H3 ].
Defined.

(** ** The programs of an hour *)

Lemma dispatch_rule m prev : m <> prev -> dispatch m prev = rule m.
Proof.
  intros Hne. unfold dispatch, rule.
  apply Z.eqb_neq in Hne. rewrite Hne. cbn [negb andb].
  destruct (m =? 0); cbn [negb andb]; [ reflexivity | ].
  destruct (Z.rem m 15 =? 0); [ reflexivity | ].
  destruct (Z.rem m 10 =? 0); reflexivity.
Qed.

Lemma dispatch_quiet m prev : rule m = ShowTime -> dispatch m prev = ShowTime.
Proof.
  unfold dispatch, rule.
  destruct (m =? 0); [ discriminate | ].
  destruct (Z.rem m 15 =? 0); [ discriminate | ].
  destruct (Z.rem m 10 =? 0); [ discriminate | ].
  intros _. rewrite !andb_false_r. reflexivity.
Qed.

Lemma schedule_from wheelPosOfHour cfg ts : forall last g,
  Forall (fun t => inWindow cfg (t_hour t) = true) ts ->
  nondecreasing last (map t_minute ts) ->
  previousMinute g <= last ->
  (rule last <> ShowTime -> previousMinute g = last) ->
  fst (fst (ticks wheelPosOfHour cfg ts g))
  = ruleAtChanges last (map t_minute ts).
Proof.
  induction ts as [| t ts IH]; intros last g Hall Hsort Hle Hev;
    [ reflexivity | ].
  apply Forall_cons_1 in Hall. destruct Hall as [Hwin Hall].
  cbn [map nondecreasing] in Hsort. destruct Hsort as [Hm Hsort].
  cbn [ticks map ruleAtChanges].
  rewrite (updateDisplay_on wheelPosOfHour cfg t g Hwin). cbv zeta.
  assert (Hsel : selected cfg t g = dispatch (t_minute t) (previousMinute g)).
  { unfold selected. rewrite Hwin. reflexivity. }
  assert (Hd : dispatch (t_minute t) (previousMinute g)
               = if t_minute t =? last then ShowTime else rule (t_minute t)).
  { destruct (Z.eqb_spec (t_minute t) last) as [E | E].
    - destruct (rule last) eqn:Er.
      + apply dispatch_quiet. rewrite E. exact Er.
      + rewrite E, <- (Hev ltac:(congruence)). apply dispatch_same.
      + rewrite E, <- (Hev ltac:(congruence)). apply dispatch_same.
      + rewrite E, <- (Hev ltac:(congruence)). apply dispatch_same.
      + rewrite E, <- (Hev ltac:(congruence)). apply dispatch_same.
    - apply dispatch_rule. lia. }
  match goal with
  | |- context [ticks wheelPosOfHour cfg ts ?g1] =>
      specialize (IH (t_minute t) g1 Hall Hsort)
  end.
  cbn [previousMinute] in IH.
  assert (Hinv1 : match dispatch (t_minute t) (previousMinute g) with
                  | ShowTime => previousMinute g
                  | _ => t_minute t
                  end <= t_minute t).
  { destruct (dispatch (t_minute t) (previousMinute g)); lia. }
  assert (Hinv2 : rule (t_minute t) <> ShowTime ->
                  match dispatch (t_minute t) (previousMinute g) with
                  | ShowTime => previousMinute g
                  | _ => t_minute t
                  end = t_minute t).
  { intros Hr. rewrite Hd.
    destruct (Z.eqb_spec (t_minute t) last) as [E | E].
    - rewrite E in *. apply Hev. exact Hr.
    - destruct (rule (t_minute t)); try reflexivity. contradiction. }
  specialize (IH Hinv1 Hinv2).
  destruct (ticks wheelPosOfHour cfg ts _) as [[ps cs] g2].
  cbn [fst] in *. rewrite Hsel, Hd, IH. reflexivity.
Qed.

(** X12: ticking in time order through an hour from minute 0, with the cell
    holding another minute, the program of each tick is the guard chain
    without its memory on the first tick of a minute and the time display
    on the other ticks of that minute: the sweep at 0, the rainbow at 15, 30
    and 45, the date at 10, 20, 40 and 50, the time everywhere else. *)
Theorem hour_schedule (wheelPosOfHour : bool -> Z -> Z) (cfg : Config)
  (t : LocalTime) (ts : list LocalTime) (g : Globals) :
  Forall (fun t' => inWindow cfg (t_hour t') = true) (t :: ts) ->
  t_minute t = 0 -> previousMinute g <> 0 ->
  nondecreasing 0 (map t_minute ts) ->
  fst (fst (ticks wheelPosOfHour cfg (t :: ts) g))
  = ruleAtChanges (-1) (map t_minute (t :: ts))
  /\ (forall m, 0 <= m <= 59 ->
        (rule m = AntiPoisoningSweep <-> m = 0)
        /\ (rule m = RainbowSweep <-> m = 15 \/ m = 30 \/ m = 45)
        /\ (rule m = ShowDate <-> m = 10 \/ m = 20 \/ m = 40 \/ m = 50)).
Proof.
  intros Hall Hm Hprev Hsort.
  split.
  - apply Forall_cons_1 in Hall. destruct Hall as [Hwin Hall].
    cbn [ticks map ruleAtChanges].
    rewrite (updateDisplay_on wheelPosOfHour cfg t g Hwin). cbv zeta.
    assert (Hd : dispatch (t_minute t) (previousMinute g) = AntiPoisoningSweep).
    { rewrite dispatch_rule by lia. rewrite Hm. reflexivity. }
    rewrite Hd.
    pose proof (schedule_from wheelPosOfHour cfg ts 0
                  (mkGlobals (t_minute t) (t_minute t) (dotToggle g) true)
                  Hall Hsort) as Hs.
    cbn [previousMinute] in Hs. rewrite Hm in *.
    specialize (Hs ltac:(lia) ltac:(intros _; reflexivity)).
    destruct (ticks wheelPosOfHour cfg ts _) as [[ps cs] g2].
    cbn [fst] in *. rewrite Hs. unfold selected. rewrite Hwin, Hm.
    rewrite dispatch_rule by lia. reflexivity.
  - intros m Hrange.
    pose proof (range_checked 60
      (fun m =>
         match rule m with
         | AntiPoisoningSweep => m =? 0
         | RainbowSweep => (m =? 15) || (m =? 30) || (m =? 45)
         | ShowDate => (m =? 10) || (m =? 20) || (m =? 40) || (m =? 50)
         | ShowTime =>
             negb ((m =? 0) || (m =? 15) || (m =? 30) || (m =? 45)
                   || (m =? 10) || (m =? 20) || (m =? 40) || (m =? 50))
         | PoweredOff => false
         end)
      ltac:(vm_compute; reflexivity) m ltac:(lia)) as H.
    cbv beta in H.
    destruct (rule m); repeat split; intros; try discriminate; try lia.
Qed.

Lemma hour_schedule_witness :
  let wheel := fun (_ : bool) (h : Z) => 21 * h in
  let at_ := fun m s => mkLocal 9 9 m s 21 3 2021 in
  let g := mkGlobals 50 59 false true in
  fst (fst (ticks wheel asBuilt
              [at_ 0 0; at_ 0 30; at_ 9 59; at_ 10 0; at_ 10 11; at_ 15 0;
               at_ 30 0] g))
  = [AntiPoisoningSweep; ShowTime; ShowTime; ShowDate; ShowTime;
     RainbowSweep; RainbowSweep].
Proof.
  intros wheel at_ g.
  pose proof (hour_schedule wheel asBuilt (at_ 0 0)
                [at_ 0 30; at_ 9 59; at_ 10 0; at_ 10 11; at_ 15 0; at_ 30 0]
                g) as H.
  assert (Hall : Forall (fun t' => inWindow asBuilt (t_hour t') = true)
                   [at_ 0 0; at_ 0 30; at_ 9 59; at_ 10 0; at_ 10 11;
                    at_ 15 0; at_ 30 0]).
  { repeat (constructor; [ reflexivity | ]). constructor. }
  specialize (H Hall eq_refl ltac:(cbn; lia) ltac:(cbn; lia)).
  destruct H as [H _]. exact H.
Defined.

Lemma delayOf_app cs1 cs2 : delayOf (cs1 ++ cs2) = delayOf cs1 + delayOf cs2.
Proof.
  induction cs1 as [| c cs1 IH]; [ reflexivity | ].
  change (delayOf ((c :: cs1) ++ cs2))
    with (match c with
          | DelayMs ms => ms + delayOf (cs1 ++ cs2)
          | _ => delayOf (cs1 ++ cs2)
          end).
  change (delayOf (c :: cs1))
    with (match c with DelayMs ms => ms + delayOf cs1 | _ => delayOf cs1 end).
  destruct c; lia.
Qed.

(** X13: the time [updateDisplay] itself spends in [delay] depends only on
    the program it runs: 25.6 s for the rainbow, 10 s for the date, none for
    the time display, for the shutdown and around the anti-poisoning call. *)
Theorem blocking_time (wheelPosOfHour : bool -> Z -> Z) (cfg : Config)
  (t : LocalTime) (g : Globals) :
  delayOf (snd (updateDisplay wheelPosOfHour cfg t g))
  = match selected cfg t g with
    | RainbowSweep => 25600
    | ShowDate => 10000
    | _ => 0
    end.
Proof.
  unfold selected. destruct (inWindow cfg (t_hour t)) eqn:Hwin.
  - rewrite (updateDisplay_on wheelPosOfHour cfg t g Hwin). cbv zeta.
    cbn [snd]. rewrite delayOf_app.
    replace (delayOf (if clockOn g then [] else [HvEnable true])) with 0
      by (destruct (clockOn g); reflexivity).
    destruct (dispatch (t_minute t) (previousMinute g)); cbn [programCalls];
      try reflexivity.
    destruct (clockOn g); reflexivity.
  - rewrite (updateDisplay_off wheelPosOfHour cfg t g Hwin).
    destruct (clockOn g); reflexivity.
Qed.

(** ** More on the time source *)

(** X14: an attempt yields the zero sentinel, and so counts as failed,
    exactly when the reply is not 48 bytes long or its bytes 40..43 hold
    2,208,988,800, the first second of 1970. *)
Theorem attempt_fails_iff (reply : list Z) :
  Forall (fun b => 0 <= b < 256) reply ->
  (decodeReply reply = 0
   <-> Z.of_nat (length reply) <> 48
       \/ be32 (nth 40 reply 0) (nth 41 reply 0) (nth 42 reply 0)
               (nth 43 reply 0) = 2208988800).
Proof.
  intros Hbytes.
  destruct (be32_of_bytes _ _ _ _ (nth_byte reply 40 Hbytes)
              (nth_byte reply 41 Hbytes) (nth_byte reply 42 Hbytes)
              (nth_byte reply 43 Hbytes)) as [Hsecs Hrange].
  set (secs := be32 _ _ _ _) in *.
  unfold decodeReply, NTP_PACKET_SIZE.
  destruct (Z.eqb_spec (Z.of_nat (length reply)) 48) as [E | E].
  - change (secsSince1900 reply)
      with (Z.lor (Z.lor (Z.lor (u32 (Z.shiftl (nth 40 reply 0) 24))
                                (u32 (Z.shiftl (nth 41 reply 0) 16)))
                         (u32 (Z.shiftl (nth 42 reply 0) 8)))
                  (nth 43 reply 0)).
    rewrite Hsecs. unfold u32. split.
    + intros H0. right.
      destruct (Z.le_gt_cases 2208988800 secs) as [Hge | Hlt].
      * rewrite Z.mod_small in H0 by lia. lia.
      * rewrite <- (Z.mod_add (secs - 2208988800) 1 4294967296) in H0 by lia.
        rewrite Z.mod_small in H0 by lia. lia.
    + intros [H | H]; [ contradiction | ]. rewrite H. reflexivity.
  - split; [ intros _; left; exact E | reflexivity ].
Qed.

Lemma attempt_fails_iff_witness :
  decodeReply (repeat 0 40 ++ [131; 170; 126; 128; 0; 0; 0; 0]) = 0
  /\ decodeReply (repeat 0 47) = 0.
Proof.
  split.
  - apply attempt_fails_iff; [ simpl; repeat constructor; lia | ].
    right. reflexivity.
  - apply attempt_fails_iff; [ simpl; repeat constructor; lia | ].
    left. discriminate.
Defined.

Section MoreTimeSourceFacts.

Variable env : Env.
Variable breakTime : Z -> tmElements.
Variable makeTime : tmElements -> Z.

(** The [while] loop when the seconds stay put for [n] reads and the next
    read, still in time, shows another second. *)
Lemma waitForTick_ticks n : forall fuel w m prevSeconds start_ms,
  (n < fuel)%nat ->
  Second m = prevSeconds ->
  (forall j, (j < n)%nat ->
     Second (getRTCTime (rtcRegs env (rtcReads w + j)%nat)) = prevSeconds
     /\ u32 (u32 (millisAt env (clockReads w + j)%nat) - start_ms) <= 3000) ->
  Second (getRTCTime (rtcRegs env (rtcReads w + n)%nat)) <> prevSeconds ->
  u32 (u32 (millisAt env (clockReads w + n)%nat) - start_ms) <= 3000 ->
  waitForTick env fuel prevSeconds start_ms m w
  = Some (true, getRTCTime (rtcRegs env (rtcReads w + n)%nat),
          mkWorld (queries w) (rtcReads w + S n)%nat
                  (clockReads w + S n)%nat
                  (log w ++ repeat (WireWrite [zero]) (S n))).
Proof.
  induction n as [| n IH]; intros fuel w m prev start Hfuel Hm Hsame Hnew Hin.
  - destruct fuel as [| fuel]; [ lia | ]. cbn [waitForTick].
    rewrite Hm, Z.eqb_refl.
    cbn [shieldGetRTCTime millis queries rtcReads clockReads log].
    rewrite Nat.add_0_r in Hnew, Hin.
    assert (Hnot : (u32 (u32 (millisAt env (clockReads w)) - start) >? 3000)
                   = false).
    { rewrite Z.gtb_ltb. apply Z.ltb_ge. exact Hin. }
    rewrite Hnot.
    assert (Hne : (prev =? Second (getRTCTime (rtcRegs env (rtcReads w))))
                  = false).
    { apply Z.eqb_neq. congruence. }
    destruct fuel as [| fuel]; cbn [waitForTick]; rewrite Hne;
      rewrite !Nat.add_0_r, !Nat.add_1_r; reflexivity.
  - destruct fuel as [| fuel]; [ lia | ]. cbn [waitForTick].
    rewrite Hm, Z.eqb_refl.
    cbn [shieldGetRTCTime millis queries rtcReads clockReads log].
    destruct (Hsame 0%nat ltac:(lia)) as [Hs0 Ht0].
    rewrite Nat.add_0_r in Hs0, Ht0.
    assert (Hnot : (u32 (u32 (millisAt env (clockReads w)) - start) >? 3000)
                   = false).
    { rewrite Z.gtb_ltb. apply Z.ltb_ge. exact Ht0. }
    rewrite Hnot.
    rewrite (IH fuel _ _ prev start).
    + cbn [queries rtcReads clockReads log repeat].
      f_equal. f_equal; [ f_equal; f_equal; f_equal; lia | ].
      rewrite <- app_assoc. cbn [app].
      f_equal; lia.
    + lia.
    + exact Hs0.
    + intros j Hj. cbn [rtcReads clockReads].
      replace (S (rtcReads w) + j)%nat with (rtcReads w + S j)%nat by lia.
      replace (S (clockReads w) + j)%nat with (clockReads w + S j)%nat by lia.
      apply Hsame. lia.
    + cbn [rtcReads].
      replace (S (rtcReads w) + n)%nat with (rtcReads w + S n)%nat by lia.
      exact Hnew.
    + cbn [clockReads].
      replace (S (clockReads w) + n)%nat with (clockReads w + S n)%nat by lia.
      exact Hin.
Qed.

End MoreTimeSourceFacts.

(** X15: when all 20 attempts fail, [getTime] reads the clock chip until
    its seconds field changes; if the read that shows the change comes back
    within 3000 ms of the first, the result is TimeLib's [makeTime] of that
    read, so it is taken at a second boundary; if that read comes back
    later, the result is 0 although the chip answered. *)
Theorem rtc_fallback_result (env : Env) (breakTime : Z -> tmElements)
  (makeTime : tmElements -> Z) (w : World) (n fuel : nat) :
  (forall i, (i < 20)%nat ->
     decodeReply (udpReply env (queries w + i)%nat) = 0) ->
  let reading j := getRTCTime (rtcRegs env (rtcReads w + j)%nat) in
  let elapsed j :=
    u32 (u32 (millisAt env (clockReads w + j)%nat)
         - u32 (millisAt env (clockReads w))) in
  (forall j, (1 <= j <= n)%nat ->
     Second (reading j) = Second (reading 0%nat) /\ elapsed j <= 3000) ->
  Second (reading (S n)) <> Second (reading 0%nat) ->
  (n < fuel)%nat ->
  getTime env breakTime makeTime fuel w
  = Some (if elapsed (S n) <=? 3000 then makeTime (reading (S n)) else 0,
          mkWorld (queries w + 20)%nat (rtcReads w + S (S n))%nat
                  (clockReads w + S (S n))%nat
                  (log w ++ concat (repeat failedAttempt 20)
                         ++ repeat (WireWrite [zero]) (S (S n)))).
Proof.
  intros Hfail reading elapsed Hsame Hnew Hfuel.
  pose proof (attempts_all_fail env breakTime 20 w Hfail) as Hatt.
  unfold getTime. change RETRIES with 20%nat. rewrite Hatt.
  unfold _getRTCTime.
  cbn [shieldGetRTCTime millis queries rtcReads clockReads log].
  assert (Hsame' : forall j, (j < n)%nat ->
            Second (getRTCTime (rtcRegs env (S (rtcReads w) + j)%nat))
            = Second (getRTCTime (rtcRegs env (rtcReads w)))
            /\ u32 (u32 (millisAt env (S (clockReads w) + j)%nat)
                    - u32 (millisAt env (clockReads w))) <= 3000).
  { intros j Hj.
    replace (S (rtcReads w) + j)%nat with (rtcReads w + S j)%nat by lia.
    replace (S (clockReads w) + j)%nat with (clockReads w + S j)%nat by lia.
    destruct (Hsame (S j) ltac:(lia)) as [Hs Ht].
    unfold reading in Hs. rewrite Nat.add_0_r in Hs.
    split; [ exact Hs | exact Ht ]. }
  assert (Hnew' : Second (getRTCTime (rtcRegs env (S (rtcReads w) + n)%nat))
                  <> Second (getRTCTime (rtcRegs env (rtcReads w)))).
  { replace (S (rtcReads w) + n)%nat with (rtcReads w + S n)%nat by lia.
    unfold reading in Hnew. rewrite Nat.add_0_r in Hnew. exact Hnew. }
  assert (Eel : u32 (u32 (millisAt env (S (clockReads w) + n)%nat)
                     - u32 (millisAt env (clockReads w))) = elapsed (S n)).
  { unfold elapsed.
    replace (S (clockReads w) + n)%nat with (clockReads w + S n)%nat by lia.
    reflexivity. }
  destruct (Z.leb_spec (elapsed (S n)) 3000) as [Hin | Hlate].
  - rewrite (waitForTick_ticks env n fuel _ _ _ _ Hfuel eq_refl).
    + cbn [mbind option_bind queries rtcReads clockReads log].
      unfold reading.
      replace (S (rtcReads w) + n)%nat with (rtcReads w + S n)%nat by lia.
      f_equal. f_equal. f_equal; try lia.
      rewrite <- !app_assoc. reflexivity.
    + exact Hsame'.
    + exact Hnew'.
    + cbn [clockReads]. rewrite Eel. exact Hin.
  - rewrite (waitForTick_times_out env n fuel _ _ _ _ Hfuel eq_refl).
    + cbn [mbind option_bind queries rtcReads clockReads log].
      f_equal. f_equal. f_equal; try lia.
      rewrite <- !app_assoc. reflexivity.
    + exact Hsame'.
    + cbn [clockReads]. rewrite Eel. exact Hlate.
Qed.

Lemma rtc_fallback_result_witness :
  let env := mkEnv (fun _ => [])
                   (fun k => if (k <? 2)%nat then [48; 89; 34; 4; 33; 3; 81]
                             else [49; 89; 34; 4; 33; 3; 81])
                   (fun k => 1000 + 400 * Z.of_nat k) in
  let breakTime := fun _ : Z => mkTm 0 0 0 0 1 1 0 in
  let makeTime := fun m : tmElements => 1000 + Second m in
  getTime env breakTime makeTime 5 NTP.start
  = Some (1031, mkWorld 20 3 3
                  (concat (repeat failedAttempt 20)
                     ++ repeat (WireWrite [zero]) 3)).
Proof.
  intros env breakTime makeTime.
  pose proof (rtc_fallback_result env breakTime makeTime NTP.start 1 5) as H.
  cbv zeta in H.
  specialize (H ltac:(intros i _; reflexivity)).
  assert (Hsame : forall j, (1 <= j <= 1)%nat ->
            Second (getRTCTime (rtcRegs env (rtcReads NTP.start + j)%nat))
            = Second (getRTCTime (rtcRegs env (rtcReads NTP.start + 0)%nat))
            /\ u32 (u32 (millisAt env (clockReads NTP.start + j)%nat)
                    - u32 (millisAt env (clockReads NTP.start))) <= 3000).
  { intros j Hj. assert (j = 1%nat) as -> by lia.
    split; [ reflexivity | vm_compute; discriminate ]. }
  specialize (H Hsame ltac:(vm_compute; discriminate) ltac:(lia)).
  exact H.
Defined.

(** X16: a clock chip that returns the same bytes on every read, or none
    at all, never shows a change of seconds: once all 20 attempts have
    failed, [getTime] returns 0 at the first read that comes back more than
    3000 ms after the start.  With no bytes every field reads 165, the hour
    45. *)
Theorem rtc_stuck_gives_no_time (env : Env) (breakTime : Z -> tmElements)
  (makeTime : tmElements -> Z) (w : World) (regs : list Z) (n fuel : nat) :
  (forall i, (i < 20)%nat ->
     decodeReply (udpReply env (queries w + i)%nat) = 0) ->
  (forall k, rtcRegs env k = regs) ->
  let elapsed j :=
    u32 (u32 (millisAt env (clockReads w + j)%nat)
         - u32 (millisAt env (clockReads w))) in
  (forall j, (1 <= j <= n)%nat -> elapsed j <= 3000) ->
  3000 < elapsed (S n) ->
  (n < fuel)%nat ->
  getTime env breakTime makeTime fuel w
  = Some (0,
          mkWorld (queries w + 20)%nat (rtcReads w + S (S n))%nat
                  (clockReads w + S (S n))%nat
                  (log w ++ concat (repeat failedAttempt 20)
                         ++ repeat (WireWrite [zero]) (S (S n))))
  /\ getRTCTime [] = mkTm 165 165 45 165 165 165 165.
Proof.
  intros Hfail Hregs elapsed Hin Hlate Hfuel.
  split; [ | reflexivity ].
  pose proof (attempts_all_fail env breakTime 20 w Hfail) as Hatt.
  unfold getTime. change RETRIES with 20%nat. rewrite Hatt.
  unfold _getRTCTime.
  cbn [shieldGetRTCTime millis queries rtcReads clockReads log].
  rewrite (waitForTick_times_out env n fuel _ _ _ _ Hfuel eq_refl).
  - cbn [mbind option_bind queries rtcReads clockReads log].
    f_equal. f_equal. f_equal; try lia.
    rewrite <- !app_assoc. reflexivity.
  - intros j Hj. cbn [rtcReads clockReads]. rewrite !Hregs.
    split; [ reflexivity | ].
    replace (S (clockReads w) + j)%nat with (clockReads w + S j)%nat by lia.
    apply (Hin (S j)). lia.
  - cbn [clockReads].
    replace (S (clockReads w) + n)%nat with (clockReads w + S n)%nat by lia.
    exact Hlate.
Qed.

Lemma rtc_stuck_gives_no_time_witness :
  let env := mkEnv (fun _ => []) (fun _ => [])
                   (fun k => 1600 * Z.of_nat k) in
  let breakTime := fun _ : Z => mkTm 0 0 0 0 1 1 0 in
  let makeTime := fun m : tmElements => 1 + Second m in
  getTime env breakTime makeTime 2 NTP.start
  = Some (0, mkWorld 20 3 3
               (concat (repeat failedAttempt 20)
                  ++ repeat (WireWrite [zero]) 3)).
Proof.
  intros env breakTime makeTime.
  pose proof (rtc_stuck_gives_no_time env breakTime makeTime NTP.start [] 1 2)
    as H.
  cbv zeta in H.
  specialize (H ltac:(intros i _; reflexivity) ltac:(intros k; reflexivity)).
  assert (Hin : forall j, (1 <= j <= 1)%nat ->
            u32 (u32 (millisAt env (clockReads NTP.start + j)%nat)
                 - u32 (millisAt env (clockReads NTP.start))) <= 3000).
  { intros j Hj. assert (j = 1%nat) as -> by lia. vm_compute. discriminate. }
  specialize (H Hin ltac:(vm_compute; reflexivity) ltac:(lia)).
  destruct H as [H _]. exact H.
Defined.

Lemma logDelay_app l1 l2 : logDelay (l1 ++ l2) = logDelay l1 + logDelay l2.
Proof.
  induction l1 as [| o l1 IH]; [ reflexivity | ].
  change (logDelay ((o :: l1) ++ l2))
    with (match o with
          | Delay ms => ms + logDelay (l1 ++ l2)
          | _ => logDelay (l1 ++ l2)
          end).
  change (logDelay (o :: l1))
    with (match o with Delay ms => ms + logDelay l1 | _ => logDelay l1 end).
  destruct o; lia.
Qed.

Lemma attempts_budget env breakTime n : forall w,
  let r := attempts env breakTime n w in
  (queries (snd r) <= queries w + n)%nat
  /\ logDelay (log (snd r)) <= logDelay (log w) + 1300 * Z.of_nat n
  /\ (fst r = None ->
      queries (snd r) = (queries w + n)%nat
      /\ logDelay (log (snd r)) = logDelay (log w) + 1300 * Z.of_nat n)
  /\ (forall x, fst r = Some x -> 0 < x < 4294967296).
Proof.
  induction n as [| n IH]; intros w; cbv zeta.
  - cbn [attempts fst snd]. repeat split; try lia; discriminate.
  - cbn [attempts _getTime].
    destruct (Z.eqb_spec (decodeReply (udpReply env (queries w))) 0)
      as [E | E]; cbn [negb].
    + match goal with
      | |- context [attempts env breakTime n ?w1] =>
          set (w' := w1); specialize (IH w')
      end.
      cbv zeta in IH. destruct IH as (I1 & I2 & I3 & I4).
      assert (Eq : queries w' = S (queries w)) by reflexivity.
      assert (El : logDelay (log w') = logDelay (log w) + 1300).
      { unfold w', emit. cbn [log]. rewrite !logDelay_app.
        change (logDelay [UdpSend request; Delay 1000]) with 1000.
        change (logDelay [Delay 300]) with 300. lia. }
      split; [ lia | ]. split; [ lia | ].
      split; [ | exact I4 ].
      intros Hnone. destruct (I3 Hnone) as [J1 J2]. split; lia.
    + cbn [fst snd]. unfold emit. cbn [queries log].
      rewrite !logDelay_app.
      change (logDelay [UdpSend request; Delay 1000]) with 1000.
      change (logDelay (setRTCDateTime
                (breakTime (decodeReply (udpReply env (queries w)))))) with 0.
      split; [ lia | ]. split; [ lia | ]. split; [ discriminate | ].
      intros x [= <-].
      assert (Hr : 0 <= decodeReply (udpReply env (queries w)) < 4294967296).
      { unfold decodeReply.
        destruct (Z.of_nat (length (udpReply env (queries w)))
                  =? NTP_PACKET_SIZE); [ apply u32_range | lia ]. }
      lia.
Qed.

(** X17: whatever the network does, the retry loop of [getTime] sends at
    most 20 requests and spends at most 26 s in [delay]; when it gives up it
    has sent exactly 20 and waited exactly 26 s; and a result it returns is
    nonzero and fits 32 bits. *)
Theorem network_phase_budget (env : Env) (breakTime : Z -> tmElements)
  (w : World) :
  let r := attempts env breakTime RETRIES w in
  (queries (snd r) <= queries w + 20)%nat
  /\ logDelay (log (snd r)) <= logDelay (log w) + 26000
  /\ (fst r = None ->
      queries (snd r) = (queries w + 20)%nat
      /\ logDelay (log (snd r)) = logDelay (log w) + 26000)
  /\ (forall x, fst r = Some x -> 0 < x < 4294967296).
Proof. exact (attempts_budget env breakTime 20 w). Qed.

(** ** The main loop *)

Lemma updates_app a b : updates (a ++ b) = (updates a + updates b)%nat.
Proof. unfold updates. rewrite List.filter_app, length_app. reflexivity. Qed.

Lemma reconnects_app a b :
  reconnects (a ++ b) = (reconnects a + reconnects b)%nat.
Proof. unfold reconnects. rewrite List.filter_app, length_app. reflexivity. Qed.

(** What one pass does about the display. *)
Lemma loopPass_display i v :
  let refresh := negb (in_clicks i <? 0) && in_timeSet i
                 && negb (in_secondTest i =? previousSecond v) in
  updates (snd (loopPass i v)) = (if refresh then 1 else 0)%nat
  /\ (forall v', fst (loopPass i v) = Some v' ->
        previousSecond v'
        = if refresh then in_secondStore i else previousSecond v).
Proof.
  unfold loopPass.
  destruct (u32 (in_millisTest i) >? nextConnectionCheckTime v);
    destruct (in_connected i); destruct (in_clicks i >? 0);
    destruct (in_clicks i <? 0); destruct (in_timeSet i);
    destruct (in_secondTest i =? previousSecond v);
    cbn; (split; [ reflexivity | intros v' [= <-] || intros v' [=] ]);
    reflexivity.
Qed.

Lemma loopRun_quiet s ins : forall v,
  Forall (fun i => in_secondTest i = s /\ in_secondStore i = s) ins ->
  previousSecond v = s ->
  updates (snd (loopRun ins v)) = 0%nat.
Proof.
  induction ins as [| i ins IH]; intros v Hall Hprev; [ reflexivity | ].
  apply Forall_cons_1 in Hall. destruct Hall as [[Ht Hs] Hall].
  cbn [loopRun].
  destruct (loopPass_display i v) as [Hu Hp]. cbv zeta in Hu, Hp.
  rewrite Ht, Hprev, Z.eqb_refl, andb_false_r in Hu, Hp.
  destruct (loopPass i v) as [[v'|] acts]; cbn [fst snd] in *;
    [ | exact Hu ].
  specialize (IH v' Hall (Hp v' eq_refl)).
  destruct (loopRun ins v') as [r acts']. cbn [snd] in *.
  rewrite updates_app, Hu, IH. reflexivity.
Qed.

(** X18: while [second()] keeps returning the same value, a run of passes
    of [loop] calls [updateDisplay] at most once, and not at all when that
    value is already in [previousSecond] - as it is for second 0 right after
    start-up. *)
Theorem display_once_per_second (s : Z) (ins : list LoopIn) (v : LoopVars) :
  Forall (fun i => in_secondTest i = s /\ in_secondStore i = s) ins ->
  (updates (snd (loopRun ins v)) <= 1)%nat
  /\ (previousSecond v = s -> updates (snd (loopRun ins v)) = 0%nat)
  /\ previousSecond loopStart = 0.
Proof.
  intros Hall.
  split; [ | split; [ intros Hprev; eapply loopRun_quiet; eassumption
                    | reflexivity ] ].
  revert v. induction ins as [| i ins IH]; intros v; [ cbn; lia | ].
  pose proof Hall as Hall0.
  apply Forall_cons_1 in Hall. destruct Hall as [[Ht Hs] Hall].
  cbn [loopRun].
  destruct (loopPass_display i v) as [Hu Hp]. cbv zeta in Hu, Hp.
  destruct (loopPass i v) as [[v'|] acts]; cbn [fst snd] in *.
  - specialize (Hp v' eq_refl).
    destruct (negb (in_clicks i <? 0) && in_timeSet i
              && negb (in_secondTest i =? previousSecond v)).
    + pose proof (loopRun_quiet s ins v' Hall ltac:(congruence)) as Hq.
      destruct (loopRun ins v') as [r acts']. cbn [snd] in *.
      rewrite updates_app, Hu, Hq. lia.
    + specialize (IH Hall v').
      destruct (loopRun ins v') as [r acts']. cbn [snd] in *.
      rewrite updates_app, Hu. lia.
  - destruct (negb (in_clicks i <? 0) && in_timeSet i
              && negb (in_secondTest i =? previousSecond v)); lia.
Qed.

Lemma display_once_per_second_witness :
  let pass := mkLoopIn 5000 true 5000 0 true 7 7 in
  updates (snd (loopRun [pass; pass; pass] loopStart)) = 1%nat
  /\ updates (snd (loopRun [mkLoopIn 5000 true 5000 0 true 0 0] loopStart))
     = 0%nat.
Proof.
  intros pass.
  assert (Hall : Forall (fun i => in_secondTest i = 7 /\ in_secondStore i = 7)
                   [pass; pass; pass]).
  { repeat (constructor; [ split; reflexivity | ]). constructor. }
  destruct (display_once_per_second 7 [pass; pass; pass] loopStart Hall)
    as (Hle & _ & _).
  assert (Hall0 : Forall (fun i => in_secondTest i = 0 /\ in_secondStore i = 0)
                    [mkLoopIn 5000 true 5000 0 true 0 0]).
  { repeat (constructor; [ split; reflexivity | ]). constructor. }
  destruct (display_once_per_second 0 _ loopStart Hall0) as (_ & H0 & _).
  split; [ reflexivity | apply H0; reflexivity ].
Defined.

Lemma loopPass_no_check i v :
  u32 (in_millisTest i) <= nextConnectionCheckTime v ->
  reconnects (snd (loopPass i v)) = 0%nat
  /\ (forall v', fst (loopPass i v) = Some v' ->
        nextConnectionCheckTime v' = nextConnectionCheckTime v).
Proof.
  intros Hle. unfold loopPass.
  assert (E : (u32 (in_millisTest i) >? nextConnectionCheckTime v) = false)
    by (rewrite Z.gtb_ltb; apply Z.ltb_ge; exact Hle).
  rewrite E.
  destruct (in_clicks i >? 0); destruct (in_clicks i <? 0);
    destruct (in_timeSet i);
    destruct (in_secondTest i =? previousSecond v);
    cbn; (split; [ reflexivity | intros v' [= <-] || intros v' [=] ]);
    reflexivity.
Qed.

Lemma loopRun_no_check ins : forall v,
  Forall (fun j => u32 (in_millisTest j) <= nextConnectionCheckTime v) ins ->
  reconnects (snd (loopRun ins v)) = 0%nat
  /\ (forall v', fst (loopRun ins v) = Some v' ->
        nextConnectionCheckTime v' = nextConnectionCheckTime v).
Proof.
  induction ins as [| j ins IH]; intros v Hall.
  - cbn. split; [ reflexivity | intros v' [= <-]; reflexivity ].
  - apply Forall_cons_1 in Hall. destruct Hall as [Hj Hall].
    cbn [loopRun]. destruct (loopPass_no_check j v Hj) as [Hr Hn].
    destruct (loopPass j v) as [[v1|] acts]; cbn [fst snd] in *.
    + specialize (Hn v1 eq_refl). rewrite <- Hn in Hall.
      destruct (IH v1 Hall) as [Ir In'].
      destruct (loopRun ins v1) as [r acts']. cbn [fst snd] in *.
      split; [ rewrite reconnects_app, Hr, Ir; reflexivity | ].
      intros v' Hv'. rewrite (In' v' Hv'). exact Hn.
    + split; [ exact Hr | intros v' [=] ].
Qed.

(** X19: a pass of [loop] whose [millis()] is past
    [nextConnectionCheckTime] calls [WIFI_Connect] exactly when the
    connection is down, and moves the check time to the [millis()] read
    after it plus one hour, in 32-bit arithmetic; the passes that follow
    call [WIFI_Connect] no more as long as their [millis()] is not past
    that time.  When the sum passes 2^32 the new check time lies before the
    [millis()] it was computed from. *)
Theorem wifi_check_spacing (i : LoopIn) (ins : list LoopIn) (v : LoopVars) :
  nextConnectionCheckTime v < u32 (in_millisTest i) ->
  0 <= in_clicks i ->
  let deadline := u32 (u32 (in_millisSet i) + WIFI_CHK_TIME_MS) in
  Forall (fun j => u32 (in_millisTest j) <= deadline) ins ->
  reconnects (snd (loopRun (i :: ins) v))
  = (if in_connected i then 0 else 1)%nat
  /\ (forall v', fst (loopRun (i :: ins) v) = Some v' ->
        nextConnectionCheckTime v' = deadline)
  /\ (u32 (in_millisSet i) + WIFI_CHK_TIME_MS < 4294967296 ->
      deadline = u32 (in_millisSet i) + 3600000)
  /\ (4294967296 <= u32 (in_millisSet i) + WIFI_CHK_TIME_MS ->
      deadline = u32 (in_millisSet i) + 3600000 - 4294967296
      /\ deadline < u32 (in_millisSet i)).
Proof.
  intros Hpast Hclicks deadline Hall.
  pose proof (u32_range (in_millisSet i)) as Hr.
  assert (Hpass : exists v1 acts,
            loopPass i v = (Some v1, acts)
            /\ nextConnectionCheckTime v1 = deadline
            /\ reconnects acts = (if in_connected i then 0 else 1)%nat).
  { unfold loopPass.
    assert (E : (u32 (in_millisTest i) >? nextConnectionCheckTime v) = true)
      by (rewrite Z.gtb_ltb; apply Z.ltb_lt; exact Hpast).
    assert (E' : (in_clicks i <? 0) = false) by (apply Z.ltb_ge; exact Hclicks).
    rewrite E, E'. fold deadline.
    destruct (in_connected i); destruct (in_clicks i >? 0);
      destruct (in_timeSet i);
      destruct (in_secondTest i =? previousSecond v);
      cbn; do 2 eexists; repeat split; reflexivity. }
  destruct Hpass as (v1 & acts & Hp & Hn & Hc).
  cbn [loopRun]. rewrite Hp.
  rewrite <- Hn in Hall. destruct (loopRun_no_check ins v1 Hall) as [Ir In'].
  destruct (loopRun ins v1) as [r acts']. cbn [fst snd] in *.
  split; [ rewrite reconnects_app, Hc, Ir; lia | ].
  split; [ intros v' Hv'; rewrite (In' v' Hv'); exact Hn | ].
  clear Hall Ir In' Hn. unfold deadline, WIFI_CHK_TIME_MS.
  set (m := u32 (in_millisSet i)) in *. split.
  - intros Hfit. apply u32_small. lia.
  - intros Hwrap.
    assert (E : u32 (m + 3600 * 1000) = m + 3600000 - 4294967296).
    { unfold u32.
      rewrite <- (Z.mod_add (m + 3600 * 1000) (-1) 4294967296) by lia.
      apply Z.mod_small. lia. }
    rewrite E. lia.
Qed.

Lemma wifi_check_spacing_witness :
  let first := mkLoopIn 1 false 20000 0 false 0 0 in
  let later := mkLoopIn 3600000 false 3600000 0 false 0 0 in
  reconnects (snd (loopRun [first; later; later] loopStart)) = 1%nat.
Proof.
  intros first later.
  assert (Hall : Forall (fun j => u32 (in_millisTest j)
                          <= u32 (u32 (in_millisSet first) + WIFI_CHK_TIME_MS))
                   [later; later]).
  { repeat (constructor; [ vm_compute; discriminate | ]). constructor. }
  destruct (wifi_check_spacing first [later; later] loopStart
              ltac:(vm_compute; reflexivity) ltac:(cbn; lia) Hall) as (H & _).
  exact H.
Defined.

(** ** Connecting to the network *)

Lemma connectLoop_rounds connectedAt n : forall w,
  exists k,
    (k <= n)%nat
    /\ wlog (connectLoop connectedAt n w) = wlog w ++ concat (repeat waitRound k)
    /\ polls (connectLoop connectedAt n w)
       = (if (k <? n)%nat then polls w + S k else polls w + n)%nat
    /\ (forall j, (j < k)%nat -> connectedAt (polls w + j)%nat = false)
    /\ ((k < n)%nat -> connectedAt (polls w + k)%nat = true).
Proof.
  induction n as [| n IH]; intros w.
  - exists 0%nat. cbn [connectLoop repeat concat]. rewrite app_nil_r.
    repeat split; try lia. cbn. lia.
  - cbn [connectLoop]. destruct (connectedAt (polls w)) eqn:Ec; cbn [negb].
    + exists 0%nat. cbn [polls wlog repeat concat]. rewrite app_nil_r.
      repeat split; try lia.
      * cbn. lia.
      * intros _. rewrite Nat.add_0_r. exact Ec.
    + destruct (IH (mkWifi (S (polls w)) (wlog w ++ waitRound)))
        as (k & Hk & Hlog & Hpolls & Hfalse & Htrue).
      cbn [polls wlog] in *.
      exists (S k). split; [ lia | ]. split.
      { rewrite Hlog. cbn [repeat concat]. rewrite <- !app_assoc. reflexivity. }
      split.
      { rewrite Hpolls.
        destruct (Nat.ltb_spec k n); destruct (Nat.ltb_spec (S k) (S n)); lia. }
      split.
      { intros j Hj. destruct j as [| j].
        - rewrite Nat.add_0_r. exact Ec.
        - replace (polls w + S j)%nat with (S (polls w) + j)%nat by lia.
          apply Hfalse. lia. }
      intros Hlt.
      replace (polls w + S k)%nat with (S (polls w) + k)%nat by lia.
      apply Htrue. lia.
Qed.

Lemma WIFI_Connect_unfold connectedAt w :
  WIFI_Connect connectedAt w
  = (connectedAt (polls (connectLoop connectedAt 40 w)),
     mkWifi (S (polls (connectLoop connectedAt 40 w)))
            (wlog (connectLoop connectedAt 40 w))).
Proof. reflexivity. Qed.

(** X20: [WIFI_Connect] waits in rounds of 500 ms, each blinking the LEDs
    off and green, one round for every status poll that is not connected
    and at most 40 of them, so it blocks for at most 20 s; it stops at the
    first connected poll and asks the status once more at the end. *)
Theorem wifi_connect_budget (connectedAt : nat -> bool) (w : WifiWorld) :
  exists k,
    (k <= 40)%nat
    /\ wlog (snd (WIFI_Connect connectedAt w))
       = wlog w ++ concat (repeat waitRound k)
    /\ logDelay (wlog (snd (WIFI_Connect connectedAt w)))
       = logDelay (wlog w) + 500 * Z.of_nat k
    /\ polls (snd (WIFI_Connect connectedAt w))
       = (if (k <? 40)%nat then polls w + k + 2 else polls w + 41)%nat
    /\ (forall j, (j < k)%nat -> connectedAt (polls w + j)%nat = false)
    /\ ((k < 40)%nat -> connectedAt (polls w + k)%nat = true).
Proof.
  destruct (connectLoop_rounds connectedAt 40 w)
    as (k & Hk & Hlog & Hpolls & Hfalse & Htrue).
  exists k. rewrite WIFI_Connect_unfold.
  generalize dependent (connectLoop connectedAt 40 w). intros w' Hlog Hpolls.
  cbn [snd wlog polls].
  split; [ exact Hk | ]. split; [ exact Hlog | ].
  split.
  { rewrite Hlog, logDelay_app. f_equal.
    clear. induction k as [| k IH]; [ reflexivity | ].
    cbn [repeat concat]. rewrite logDelay_app, IH.
    change (logDelay waitRound) with 500. lia. }
  split.
  { rewrite Hpolls. destruct (Nat.ltb_spec k 40); lia. }
  split; assumption.
Qed.
